(** * Structural pattern detection and selector ranking: a shallow embedding

    The development follows the JavaScript sources
    - [src/content/selectors/table-detector.js]   (class TableDetector)
    - [src/content/selectors/list-detector.js]    (class ListDetector)
    - [src/content/selectors/product-detector.js] (classes ProductDetector, DOMScanner)
    - [src/content/content.js]                    (classes ContentController, ElementPicker)
    - the extraction engine                       (class ScrapingEngine)

    Modelling conventions.
    - A JavaScript number is an exact rational ([Q]); IEEE-754 rounding is
      not modelled.  Every statement below is about order, bounds or exact
      small fractions, and every concrete evaluation stays far from a
      rounding boundary.
    - A JavaScript string is a [string] of bytes; [toLowerCase] and [trim]
      act on the ASCII range.
    - The document tree is a finite tree of [Element]s; the properties the
      sources read ([tagName], [className], [textContent], [innerHTML],
      [offsetHeight], the bounding rectangle, the computed [display]) are
      fields of the node, exactly the reads the sources perform.
    - [document.querySelectorAll] on a selector text is a field of the
      document: it returns the matching nodes or throws on a malformed
      selector.  The selector lists that the detectors pass to
      [querySelector] are interpreted on the tree.
    - A call that can throw returns [JsResult]; [try]/[catch] is a match on
      it.  A promise ends as [Settled].
    - A function object made by [bind] is known by its identity; the
      listeners of the document are a list of such objects. *)

From Stdlib Require Import ZArith QArith Qminmax Qround List String Ascii Bool Lia Lqa Sorted Permutation.
From stdpp Require Import gmap strings pretty.
Import ListNotations.

Set Warnings "-register-all".
Local Open Scope string_scope.
Local Open Scope list_scope.

(** ** JavaScript strings *)

Module Js.

Definition lowerAscii (c : ascii) : ascii :=
  let n := nat_of_ascii c in
  if (Nat.leb 65 n && Nat.leb n 90)%bool then ascii_of_nat (n + 32) else c.

(** [String.prototype.toLowerCase] *)
Fixpoint toLowerCase (s : string) : string :=
  match s with
  | EmptyString => EmptyString
  | String c s' => String (lowerAscii c) (toLowerCase s')
  end.

(** [String.prototype.startsWith] *)
Fixpoint startsWith (s p : string) : bool :=
  match p, s with
  | EmptyString, _ => true
  | String _ _, EmptyString => false
  | String a p', String b s' => (Ascii.eqb a b && startsWith s' p')%bool
  end.

(** [String.prototype.includes] *)
Fixpoint includes (s needle : string) : bool :=
  (startsWith s needle ||
   match s with
   | EmptyString => false
   | String _ s' => includes s' needle
   end)%bool.

(** number of occurrences of one character: [(s.match(/c/g) || []).length] *)
Fixpoint countChar (c : ascii) (s : string) : nat :=
  match s with
  | EmptyString => 0
  | String a s' => (if Ascii.eqb a c then 1 else 0) + countChar c s'
  end.

(** the white space of the ASCII range, which is what [\s] matches and
    [trim] removes there: the space and the characters 9 to 13 (tab, line
    feed, vertical tab, form feed, carriage return).  The white space beyond
    that range (U+00A0 and the like) is not in the class: what is stated of
    trimmed or cleaned text is stated of the code for texts of the ASCII
    range. *)
Definition isWhite (c : ascii) : bool :=
  let n := nat_of_ascii c in
  (Nat.eqb n 32 || (Nat.leb 9 n && Nat.leb n 13))%bool.

Fixpoint trimStart (s : string) : string :=
  match s with
  | EmptyString => EmptyString
  | String c s' => if isWhite c then trimStart s' else s
  end.

(** drops the trailing white space: a character is kept when something
    that is not white space follows it or it is not white space itself *)
Fixpoint trimEnd (s : string) : string :=
  match s with
  | EmptyString => EmptyString
  | String c s' =>
      match trimEnd s' with
      | EmptyString => if isWhite c then EmptyString else String c EmptyString
      | t => String c t
      end
  end.

(** [String.prototype.trim] *)
Definition trim (s : string) : string := trimEnd (trimStart s).

(** [s.length] *)
Definition len (s : string) : Z := Z.of_nat (String.length s).

(** the outcome of an expression that may throw *)
Inductive JsResult (A : Type) : Type :=
| Ok (a : A)
| Throw (message : string).
Arguments Ok {A} a.
Arguments Throw {A} message.

(** [Array.prototype.sort(cmp)] for a comparator returning a number: the
    standard fixes the outcome for a consistent comparator (a stable,
    sorted rearrangement), realised here by insertion from the right. *)
Section Sort.
Context {A : Type} (cmp : A -> A -> Q).

Fixpoint insertSorted (x : A) (l : list A) : list A :=
  match l with
  | [] => [x]
  | y :: l' => if Qle_bool (cmp x y) 0 then x :: y :: l' else y :: insertSorted x l'
  end.

Fixpoint sort (l : list A) : list A :=
  match l with
  | [] => []
  | x :: l' => insertSorted x (sort l')
  end.
End Sort.

(** [Array.prototype.slice(lo, hi)] for [0 <= lo], [0 <= hi] *)
Definition slice {A : Type} (lo hi : nat) (l : list A) : list A :=
  skipn lo (firstn hi l).

(** [n / d] on counters *)
Definition ratio (n d : nat) : Q := (inject_Z (Z.of_nat n) / inject_Z (Z.of_nat d))%Q.

(** [s.replace(/[class]+/g, replacement)]: every maximal run of characters
    of the class becomes one [replacement]; [inRun] tells that the
    character before belongs to a run already replaced *)
Fixpoint replaceRuns (p : ascii -> bool) (replacement : string) (inRun : bool)
  (s : string) : string :=
  match s with
  | EmptyString => EmptyString
  | String c s' =>
      if p c then
        (if inRun then replaceRuns p replacement true s'
         else replacement ++ replaceRuns p replacement true s')%string
      else String c (replaceRuns p replacement false s')
  end.

(** [s.slice(0, n)] on a text *)
Fixpoint takeChars (n : nat) (s : string) : string :=
  match n, s with
  | S n', String c s' => String c (takeChars n' s')
  | _, _ => EmptyString
  end.

End Js.

(** ** The document tree *)

Module Dom.

(** One element of the document.  [nodeId] is the identity of the node
    ([===] on nodes); [attributes] holds the attributes other than [id]
    and [class], with lower-case names. *)
Inductive Element : Type := mkElement {
  nodeId : nat;
  tagName : string;
  id : string;
  className : string;
  attributes : list (string * string);
  textContent : string;
  innerHTML : string;
  display : string;        (* window.getComputedStyle(el).display *)
  offsetWidth : Z;
  offsetHeight : Z;
  rectWidth : Q;           (* el.getBoundingClientRect().width *)
  rectHeight : Q;          (* el.getBoundingClientRect().height *)
  children : list Element
}.

(** [a === b] on nodes *)
Definition sameNode (a b : Element) : bool := Nat.eqb (nodeId a) (nodeId b).

(** [el.tagName.toLowerCase() === t] *)
Definition tagIs (t : string) (el : Element) : bool :=
  String.eqb (Js.toLowerCase (tagName el)) t.

Definition trChildren (el : Element) : list Element :=
  List.filter (tagIs "tr") (children el).

(** [table.rows]: the rows of the [thead] children, then those that are
    children of the table or of its [tbody] children in tree order, then
    those of the [tfoot] children. *)
Definition rows (table : Element) : list Element :=
  flat_map (fun c => if tagIs "thead" c then trChildren c else []) (children table)
  ++ flat_map (fun c => if tagIs "tr" c then [c]
                        else if tagIs "tbody" c then trChildren c else [])
       (children table)
  ++ flat_map (fun c => if tagIs "tfoot" c then trChildren c else []) (children table).

(** [row.cells] *)
Definition cells (row : Element) : list Element :=
  List.filter (fun c => (tagIs "td" c || tagIs "th" c)%bool) (children row).

(** [el.hasAttribute(name)] and [el.getAttribute(name)] *)
Fixpoint getAttribute (attrs : list (string * string)) (name : string) : option string :=
  match attrs with
  | [] => None
  | (k, v) :: rest => if String.eqb k name then Some v else getAttribute rest name
  end.

(** the class list: [className] split at white space *)
Fixpoint splitWhite (cur : string) (s : string) : list string :=
  match s with
  | EmptyString => match cur with EmptyString => [] | _ => [cur] end
  | String c s' =>
      if Js.isWhite c
      then match cur with EmptyString => splitWhite EmptyString s'
                        | _ => cur :: splitWhite EmptyString s' end
      else splitWhite (cur ++ String c EmptyString) s'
  end.

Definition classList (el : Element) : list string := splitWhite EmptyString (className el).

(** The simple selectors the detectors pass to [querySelector]. *)
Inductive Simple : Type :=
| Tag (t : string)                   (* h1 *)
| Class (c : string)                 (* .btn *)
| AttrEq (name value : string)       (* [role="button"] *)
| ClassContains (part : string).     (* [class*="title"] *)

Definition matchesSimple (el : Element) (s : Simple) : bool :=
  match s with
  | Tag t => tagIs t el
  | Class c => existsb (String.eqb c) (classList el)
  | AttrEq name value =>
      match getAttribute (attributes el) name with
      | Some v => String.eqb v value
      | None => false
      end
  | ClassContains part => Js.includes (className el) part
  end.

(** a selector list [a, b, c] matches when one of its members does *)
Definition matchesAny (sel : list Simple) (el : Element) : bool :=
  existsb (matchesSimple el) sel.

(** the descendants of a node in document order, the node itself excluded *)
Fixpoint descendants (el : Element) : list Element :=
  match el with
  | mkElement _ _ _ _ _ _ _ _ _ _ _ _ kids =>
      flat_map (fun k => k :: descendants k) kids
  end.

(** [el.querySelector(sel)]: the first matching descendant, or [null] *)
Definition querySelector (el : Element) (sel : list Simple) : option Element :=
  List.find (matchesAny sel) (descendants el).

(** [el.querySelectorAll(sel)] *)
Definition querySelectorAll (el : Element) (sel : list Simple) : list Element :=
  List.filter (matchesAny sel) (descendants el).

(** The document as the sources reach it: the tree under [root] and
    [document.querySelectorAll] on an arbitrary selector text, which throws
    on a malformed selector. *)
Record Document : Type := mkDocument {
  root : Element;
  selectAll : string -> Js.JsResult (list Element)
}.

(** [document.querySelectorAll(sel)] for a selector list of the model *)
Definition documentQuery (root : Element) (sel : list Simple) : list Element :=
  List.filter (matchesAny sel) (root :: descendants root).

(** a leaf or inner node with nothing but tag, text and children set *)
Definition node (nid : nat) (tag text : string) (kids : list Element) : Element :=
  mkElement nid tag EmptyString EmptyString [] text EmptyString "block" 0 0 0 0 kids.

(** [Array.from(new Set(nodes))]: one entry per node, in the order of the
    first occurrences *)
Fixpoint uniqueById (seen : list nat) (l : list Element) : list Element :=
  match l with
  | [] => []
  | e :: rest =>
      if existsb (Nat.eqb (nodeId e)) seen then uniqueById seen rest
      else e :: uniqueById (nodeId e :: seen) rest
  end.

(** [table.tHead]: the first [thead] child *)
Definition tHead (table : Element) : option Element :=
  List.find (tagIs "thead") (children table).

(** [child.offsetWidth > 0 && child.offsetHeight > 0] *)
Definition isVisible (child : Element) : bool :=
  ((0 <? offsetWidth child)%Z && (0 <? offsetHeight child)%Z)%bool.

(** [style.display.includes('grid') || style.display.includes('flex')] *)
Definition gridOrFlex (el : Element) : bool :=
  (Js.includes (display el) "grid" || Js.includes (display el) "flex")%bool.

End Dom.

(** ** Ranked selectors *)

Module Selector.

(** The object the rankers build for one selector.  When evaluation threw,
    [score] is [-1], [error] holds the message and the other fields are
    absent. *)
Record Ranked : Type := mkRanked {
  selector : string;
  score : Q;
  matches : option nat;
  isExact : option bool;
  error : option string
}.

(** [elements[0] === targetElement] *)
Definition firstIs (elements : list Dom.Element) (target : Dom.Element) : bool :=
  match elements with
  | e :: _ => Dom.sameNode e target
  | [] => false
  end.

(** [(selector.match(/\./g) || []).length] *)
Definition classCount (selector : string) : nat := Js.countChar "." selector.

(** [selector.includes('.') && !selector.includes('#')] *)
Definition classOnly (selector : string) : bool :=
  (Js.includes selector "." && negb (Js.includes selector "#"))%bool.

(** [.filter(s => s.score > 0).sort((a, b) => b.score - a.score).slice(0, 5)] *)
Definition topFive (l : list Ranked) : list Ranked :=
  Js.slice 0 5
    (Js.sort (fun a b => (score b - score a)%Q)
       (List.filter (fun s => negb (Qle_bool (score s) 0)) l)).

End Selector.

(** ** Candidates *)

(** The object a scoring pass builds for one nominated node; [M] is the
    kind-specific [metadata]. *)
Record Candidate (M : Type) : Type := mkCandidate {
  element : Dom.Element;
  score : Q;
  confidence : Q;
  reasons : list string;
  metadata : M
}.
Arguments mkCandidate {M}.
Arguments element {M}.
Arguments score {M}.
Arguments confidence {M}.
Arguments reasons {M}.
Arguments metadata {M}.

(** [score += w] when [b] holds, as the detectors' [if (...) score += w] *)
Definition bump (b : bool) (w : Q) (score : Q) : Q :=
  if b then (score + w)%Q else score.

(** [words.forEach(w => { if (hit w) score += weight })] *)
Definition bumpEach (hit : string -> bool) (weight : Q) (words : list string) (score : Q) : Q :=
  fold_left (fun acc w => bump (hit w) weight acc) words score.

(** [.filter(c => c.score >= threshold).sort((a, b) => b.score - a.score)] *)
Definition keepAndRank {M : Type} (threshold : Q) (l : list (Candidate M)) : list (Candidate M) :=
  Js.sort (fun a b => (score b - score a)%Q)
    (List.filter (fun c => Qle_bool threshold (score c)) l).

(** ** TableDetector (table-detector.js) *)

Module TableDetector.
Import Dom.

Definition CONFIDENCE_THRESHOLD : Q := 0.6.
Definition MIN_ROWS : nat := 2.
Definition MIN_COLS : nat := 2.

Record Metadata : Type := mkMetadata {
  md_rows : nat;
  md_columns : nat;
  md_textDensity : Q;
  md_tagName : string
}.

Definition looksLikeRow (child : Element) : bool :=
  let d := display child in
  ((Js.includes d "block" || Js.includes d "flex" || Js.includes d "grid")
   && (0 <? offsetHeight child)%Z)%bool.

Definition getRowCount (table : Element) : nat :=
  if tagIs "table" table then length (rows table)
  else length (List.filter looksLikeRow (children table)).

Definition getColumnCount (table : Element) : nat :=
  if tagIs "table" table then
    match rows table with
    | firstRow :: _ => length (cells firstRow)
    | [] => 0
    end
  else
    fold_left (fun maxColumns row => Nat.max maxColumns (length (children row)))
      (firstn 5 (children table)) 0%nat.

Definition getTextDensity (table : Element) : Q :=
  let textLength := Js.len (Js.trim (textContent table)) in
  let htmlLength := Js.len (innerHTML table) in
  if (htmlLength =? 0)%Z then 0 else (inject_Z textLength / inject_Z htmlLength)%Q.

Definition getDivStructureScore (div : Element) : Q :=
  let kids := children div in
  match kids with
  | first :: _ :: _ =>
      let firstRowChildren := length (children first) in
      let consistentRows :=
        length (List.filter (fun r => Nat.eqb (length (children r)) firstRowChildren)
                  (Js.slice 1 (Nat.min 5 (length kids)) kids)) in
      Js.ratio consistentRows (Nat.min 5 (length kids - 1))
  | _ => 0   (* children.length < 2 *)
  end.

Definition getStructureScore (table : Element) : Q :=
  if negb (tagIs "table" table) then getDivStructureScore table
  else
    let rs := rows table in
    match rs with
    | first :: _ :: _ =>
        let firstRowCols := length (cells first) in
        let consistentRows :=
          length (List.filter (fun r => Nat.eqb (length (cells r)) firstRowCols)
                    (Js.slice 1 (Nat.min 10 (length rs)) rs)) in
        Js.ratio consistentRows (Nat.min 10 (length rs - 1))
    | _ => 0   (* rows.length < 2 *)
    end.

(** [value && value.toLowerCase().includes('table') ||
     value.toLowerCase().includes('grid')] under [hasAttribute(attr)] *)
Definition semanticAttribute (table : Element) (attr : string) : bool :=
  match getAttribute (attributes table) attr with
  | Some value =>
      ((negb (String.eqb value EmptyString) && Js.includes (Js.toLowerCase value) "table")
       || Js.includes (Js.toLowerCase value) "grid")%bool
  | None => false
  end.

Definition getSemanticScore (table : Element) : Q :=
  let s1 := bumpEach (semanticAttribute table) 0.1
              ["role"; "aria-label"; "data-table"; "data-grid"] 0 in
  let className := Js.toLowerCase (className table) in
  let s2 := bumpEach (Js.includes className) 0.05
              ["table"; "grid"; "list"; "data"; "results"; "products"] s1 in
  let text := Js.toLowerCase (textContent table) in
  let s3 := bumpEach (Js.includes text) 0.02
              ["price"; "total"; "quantity"; "description"; "name"] s2 in
  Qmin 0.25 s3.

Definition reason (b : bool) (r : string) (reasons : list string) : list string :=
  if b then reasons ++ [r] else reasons.

(** the body of the [map] in [scoreTables] *)
Definition scoreTable (table : Element) : Candidate Metadata :=
  let isTable := tagIs "table" table in
  let s := bump isTable 0.3 0 in
  let rs := reason isTable "Native table element" [] in
  let rowCount := getRowCount table in
  let colCount := getColumnCount table in
  let s := bump (5 <=? rowCount)%nat 0.2 s in
  let rs := reason (5 <=? rowCount)%nat "Has 5+ rows" rs in
  let s := bump (3 <=? colCount)%nat 0.15 s in
  let rs := reason (3 <=? colCount)%nat "Has 3+ columns" rs in
  let textDensity := getTextDensity table in
  let dense := negb (Qle_bool textDensity 0.1) in
  let s := bump dense 0.1 s in
  let rs := reason dense "Good text density" rs in
  let structureScore := getStructureScore table in
  let s := (s + structureScore * 0.15)%Q in
  let rs := reason (negb (Qle_bool structureScore 0.7)) "Consistent structure" rs in
  let semanticScore := getSemanticScore table in
  let s := (s + semanticScore)%Q in
  let visible := (negb (Qle_bool (rectWidth table) 100)
                  && negb (Qle_bool (rectHeight table) 50))%bool in
  let s := bump visible 0.1 s in
  let rs := reason visible "Visible on screen" rs in
  {| element := table;
     score := Qmin 1 s;
     confidence := s;
     reasons := rs;
     metadata := {| md_rows := rowCount; md_columns := colCount;
                    md_textDensity := textDensity; md_tagName := tagName table |} |}.

Definition scoreTables (tables : list Element) : list (Candidate Metadata) :=
  keepAndRank CONFIDENCE_THRESHOLD (List.map scoreTable tables).

(** the [map] callback of [rankSelectors]: [try { ... } catch (e) { ... }] *)
Definition rankSelector (doc : Document) (targetElement : Element) (selector : string)
  : Selector.Ranked :=
  match selectAll doc selector with
  | Js.Ok elements =>
      let matches := length elements in
      let isExact := Selector.firstIs elements targetElement in
      let s := bump isExact 2 0 in
      let s := (s + (100 - inject_Z (Js.len selector)) / 100)%Q in
      let s := (s + Qmax 0 (5 - inject_Z (Z.of_nat matches)) / 5)%Q in
      let s := bump (Js.startsWith selector "#") 1 s in
      let s :=
        if Selector.classOnly selector then
          let classCount := Selector.classCount selector in
          bump ((1 <=? classCount)%nat && (classCount <=? 3)%nat)%bool 0.5 s
        else s in
      {| Selector.selector := selector; Selector.score := s;
         Selector.matches := Some matches; Selector.isExact := Some isExact;
         Selector.error := None |}
  | Js.Throw message =>
      {| Selector.selector := selector; Selector.score := -1;
         Selector.matches := None; Selector.isExact := None;
         Selector.error := Some message |}
  end.

Definition rankSelectors (doc : Document) (selectors : list string) (targetElement : Element)
  : list Selector.Ranked :=
  Selector.topFive (List.map (rankSelector doc targetElement) selectors).

(** *** The finder strategies *)

(** the [filter] predicate of [findDivTables] *)
Definition isDivTable (div : Element) : bool :=
  let kids := children div in
  if (length kids <? MIN_ROWS)%nat then false
  else
    match kids with
    | [] => false
    | firstRow :: _ =>
        let cellCount := length (children firstRow) in
        if (cellCount <? MIN_COLS)%nat then false
        else forallb (fun r => Nat.eqb (length (children r)) cellCount)
               (Js.slice 1 (Nat.min 3 (length kids)) kids)
    end.

Definition findDivTables (root : Element) : list Element :=
  List.filter isDivTable (documentQuery root [Tag "div"]).

(** the [filter] predicate of [findListTables] *)
Definition isListTable (list : Element) : bool :=
  if (length (children list) <? MIN_ROWS)%nat then false
  else existsb (fun item =>
                  (MIN_COLS <=? length (querySelectorAll item [Tag "span"; Tag "div"; Tag "p"]))%nat)
         (children list).

Definition findListTables (root : Element) : list Element :=
  List.filter isListTable (documentQuery root [Tag "ul"; Tag "ol"]).

(** the [filter] predicate of [findGridTables] *)
Definition isGridTable (el : Element) : bool :=
  if negb (gridOrFlex el) then false
  else if (length (children el) <? MIN_ROWS * MIN_COLS)%nat then false
  else (MIN_ROWS * MIN_COLS <=? length (List.filter isVisible (children el)))%nat.

Definition findGridTables (root : Element) : list Element :=
  List.filter isGridTable (documentQuery root [Tag "div"; Tag "section"]).

(** [findAllTables()]: the four strategies in order, gathered in a [Set];
    no strategy throws on a document of the model *)
Definition findAllTables (root : Element) : list Element :=
  uniqueById []
    (documentQuery root [Tag "table"]
     ++ findDivTables root ++ findListTables root ++ findGridTables root).

(** *** Extraction *)

(** [.trim().replace(/\s+/g, ' ').replace(/\n+/g, ' ').replace(/\t+/g, ' ')] *)
Definition tidyText (text : string) : string :=
  Js.replaceRuns (fun c => Ascii.eqb c (ascii_of_nat 9)) " " false
    (Js.replaceRuns (fun c => Ascii.eqb c (ascii_of_nat 10)) " " false
       (Js.replaceRuns Js.isWhite " " false (Js.trim text))).

(** [cleanText(element, includeHtml)] for an element that is there.  When
    [textContent] is empty the source falls back on [innerText], which then
    holds line breaks at most, and the trimmed result is empty either way. *)
Definition cleanText (el : Element) (includeHtml : bool) : string :=
  if includeHtml then Js.trim (innerHTML el) else tidyText (textContent el).

(** the [options] of [extractData]; an absent property is [None] *)
Record Options : Type := mkOptions {
  optIncludeHeaders : option bool;
  optIncludeHtml : option bool;
  optMaxRows : option nat
}.

(** [{ includeHeaders: options.includeHeaders !== false,
       includeHtml: options.includeHtml === true,
       maxRows: options.maxRows || 1000, ...options }]: a property that
    [options] holds overrides the default *)
Record ExtractConfig : Type := mkExtractConfig {
  includeHeaders : bool;
  includeHtml : bool;
  maxRows : nat
}.

Definition configOf (options : Options) : ExtractConfig :=
  {| includeHeaders := match optIncludeHeaders options with Some b => b | None => true end;
     includeHtml := match optIncludeHtml options with Some b => b | None => false end;
     maxRows := match optMaxRows options with Some n => n | None => 1000 end |}.

(** [`Column ${index + 1}`] *)
Definition columnName (index : nat) : string := ("Column " ++ pretty (index + 1)%nat)%string.

(** [headers[index] || `Column ${index + 1}`] *)
Definition headerAt (headers : list string) (index : nat) : string :=
  match nth_error headers index with
  | Some EmptyString | None => columnName index
  | Some header => header
  end.

(** [rowData[header] = text] on the object literal [rowData]: the key
    [__proto__] is the prototype accessor, and giving it a text stores
    nothing *)
Definition setField (header text : string) (rowData : gmap string string)
  : gmap string string :=
  if String.eqb header "__proto__" then rowData else <[header := text]> rowData.

(** [cells.forEach((cell, index) => { rowData[header] = cleanText(cell) })]
    from [index] on *)
Fixpoint fillRow (headers : list string) (includeHtml : bool) (index : nat)
  (cs : list Element) (rowData : gmap string string) : gmap string string :=
  match cs with
  | [] => rowData
  | cell :: rest =>
      fillRow headers includeHtml (S index) rest
        (setField (headerAt headers index) (cleanText cell includeHtml) rowData)
  end.

(** [Array.from(cells).map((_, index) => `Column ${index + 1}`)] *)
Definition generatedHeaders (cs : list Element) : list string :=
  List.map columnName (seq 0 (length cs)).

(** the [headers] of [extractNativeTable] *)
Definition nativeHeaders (table : Element) (config : ExtractConfig) : list string :=
  let fromHead :=
    if includeHeaders config then
      match tHead table with
      | Some head =>
          match trChildren head with
          | headerRow :: _ =>
              List.map (fun cell => cleanText cell (includeHtml config)) (cells headerRow)
          | [] => []
          end
      | None => []
      end
    else [] in
  match fromHead, rows table with
  | [], firstRow :: _ => generatedHeaders (cells firstRow)
  | _, _ => fromHead
  end.

Definition extractNativeTable (table : Element) (config : ExtractConfig)
  : list (gmap string string) :=
  let headers := nativeHeaders table config in
  let dataRows := Js.slice (match headers with [] => 0 | _ => 1 end) (maxRows config)
                    (rows table) in
  List.map (fun row => fillRow headers (includeHtml config) 0 (cells row) ∅) dataRows.

(** the [headers] of [extractDivTable] over the rows kept *)
Definition divHeaders (rs : list Element) (config : ExtractConfig) : list string :=
  let fromFirst :=
    match includeHeaders config, rs with
    | true, firstRow :: _ =>
        List.map (fun cell => cleanText cell (includeHtml config)) (children firstRow)
    | _, _ => []
    end in
  match fromFirst, rs with
  | [], firstRow :: _ => generatedHeaders (children firstRow)
  | _, _ => fromFirst
  end.

Definition extractDivTable (div : Element) (config : ExtractConfig)
  : list (gmap string string) :=
  let rs := Js.slice 0 (maxRows config) (children div) in
  let headers := divHeaders rs config in
  let dataRows := Js.slice (match headers with [] => 0 | _ => 1 end) (length rs) rs in
  List.map (fun row => fillRow headers (includeHtml config) 0 (children row) ∅) dataRows.

(** the [metadata] of [extractData] *)
Record ExtractMetadata : Type := mkExtractMetadata {
  metaProcessingTime : Q;
  metaRows : nat;
  metaColumns : nat
}.

(** [extractData(tableElement, options)]: [data] and [metadata];
    [startTime] and [endTime] are the two readings of [performance.now()] *)
Definition extractData (startTime endTime : Q) (tableElement : Element) (options : Options)
  : list (gmap string string) * ExtractMetadata :=
  let config := configOf options in
  let data := if tagIs "table" tableElement then extractNativeTable tableElement config
              else extractDivTable tableElement config in
  (data, {| metaProcessingTime := (endTime - startTime)%Q;
            metaRows := length data;
            metaColumns := match data with first :: _ => size first | [] => 0%nat end |}).

End TableDetector.

(** ** ListDetector (list-detector.js) *)

Module ListDetector.
Import Dom.

Definition CONFIDENCE_THRESHOLD : Q := 0.5.
Definition MIN_ITEMS : nat := 3.

Record Metadata : Type := mkMetadata {
  md_items : nat;
  md_tagName : string;
  md_textDensity : Q
}.

Definition isNativeList (list : Element) : bool :=
  (tagIs "ul" list || tagIs "ol" list)%bool.

Definition getItemCount (list : Element) : nat :=
  if isNativeList list then length (children list)
  else length (List.filter (fun child => (0 <? offsetHeight child)%Z) (children list)).

(** [child.tagName === firstChild.tagName &&
     child.className === firstChild.className] *)
Definition sameSignature (firstChild child : Element) : bool :=
  (String.eqb (tagName child) (tagName firstChild)
   && String.eqb (className child) (className firstChild))%bool.

Definition getConsistencyScore (list : Element) : Q :=
  let kids := children list in
  match kids with
  | firstChild :: _ :: _ =>
      let similarCount :=
        length (List.filter (sameSignature firstChild)
                  (Js.slice 1 (Nat.min 10 (length kids)) kids)) in
      Js.ratio similarCount (Nat.min 10 (length kids - 1))
  | _ => 0   (* children.length < 2 *)
  end.

Definition getTextDensity (list : Element) : Q :=
  let textLength := Js.len (Js.trim (textContent list)) in
  let htmlLength := Js.len (innerHTML list) in
  if (htmlLength =? 0)%Z then 0 else (inject_Z textLength / inject_Z htmlLength)%Q.

Definition semanticAttribute (list : Element) (attr : string) : bool :=
  match getAttribute (attributes list) attr with
  | Some value =>
      ((negb (String.eqb value EmptyString) && Js.includes (Js.toLowerCase value) "list")
       || Js.includes (Js.toLowerCase value) "items")%bool
  | None => false
  end.

Definition getSemanticScore (list : Element) : Q :=
  let s1 := bumpEach (semanticAttribute list) 0.1
              ["role"; "aria-label"; "data-list"; "data-items"] 0 in
  let className := Js.toLowerCase (className list) in
  let s2 := bumpEach (Js.includes className) 0.05
              ["list"; "items"; "collection"; "products"; "menu"; "nav"] s1 in
  Qmin 0.25 s2.

Definition reason (b : bool) (r : string) (reasons : list string) : list string :=
  if b then reasons ++ [r] else reasons.

(** the body of the [map] in [scoreLists] *)
Definition scoreList (list : Element) : Candidate Metadata :=
  let tag := Js.toLowerCase (tagName list) in
  let native := (String.eqb tag "ul" || String.eqb tag "ol")%bool in
  let s := bump native 0.3 0 in
  let rs := reason native "Native list element" [] in
  let itemCount := getItemCount list in
  let s := bump (5 <=? itemCount)%nat 0.2 s in
  let rs := reason (5 <=? itemCount)%nat ("Has " ++ pretty itemCount ++ " items") rs in
  let consistency := getConsistencyScore list in
  let s := (s + consistency * 0.2)%Q in
  let rs := reason (negb (Qle_bool consistency 0.7)) "Consistent items" rs in
  let textDensity := getTextDensity list in
  let dense := negb (Qle_bool textDensity 0.2) in
  let s := bump dense 0.1 s in
  let rs := reason dense "Good text content" rs in
  let semanticScore := getSemanticScore list in
  let s := (s + semanticScore)%Q in
  let visible := (negb (Qle_bool (rectWidth list) 50)
                  && negb (Qle_bool (rectHeight list) 50))%bool in
  let s := bump visible 0.1 s in
  let rs := reason visible "Visible on screen" rs in
  {| element := list;
     score := Qmin 1 s;
     confidence := s;
     reasons := rs;
     metadata := {| md_items := itemCount; md_tagName := tag;
                    md_textDensity := textDensity |} |}.

Definition scoreLists (lists : list Element) : list (Candidate Metadata) :=
  keepAndRank CONFIDENCE_THRESHOLD (List.map scoreList lists).

(** the [map] callback of [rankSelectors] *)
Definition rankSelector (doc : Document) (targetElement : Element) (selector : string)
  : Selector.Ranked :=
  match selectAll doc selector with
  | Js.Ok elements =>
      let matches := length elements in
      let isExact := Selector.firstIs elements targetElement in
      let s := bump isExact 2 0 in
      let s := (s + (100 - inject_Z (Js.len selector)) / 100)%Q in
      let s := (s + Qmax 0 (10 - inject_Z (Z.of_nat matches)) / 10)%Q in
      let s := bump (Js.startsWith selector "#") 1.5 s in
      let s :=
        if Selector.classOnly selector then
          let classCount := Selector.classCount selector in
          if Nat.eqb classCount 1 then (s + 0.8)%Q
          else if Nat.eqb classCount 2 then (s + 1.0)%Q
          else if Nat.eqb classCount 3 then (s + 0.6)%Q
          else s
        else s in
      {| Selector.selector := selector; Selector.score := s;
         Selector.matches := Some matches; Selector.isExact := Some isExact;
         Selector.error := None |}
  | Js.Throw message =>
      {| Selector.selector := selector; Selector.score := -1;
         Selector.matches := None; Selector.isExact := None;
         Selector.error := Some message |}
  end.

Definition rankSelectors (doc : Document) (selectors : list string) (targetElement : Element)
  : list Selector.Ranked :=
  Selector.topFive (List.map (rankSelector doc targetElement) selectors).

(** *** The finder strategies *)

(** the [filter] predicate of [findDivLists] *)
Definition isDivList (div : Element) : bool :=
  let kids := children div in
  if (length kids <? MIN_ITEMS)%nat then false
  else
    match kids with
    | [] => false
    | firstChild :: _ =>
        (MIN_ITEMS <=? length (List.filter (sameSignature firstChild) kids))%nat
    end.

Definition findDivLists (root : Element) : list Element :=
  List.filter isDivList (documentQuery root [Tag "div"; Tag "section"]).

(** the [filter] predicate of [findTableLists] *)
Definition isTableList (table : Element) : bool :=
  let rs := rows table in
  if (length rs <? MIN_ITEMS)%nat then false
  else
    match rs with
    | [] => false
    | firstRow :: _ => negb (3 <? length (cells firstRow))%nat
    end.

Definition findTableLists (root : Element) : list Element :=
  List.filter isTableList (documentQuery root [Tag "table"]).

(** the [filter] predicate of [findGridLists] *)
Definition isGridList (el : Element) : bool :=
  if negb (gridOrFlex el) then false
  else if (length (children el) <? MIN_ITEMS)%nat then false
  else (MIN_ITEMS <=? length (List.filter
                                (fun child => ((0 <? offsetHeight child)%Z
                                               && (0 <? offsetWidth child)%Z)%bool)
                                (children el)))%nat.

Definition findGridLists (root : Element) : list Element :=
  List.filter isGridList (documentQuery root [Tag "div"; Tag "ul"; Tag "ol"]).

(** [findAllLists()] *)
Definition findAllLists (root : Element) : list Element :=
  uniqueById []
    (documentQuery root [Tag "ul"; Tag "ol"]
     ++ findDivLists root ++ findTableLists root ++ findGridLists root).

(** *** Extraction *)

(** [.trim().replace(/\s+/g, ' ').replace(/\n+/g, ' ').replace(/\t+/g, ' ')] *)
Definition tidyText (text : string) : string :=
  Js.replaceRuns (fun c => Ascii.eqb c (ascii_of_nat 9)) " " false
    (Js.replaceRuns (fun c => Ascii.eqb c (ascii_of_nat 10)) " " false
       (Js.replaceRuns Js.isWhite " " false (Js.trim text))).

(** [cleanText(element)] for an element that is there; an empty
    [textContent] leaves line breaks at most to the [innerText] fallback *)
Definition cleanText (el : Element) : string := tidyText (textContent el).

(** the [options] of [extractData]; an absent property is [None] *)
Record Options : Type := mkOptions {
  optIncludeChildren : option bool;
  optMaxItems : option nat;
  optIncludeHtml : option bool
}.

(** [{ includeChildren: options.includeChildren !== false,
       maxItems: options.maxItems || 1000, ...options }] *)
Record ExtractConfig : Type := mkExtractConfig {
  includeChildren : bool;
  maxItems : nat;
  includeHtml : bool
}.

Definition configOf (options : Options) : ExtractConfig :=
  {| includeChildren := match optIncludeChildren options with Some b => b | None => true end;
     maxItems := match optMaxItems options with Some n => n | None => 1000 end;
     includeHtml := match optIncludeHtml options with Some b => b | None => false end |}.

(** the text of an attribute that the element reflects as a property
    ([title], [alt]): empty when the attribute is absent *)
Definition reflected (el : Element) (attr : string) : string :=
  match getAttribute (attributes el) attr with
  | Some v => v
  | None => EmptyString
  end.

(** [el.href] and [el.src]: the attribute resolved against the address of
    the page by [resolve], empty when the attribute is absent *)
Definition resolved (resolve : string -> string) (el : Element) (attr : string) : string :=
  match getAttribute (attributes el) attr with
  | Some v => resolve v
  | None => EmptyString
  end.

Record Link : Type := mkLink { linkText : string; linkHref : string; linkTitle : string }.
Record Image : Type := mkImage { imageSrc : string; imageAlt : string; imageTitle : string }.

(** an item of [extractNativeList]; [html] is [None] for [undefined], and
    [links] and [images] are empty when the property is not set *)
Record NativeItem : Type := mkNativeItem {
  itemText : string;
  itemIndex : nat;
  itemHtml : option string;
  itemLinks : list Link;
  itemImages : list Image
}.

(** the [map] callback of [extractNativeList] *)
Definition nativeItem (resolve : string -> string) (config : ExtractConfig)
  (item : Element) (index : nat) : NativeItem :=
  {| itemText := cleanText item;
     itemIndex := index + 1;
     itemHtml := if includeHtml config then Some (Js.trim (innerHTML item)) else None;
     itemLinks := List.map (fun link => {| linkText := Js.trim (textContent link);
                                           linkHref := resolved resolve link "href";
                                           linkTitle := reflected link "title" |})
                    (querySelectorAll item [Tag "a"]);
     itemImages := List.map (fun img => {| imageSrc := resolved resolve img "src";
                                           imageAlt := reflected img "alt";
                                           imageTitle := reflected img "title" |})
                     (querySelectorAll item [Tag "img"]) |}.

(** [items.map((item, index) => f item index)] from [index] on *)
Fixpoint mapIndexed {A B : Type} (f : A -> nat -> B) (index : nat) (l : list A) : list B :=
  match l with
  | [] => []
  | x :: rest => f x index :: mapIndexed f (S index) rest
  end.

Definition extractNativeList (resolve : string -> string) (listElement : Element)
  (config : ExtractConfig) : list NativeItem :=
  mapIndexed (nativeItem resolve config) 0
    (Js.slice 0 (maxItems config) (children listElement)).

(** an item of [extractDivList]; a property that is not set is [None], and
    [divChildren] is empty when [children] is not set *)
Record DivItem : Type := mkDivItem {
  divText : string;
  divIndex : nat;
  divTag : string;
  divHtml : option string;
  divHref : option string;
  divTitle : option string;
  divSrc : option string;
  divAlt : option string;
  divChildren : list (string * string)
}.

(** the [map] callback of [extractDivList] *)
Definition divItem (resolve : string -> string) (config : ExtractConfig)
  (child : Element) (index : nat) : DivItem :=
  let isLink := tagIs "a" child in
  let isImage := (negb isLink && tagIs "img" child)%bool in
  {| divText := cleanText child;
     divIndex := index + 1;
     divTag := Js.toLowerCase (tagName child);
     divHtml := if includeHtml config then Some (Js.trim (innerHTML child)) else None;
     divHref := if isLink then Some (resolved resolve child "href") else None;
     divTitle := if isLink then Some (reflected child "title") else None;
     divSrc := if isImage then Some (resolved resolve child "src") else None;
     divAlt := if isImage then Some (reflected child "alt") else None;
     divChildren :=
       if (includeChildren config && (0 <? length (children child))%nat)%bool
       then List.map (fun grandChild => (Js.toLowerCase (tagName grandChild),
                                         cleanText grandChild))
              (children child)
       else [] |}.

Definition extractDivList (resolve : string -> string) (div : Element)
  (config : ExtractConfig) : list DivItem :=
  mapIndexed (divItem resolve config) 0 (Js.slice 0 (maxItems config) (children div)).

(** [extractData(listElement, options)].[data]: the items of a native list
    or of any other container *)
Definition extractData (resolve : string -> string) (listElement : Element)
  (options : Options) : list NativeItem + list DivItem :=
  if isNativeList listElement
  then inl (extractNativeList resolve listElement (configOf options))
  else inr (extractDivList resolve listElement (configOf options)).

End ListDetector.

(** ** Regular expressions of the price patterns

    A pattern is a function from the text at a position to the texts that
    may remain after a match there, longest match first, which is the
    backtracking order of the engine. *)

Module Re.

Definition Pattern : Type := string -> list string.

Definition eps : Pattern := fun s => [s].

(** a literal string *)
Fixpoint lit (w : string) : Pattern :=
  fun s =>
    match w, s with
    | EmptyString, _ => [s]
    | String a w', String b s' => if Ascii.eqb a b then lit w' s' else []
    | String _ _, EmptyString => []
    end.

(** a literal matched under the [i] flag *)
Fixpoint litNoCase (w : string) : Pattern :=
  fun s =>
    match w, s with
    | EmptyString, _ => [s]
    | String a w', String b s' =>
        if Ascii.eqb (Js.lowerAscii a) (Js.lowerAscii b) then litNoCase w' s' else []
    | String _ _, EmptyString => []
    end.

(** one character of a class *)
Definition cls (p : ascii -> bool) : Pattern :=
  fun s => match s with
           | String c s' => if p c then [s'] else []
           | EmptyString => []
           end.

Definition seq (r1 r2 : Pattern) : Pattern := fun s => flat_map r2 (r1 s).
Definition alt (r1 r2 : Pattern) : Pattern := fun s => r1 s ++ r2 s.

(** [r?] *)
Definition opt (r : Pattern) : Pattern := alt r eps.

(** [[class]+] *)
Fixpoint plusCls (p : ascii -> bool) (s : string) : list string :=
  match s with
  | String c s' => if p c then plusCls p s' ++ [s'] else []
  | EmptyString => []
  end.

(** [[class]*] *)
Definition starCls (p : ascii -> bool) : Pattern := fun s => plusCls p s ++ [s].

Definition matchesAt (r : Pattern) (s : string) : bool :=
  match r s with [] => false | _ :: _ => true end.

(** [r.test(s)]: a match at some position of [s] *)
Fixpoint test (r : Pattern) (s : string) : bool :=
  (matchesAt r s ||
   match s with
   | EmptyString => false
   | String _ s' => test r s'
   end)%bool.

(** [\d] *)
Definition digit (c : ascii) : bool :=
  let n := nat_of_ascii c in (Nat.leb 48 n && Nat.leb n 57)%bool.

End Re.

(** ** ProductDetector (product-detector.js) *)

Module ProductDetector.
Import Dom.

Definition CONFIDENCE_THRESHOLD : Q := 0.6.

Definition digitOrComma (c : ascii) : bool :=
  (Re.digit c || Ascii.eqb c ",")%bool.

(** [(?:\.\d{2})?] *)
Definition cents : Re.Pattern :=
  Re.opt (Re.seq (Re.lit ".") (Re.seq (Re.cls Re.digit) (Re.cls Re.digit))).

(** [/S[\d,]+(?:\.\d{2})?/] for a currency symbol [S] *)
Definition symbolPrice (symbol : string) : Re.Pattern :=
  Re.seq (Re.lit symbol) (Re.seq (Re.plusCls digitOrComma) cents).

(** [/[\d,]+(?:\.\d{2})?\s*(?:USD|EUR|GBP|JPY)/i] *)
Definition codePrice : Re.Pattern :=
  Re.seq (Re.plusCls digitOrComma)
    (Re.seq cents
       (Re.seq (Re.starCls Js.isWhite)
          (Re.alt (Re.litNoCase "USD")
             (Re.alt (Re.litNoCase "EUR")
                (Re.alt (Re.litNoCase "GBP") (Re.litNoCase "JPY")))))).

Definition euro : string :=
  String (ascii_of_nat 226) (String (ascii_of_nat 130) (String (ascii_of_nat 172) EmptyString)).
Definition pound : string :=
  String (ascii_of_nat 194) (String (ascii_of_nat 163) EmptyString).
Definition yen : string :=
  String (ascii_of_nat 194) (String (ascii_of_nat 165) EmptyString).

Definition PRICE_PATTERNS : list Re.Pattern :=
  [symbolPrice "$"; symbolPrice euro; symbolPrice pound; symbolPrice yen; codePrice].

Definition PRODUCT_PATTERNS : list string :=
  ["product"; "item"; "card"; "good"; "merchandise";
   "listing"; "offer"; "deal"; "sale"; "buy"].

Definition containsPrice (text : string) : bool :=
  match text with
  | EmptyString => false       (* if (!text) return false *)
  | _ => existsb (fun pattern => Re.test pattern text) PRICE_PATTERNS
  end.

Definition containsProductKeywords (text : string) : bool :=
  match text with
  | EmptyString => false
  | _ => let lowerText := Js.toLowerCase text in
         existsb (Js.includes lowerText) PRODUCT_PATTERNS
  end.

Definition isSome {A : Type} (o : option A) : bool :=
  match o with Some _ => true | None => false end.

Definition hasPrice (el : Element) : bool := containsPrice (textContent el).
Definition hasImage (el : Element) : bool := isSome (querySelector el [Tag "img"]).
Definition hasButton (el : Element) : bool :=
  isSome (querySelector el [Tag "button"; Class "btn"; AttrEq "role" "button"]).
Definition hasTitle (el : Element) : bool :=
  isSome (querySelector el [Tag "h1"; Tag "h2"; Tag "h3"; Tag "h4";
                            ClassContains "title"; ClassContains "name"]).
(** [rect.width > 100 && rect.height > 50] *)
Definition reasonablySized (el : Element) : bool :=
  (negb (Qle_bool (rectWidth el) 100) && negb (Qle_bool (rectHeight el) 50))%bool.

Definition addIf (b : bool) (w : Z) (score : Z) : Z := if b then (score + w)%Z else score.

(** the [score] built up in [isProductLike] *)
Definition productLikeScore (el : Element) : Z :=
  addIf (reasonablySized el) 1
    (addIf (hasTitle el) 1
       (addIf (hasButton el) 1
          (addIf (hasImage el) 2
             (addIf (hasPrice el) 3 0)))).

(** [isProductLike(element)] for an element that is there; the guard
    [if (!element) return false] is for [null]. *)
Definition isProductLike (el : Element) : bool := (3 <=? productLikeScore el)%Z.

Definition isGridOrFlex (el : Element) : bool :=
  (Js.includes (display el) "grid" || Js.includes (display el) "flex")%bool.

(** the [filter] predicate of [findGridProducts] *)
Definition gridProductContainer (el : Element) : bool :=
  if negb (isGridOrFlex el) then false
  else if (length (children el) <? 2)%nat then false
  else
    let productLikeCount :=
      length (List.filter isProductLike (firstn 5 (children el))) in
    (2 <=? productLikeCount)%nat.

Definition findGridProducts (root : Element) : list Element :=
  List.filter gridProductContainer
    (documentQuery root [Tag "div"; Tag "section"; Tag "ul"; Tag "li"]).

Record PatternScore : Type := mkPatternScore {
  consistentStructure : Q;
  consistentClasses : Q;
  consistentSize : Q
}.

(** [new Set(l).size] on strings *)
Definition uniqueCount (l : list string) : nat := length (nodup string_dec l).

Definition analyzePattern (kids : list Element) : PatternScore :=
  let sampleSize := Nat.min 5 (length kids) in
  let samples := Js.slice 0 sampleSize kids in
  let uniqueTags := uniqueCount (List.map tagName samples) in
  let uniqueClasses :=
    uniqueCount (List.filter (fun c => negb (String.eqb c EmptyString)) (List.map className samples)) in
  let sameSize :=
    match samples with
    | [] => true
    | first :: _ =>
        forallb (fun c =>
                   ((Z.abs (offsetWidth c - offsetWidth first) <? 50)%Z
                    && (Z.abs (offsetHeight c - offsetHeight first) <? 50)%Z)%bool)
          samples
    end in
  {| consistentStructure := if Nat.eqb uniqueTags 1 then 1 else 0.5;
     consistentClasses := if (uniqueClasses <=? 2)%nat then 1 else 0.3;
     consistentSize := if sameSize then 1 else 0.2 |}.

Definition countProductChildren (container : Element) : nat :=
  length (List.filter isProductLike (firstn 10 (children container))).

Definition semanticAttribute (el : Element) (attr : string) : bool :=
  match getAttribute (attributes el) attr with
  | Some v =>
      let value := Js.toLowerCase v in
      (Js.includes value "product" || Js.includes value "grid" || Js.includes value "list")%bool
  | None => false
  end.

Definition getSemanticScore (el : Element) : Q :=
  let s1 := bumpEach (semanticAttribute el) 0.1
              ["role"; "data-product"; "data-items"; "aria-label"] 0 in
  let className := Js.toLowerCase (className el) in
  let s2 := bumpEach (Js.includes className) 0.05
              ["product"; "catalog"; "grid"; "list"; "items"; "shop"; "store"] s1 in
  let id := Js.toLowerCase (id el) in
  let s3 := bump (Js.includes id "product" || Js.includes id "catalog")%bool 0.1 s2 in
  Qmin 0.25 s3.

Record Metadata : Type := mkMetadata {
  md_items : nat;
  md_productItems : nat;
  md_patternScore : PatternScore
}.

Definition reason (b : bool) (r : string) (reasons : list string) : list string :=
  if b then reasons ++ [r] else reasons.

(** [Math.round(x)]: the nearest integer, halves upwards *)
Definition round (x : Q) : Z := Qfloor (x + 0.5)%Q.

(** the body of the [map] in [scoreContainers] *)
Definition scoreContainer (container : Element) : Candidate Metadata :=
  let kids := children container in
  let childCount := length kids in
  let s := bump (3 <=? childCount)%nat 0.2 0 in
  let rs := reason (3 <=? childCount)%nat ("Has " ++ pretty childCount ++ " items") [] in
  let productChildren := countProductChildren container in
  let productRatio := Js.ratio productChildren (Nat.max 1 childCount) in
  let s := (s + productRatio * 0.3)%Q in
  let rs := reason (negb (Qle_bool productRatio 0.5))
              (pretty (round (productRatio * 100)) ++ "% product-like items") rs in
  let pattern := analyzePattern kids in
  let s := (s + (consistentStructure pattern + consistentClasses pattern
                 + consistentSize pattern) / 3 * 0.2)%Q in
  let rs := reason (negb (Qle_bool (consistentStructure pattern) 0.8))
              "Consistent structure" rs in
  let semanticScore := getSemanticScore container in
  let s := (s + semanticScore)%Q in
  let visible := (negb (Qle_bool (rectWidth container) 200)
                  && negb (Qle_bool (rectHeight container) 100))%bool in
  let s := bump visible 0.1 s in
  let rs := reason visible "Good visibility" rs in
  {| element := container;
     score := Qmin 1 s;
     confidence := s;
     reasons := rs;
     metadata := {| md_items := childCount; md_productItems := productChildren;
                    md_patternScore := pattern |} |}.

Definition scoreContainers (containers : list Element) : list (Candidate Metadata) :=
  keepAndRank CONFIDENCE_THRESHOLD (List.map scoreContainer containers).

(** the [map] callback of [rankProductSelectors].  The field [specificity]
    of the source object is computed from the selector text alone, cannot
    throw and enters neither the score nor the filter nor the order; it is
    left out. *)
Definition rankProductSelector (doc : Document) (targetElement : Element) (selector : string)
  : Selector.Ranked :=
  match selectAll doc selector with
  | Js.Ok elements =>
      let matches := length elements in
      let isExact := Selector.firstIs elements targetElement in
      let s := bump isExact 3 0 in
      let s := (s + (150 - inject_Z (Js.len selector)) / 150)%Q in
      let s :=
        if Nat.eqb matches 1 then (s + 2)%Q
        else if (matches <=? 3)%nat then (s + 1.5)%Q
        else if (matches <=? 10)%nat then (s + 1)%Q
        else (s + Qmax 0 ((20 - inject_Z (Z.of_nat matches)) / 20))%Q in
      let s := bump (Js.startsWith selector "#") 2 s in
      let s :=
        if Selector.classOnly selector then
          let classCount := Selector.classCount selector in
          if Nat.eqb classCount 1 then (s + 1.2)%Q
          else if Nat.eqb classCount 2 then (s + 1.5)%Q
          else if Nat.eqb classCount 3 then (s + 1.0)%Q
          else (s + 0.5)%Q
        else s in
      let s := bump (Js.includes selector " > ") 0.8 s in
      let s := bump (Js.includes selector "[") 0.5 s in
      {| Selector.selector := selector; Selector.score := Qmax 0 s;
         Selector.matches := Some matches; Selector.isExact := Some isExact;
         Selector.error := None |}
  | Js.Throw message =>
      {| Selector.selector := selector; Selector.score := -1;
         Selector.matches := None; Selector.isExact := None;
         Selector.error := Some message |}
  end.

Definition rankProductSelectors (doc : Document) (selectors : list string)
  (targetElement : Element) : list Selector.Ranked :=
  Selector.topFive (List.map (rankProductSelector doc targetElement) selectors).

(** *** The other finder strategies *)

(** the [filter] predicate of [findListProducts] *)
Definition isListProducts (list : Element) : bool :=
  if (length (children list) <? 2)%nat then false
  else (2 <=? length (List.filter isProductLike (firstn 5 (children list))))%nat.

Definition findListProducts (root : Element) : list Element :=
  List.filter isListProducts (documentQuery root [Tag "ul"; Tag "ol"]).

(** the test on one row in [findTableProducts] *)
Definition rowLooksLikeProduct (row : Element) : bool :=
  let text := Js.toLowerCase (textContent row) in
  (containsPrice text || containsProductKeywords text)%bool.

(** the [filter] predicate of [findTableProducts] *)
Definition isTableProducts (table : Element) : bool :=
  if (length (rows table) <? 2)%nat then false
  else (2 <=? length (List.filter rowLooksLikeProduct (firstn 5 (rows table))))%nat.

Definition findTableProducts (root : Element) : list Element :=
  List.filter isTableProducts (documentQuery root [Tag "table"]).

(** the [filter] predicate of [findCardProducts] *)
Definition isCardProduct (el : Element) : bool :=
  let className := Js.toLowerCase (className el) in
  let isCard := (Js.includes className "card" || Js.includes className "product"
                 || Js.includes className "item")%bool in
  if negb isCard then false
  else (containsPrice (textContent el)
        || isSome (querySelector el [Tag "img"])
        || isSome (querySelector el [Tag "button"; Class "btn"]))%bool.

Definition findCardProducts (root : Element) : list Element :=
  List.filter isCardProduct (documentQuery root [Tag "div"; Tag "article"; Tag "section"]).

(** the [filter] predicate of [findContainerProducts] *)
Definition isContainerProducts (el : Element) : bool :=
  let kids := children el in
  if (length kids <? 3)%nat then false
  else if negb (Qle_bool 0.7 (consistentStructure (analyzePattern kids))) then false
  else (2 <=? length (List.filter isProductLike (firstn 3 kids)))%nat.

Definition findContainerProducts (root : Element) : list Element :=
  List.filter isContainerProducts (documentQuery root [Tag "div"; Tag "section"]).

(** [findProductContainers()]: the five strategies in order, gathered in a
    [Set] *)
Definition findProductContainers (root : Element) : list Element :=
  uniqueById []
    (findGridProducts root ++ findListProducts root ++ findTableProducts root
     ++ findCardProducts root ++ findContainerProducts root).

(** *** Extraction *)

(** the [options] of [extractData]; only [maxProducts] bears on what
    follows, the other properties are read after the title *)
Definition maxProductsOf (optMaxProducts : option nat) : nat :=
  match optMaxProducts with Some n => n | None => 100 end.

(** [extractTitle(element)].  The body of the loop over the thirteen
    selectors declares [const element = element.querySelector(selector)]:
    the name on the right is the constant being declared, read before its
    initialisation, so the first iteration throws a ReferenceError. *)
Definition extractTitle (el : Element) : Js.JsResult string :=
  Js.Throw "Cannot access 'element' before initialization".

Section Extraction.
(** The record of one product, and the initialisers of the object literal
    of [extractProductData] that follow [title] (price, url, image,
    description, rating, availability, element) with the removal of the
    empty values: they are evaluated after [extractTitle] has returned. *)
Context {Product : Type} (laterFields : Element -> string -> Js.JsResult Product).

(** [extractProductData(element, config)] *)
Definition extractProductData (el : Element) : Js.JsResult Product :=
  match extractTitle el with
  | Js.Ok title => laterFields el title
  | Js.Throw e => Js.Throw e
  end.

(** [children.forEach((child, index) => { if (this.isProductLike(child))
    products.push({ ...extractProductData(child), index: index + 1 }) })]
    from [index] on; a product is paired with its index *)
Fixpoint collectProducts (index : nat) (kids : list Element) (products : list (Product * nat))
  : Js.JsResult (list (Product * nat)) :=
  match kids with
  | [] => Js.Ok products
  | child :: rest =>
      if isProductLike child then
        match extractProductData child with
        | Js.Ok productData => collectProducts (S index) rest (products ++ [(productData, index + 1)])
        | Js.Throw e => Js.Throw e
        end
      else collectProducts (S index) rest products
  end.

Definition extractProductsFromContainer (container : Element) (maxProducts : nat)
  : Js.JsResult (list (Product * nat)) :=
  match collectProducts 0 (Js.slice 0 (maxProducts * 2) (children container)) [] with
  | Js.Ok products => Js.Ok (Js.slice 0 maxProducts products)
  | Js.Throw e => Js.Throw e
  end.

(** [extractData(container, options)].[data] *)
Definition extractData (container : Element) (optMaxProducts : option nat)
  : Js.JsResult (list (Product * nat)) :=
  extractProductsFromContainer container (maxProductsOf optMaxProducts).
End Extraction.

End ProductDetector.

(** ** Requests *)

(** A JavaScript value as it travels between the page, the engine and the
    workers: a tree without sharing. *)
Inductive Value : Type :=
| VUndefined
| VNull
| VBool (b : bool)
| VNum (q : Q)
| VStr (s : string)
| VArr (items : list Value)
| VObj (props : list (string * Value)).

(** one entry of [config.processors]; [args] is [None] when the property
    is absent *)
Record Processor : Type := mkProcessor {
  name : string;
  args : option (list Value)
}.

(** the request configuration; an absent property is [None] *)
Record Config : Type := mkConfig {
  mode : string;
  selectors : option (list string);
  processors : option (list Processor)
}.

(** ** DOMScanner (second class of product-detector.js) *)

Module DOMScanner.
Import Dom.

Record TableData : Type := mkTableData {
  headers : list string;
  tableRows : list (list (string * string));
  tableElement : Element
}.

(** what a detector of [autoDetect] returns *)
Record Detection : Type := mkDetection {
  type : string;
  data : list TableData;
  detectionConfidence : Q
}.

Record ProductData : Type := mkProductData {
  title : string;
  price : string;
  image : option string;
  url : option string;
  description : string;
  rating : string;
  productElement : Element
}.

(** the value of [results] in [scrape] *)
Inductive Results : Type :=
| RNull
| RDetection (d : Detection)
| RProducts (l : list ProductData).

Record ScrapeMetadata : Type := mkScrapeMetadata {
  metaUrl : string;
  timestamp : string;
  processingTime : Q;
  elementCount : nat
}.

(** what [scrape] returns: [{ data, metadata }] or [{ error }] *)
Inductive ScrapeResult : Type :=
| Scraped (results : Results) (metadata : ScrapeMetadata)
| ScrapeError (message : string).

(** what the page supplies during one [scrape]: the two readings of
    [performance.now()], [new Date().toISOString()], [window.location.href] *)
Record Env : Type := mkEnv {
  startTime : Q;
  endTime : Q;
  isoNow : string;
  href : string
}.

(** The message of the TypeError thrown by [this.name(...)] when the
    class body defines no method [name]: the property reads [undefined]. *)
Definition notAFunction (name : string) : string :=
  ("this." ++ name ++ " is not a function")%string.

(** the column keys [col0], [col1], ... paired with the trimmed cell texts *)
Fixpoint rowData (j : nat) (cs : list Element) : list (string * string) :=
  match cs with
  | [] => []
  | c :: rest => (("col" ++ pretty j)%string, Js.trim (textContent c)) :: rowData (S j) rest
  end.

Definition extractTableData (table : Element) : TableData :=
  {| headers := List.map (fun th => Js.trim (textContent th))
                  (querySelectorAll table [Tag "th"]);
     tableRows := List.map (fun r => rowData 0 (cells r)) (rows table);
     tableElement := table |}.

Definition detectTables (doc : Document) : Detection :=
  let tables := Js.slice 0 20 (documentQuery (root doc) [Tag "table"]) in
  {| type := "tables";
     data := List.map extractTableData tables;
     detectionConfidence := if (0 <? length tables)%nat then 0.9 else 0 |}.

(** [detectors.map(d => { try { return d() } catch (e) { return null } })] *)
Definition tolerate (outcome : Js.JsResult Detection) : option Detection :=
  match outcome with
  | Js.Ok d => Some d
  | Js.Throw _ => None
  end.

(** the callback of [results.reduce(..., null)]; a detection always
    carries its [data] array, so [!current.data] is false for it *)
Definition keepBetter (best current : option Detection) : option Detection :=
  match current with
  | None => best
  | Some c =>
      match best with
      | None => current
      | Some b => if (length (data b) <? length (data c))%nat then current else best
      end
  end.

Definition pickBest (results : list (option Detection)) : option Detection :=
  fold_left keepBetter results None.

(** The methods of the class that [autoDetect] can call as detectors.  The
    class body defines [detectTables]; it defines neither [detectLists]
    nor [detectProducts]. *)
Definition detectorMethod (name : string) : option (Document -> Detection) :=
  if String.eqb name "detectTables" then Some detectTables else None.

(** [this.name()] *)
Definition callDetector (doc : Document) (name : string) : Js.JsResult Detection :=
  match detectorMethod name with
  | Some method => Js.Ok (method doc)
  | None => Js.Throw (notAFunction name)
  end.

(** [const detectors = [() => this.detectTables(), () => this.detectLists(),
                        () => this.detectProducts()]] *)
Definition detectors : list string := ["detectTables"; "detectLists"; "detectProducts"].

Definition autoDetect (doc : Document) : option Detection :=
  pickBest (List.map (fun name => tolerate (callDetector doc name)) detectors).

(** the price test of [isLikelyProduct]: one of the dollar, euro and pound
    signs, white space, digits, a dot or a comma, two digits *)
Definition likelyPrice : Re.Pattern :=
  Re.seq (Re.alt (Re.lit "$") (Re.alt (Re.lit ProductDetector.euro) (Re.lit ProductDetector.pound)))
    (Re.seq (Re.starCls Js.isWhite)
       (Re.seq (Re.plusCls Re.digit)
          (Re.seq (Re.cls (fun c => (Ascii.eqb c "." || Ascii.eqb c ",")%bool))
             (Re.seq (Re.cls Re.digit) (Re.cls Re.digit))))).

Definition isLikelyProduct (el : Element) : bool :=
  let text := textContent el in
  let kids := length (children el) in
  let hasPrice := Re.test likelyPrice text in
  let hasImage := ProductDetector.isSome (querySelector el [Tag "img"]) in
  let hasButton :=
    ProductDetector.isSome
      (querySelector el [Tag "button"; ClassContains "btn"; ClassContains "button"]) in
  ((hasPrice || hasImage) && ((1 <? kids)%nat || hasButton))%bool.

(** [extractText(element, selectors)]: the trimmed text of the first
    selector that finds an element with text, else the empty string *)
Fixpoint extractText (el : Element) (selectors : list (list Simple)) : string :=
  match selectors with
  | [] => EmptyString
  | selector :: rest =>
      match querySelector el selector with
      | Some found =>
          match Js.trim (textContent found) with
          | EmptyString => extractText el rest
          | text => text
          end
      | None => extractText el rest
      end
  end.

(** [extractAttribute(element, tagName, attribute)]: [None] is [null] *)
Definition extractAttribute (el : Element) (tag attribute : string) : option string :=
  match querySelector el [Tag tag] with
  | Some found => getAttribute (attributes found) attribute
  | None => Some EmptyString
  end.

Definition extractProductData (el : Element) : ProductData :=
  {| title := extractText el [[Tag "h1"]; [Tag "h2"]; [Tag "h3"];
                              [ClassContains "title"; ClassContains "name"]];
     price := extractText el [[ClassContains "price"; ClassContains "cost"; Class "price"]];
     image := extractAttribute el "img" "src";
     url := extractAttribute el "a" "href";
     description := extractText el [[ClassContains "desc"; ClassContains "details"; Tag "p"]];
     rating := extractText el [[ClassContains "rating"; ClassContains "star"; Class "rating"]];
     productElement := el |}.

(** the default selectors of [extractProducts]; the source writes the
    attribute values between double quotes, which select the same nodes *)
Definition productPatterns : list string :=
  [".product, [class*='product'], [class*='item']";
   ".card, [class*='card']";
   "[class*='grid'] > div, [class*='list'] > div";
   ".product-item, .product-card, .item-box"].

(** [[...new Set(allElements)]]: one entry per node, first occurrence kept *)
Fixpoint uniqueNodes (seen : list nat) (l : list Element) : list Element :=
  match l with
  | [] => []
  | e :: rest =>
      if existsb (Nat.eqb (nodeId e)) seen then uniqueNodes seen rest
      else e :: uniqueNodes (nodeId e :: seen) rest
  end.

Definition extractProducts (doc : Document) (config : Config) : list ProductData :=
  let selectors := match selectors config with
                   | Some l => l
                   | None => productPatterns
                   end in
  let allElements :=
    flat_map (fun selector =>
                match selectAll doc selector with
                | Js.Ok elements => elements
                | Js.Throw _ => []          (* skip invalid selectors *)
                end) selectors in
  List.map extractProductData
    (List.filter isLikelyProduct (uniqueNodes [] allElements)).

(** The methods of the class that the [switch] of [scrape] can call with
    the request.  The class body defines [extractProducts]; it defines
    none of [extractTables], [extractLists], [extractWithSelectors]. *)
Definition extractorMethod (name : string) : option (Document -> Config -> Results) :=
  if String.eqb name "extractProducts"
  then Some (fun doc config => RProducts (extractProducts doc config))
  else None.

(** [this.name(...)] *)
Definition callExtractor (doc : Document) (config : Config) (name : string)
  : Js.JsResult Results :=
  match extractorMethod name with
  | Some method => Js.Ok (method doc config)
  | None => Js.Throw (notAFunction name)
  end.

(** the [switch (config.mode)] of [scrape]; no [default] case, so any other
    mode leaves [results] at [null] *)
Definition dispatch (doc : Document) (config : Config) : Js.JsResult Results :=
  let m := mode config in
  if String.eqb m "auto" then
    Js.Ok (match autoDetect doc with Some d => RDetection d | None => RNull end)
  else if String.eqb m "table" then callExtractor doc config "extractTables"
  else if String.eqb m "list" then callExtractor doc config "extractLists"
  else if String.eqb m "products" then callExtractor doc config "extractProducts"
  else if String.eqb m "custom" then callExtractor doc config "extractWithSelectors"
  else Js.Ok RNull.

(** [results?.length || 0] *)
Definition lengthOrZero (results : Results) : nat :=
  match results with
  | RProducts l => length l
  | RNull | RDetection _ => 0
  end.

Definition scrape (doc : Document) (env : Env) (config : Config) : ScrapeResult :=
  match dispatch doc config with
  | Js.Ok results =>
      Scraped results
        {| metaUrl := href env;
           timestamp := isoNow env;
           processingTime := (endTime env - startTime env)%Q;
           elementCount := lengthOrZero results |}
  | Js.Throw message => ScrapeError message
  end.

End DOMScanner.

(** ** ContentController (content.js) *)

Module ContentController.
Import Dom.

(** an entry of [matches] in [testSelector] *)
Record Match : Type := mkMatch {
  matchIndex : nat;
  matchTagName : string;
  matchClassName : string;
  matchId : string;
  matchText : string;
  matchHtml : string
}.

(** what [testSelector] returns *)
Inductive TestResult : Type :=
| TestOk (matches : list Match) (count : nat) (selector : string)
                                   (* { success: true, matches, count, selector } *)
| TestFailed (error : string) (selector : string).
                                   (* { success: false, error, selector } *)

(** the [map] callback of [testSelector] *)
Definition describe (el : Element) (index : nat) : Match :=
  {| matchIndex := index;
     matchTagName := tagName el;
     matchClassName := className el;
     matchId := id el;
     matchText := Js.takeChars 100 (Js.trim (textContent el));
     matchHtml := Js.takeChars 200 (innerHTML el) |}.

Definition testSelector (doc : Document) (selector : string) : TestResult :=
  match selectAll doc selector with
  | Js.Ok elements =>
      let matches := ListDetector.mapIndexed describe 0 elements in
      TestOk matches (length matches) selector
  | Js.Throw message => TestFailed message selector
  end.

(** [handleExtract] and [handleScrape]: what is passed to [sendResponse] *)
Definition handleScrape (doc : Document) (env : DOMScanner.Env) (config : Config)
  : DOMScanner.ScrapeResult :=
  DOMScanner.scrape doc env config.

End ContentController.

(** ** ScrapingEngine (the extraction engine) *)

Module ScrapingEngine.

(** an entry of [this.cache]: [{ data, timestamp }] *)
Record CacheEntry : Type := mkCacheEntry {
  entryData : Value;
  entryTimestamp : Z
}.

(** an entry of [this.workerPool]: [{ worker, busy }]; the worker is known
    by its position in the pool *)
Record WorkerSlot : Type := mkWorkerSlot {
  busy : bool
}.

(** the fields of the engine object, as they stand when a method is
    called *)
Record Engine : Type := mkEngine {
  cache : gmap string CacheEntry;
  workerPool : list WorkerSlot
}.

(** how an awaited promise ends *)
Inductive Settled (A : Type) : Type :=
| Resolved (a : A)
| Rejected (error : string)
| Pending.                          (* never settles *)
Arguments Resolved {A} a.
Arguments Rejected {A} error.
Arguments Pending {A}.

(** what follows [worker.postMessage(job)] *)
Inductive WorkerOutcome : Type :=
| Replied (data : Value)            (* onmessage fires with event.data *)
| Failed (error : string)           (* onerror fires *)
| NotPosted (error : string)        (* postMessage itself throws *)
| Silent.                           (* neither handler is ever called *)

(** What the host supplies to one call of [extract]: [JSON.stringify], the
    two readings of [Date.now()], the answer of the page and of the
    workers, and the built-ins whose outcome rests on conversions of the
    engine ([ToNumber], [ToPropertyKey], calling a function value). *)
Record Platform : Type := mkPlatform {
  stringify : Config -> string;                      (* JSON.stringify(config) *)
  nowAtCheck : Z;                                    (* Date.now() at the cache test *)
  nowAtStore : Z;                                    (* Date.now() at cache.set *)
  sendMessage : Z -> Config -> Settled Value;        (* chrome.tabs.sendMessage *)
  workerRun : nat -> Value -> Config -> WorkerOutcome;
  sortByKey : Value -> list Value -> Js.JsResult Value;
                                   (* arr.sort((a, b) => a[key] - b[key]), key = args[0] *)
  filterBy : Value -> list Value -> Js.JsResult Value;
                                   (* arr.filter(predicate), predicate = args[0] *)
  objectBuiltin : string -> Value -> list Value -> Js.JsResult Value
                                   (* Object.prototype[name] called on [processors] *)
}.

(** the observable work of a call, in order *)
Inductive Work : Type :=
| SentToPage (tabId : Z) (config : Config)
| PostedToWorker (index : nat) (data : Value) (config : Config)
| ProcessedInline (data : Value) (config : Config).

(** [SameValueZero] on values without sharing: primitives by value, two
    objects or arrays never the same *)
Definition sameValueZero (a b : Value) : bool :=
  match a, b with
  | VUndefined, VUndefined => true
  | VNull, VNull => true
  | VBool x, VBool y => Bool.eqb x y
  | VNum x, VNum y => Qeq_bool x y
  | VStr x, VStr y => String.eqb x y
  | _, _ => false
  end.

(** the entries of [new Set(items)] in insertion order *)
Fixpoint distinct (seen : list Value) (items : list Value) : list Value :=
  match items with
  | [] => []
  | v :: rest =>
      if existsb (sameValueZero v) seen then distinct seen rest
      else v :: distinct (v :: seen) rest
  end.

(** the characters of a text, as the string iterator yields them *)
Definition characters (s : string) : list Value :=
  List.map (fun c => VStr (String c EmptyString)) (list_ascii_of_string s).

(** [deduplicate: (arr) => [...new Set(arr)]]: [new Set] takes an array, a
    text, [null] or [undefined] and throws on anything else *)
Definition deduplicate (arr : Value) : Js.JsResult Value :=
  match arr with
  | VArr items => Js.Ok (VArr (distinct [] items))
  | VStr s => Js.Ok (VArr (distinct [] (characters s)))
  | VNull | VUndefined => Js.Ok (VArr [])
  | VBool _ | VNum _ | VObj _ => Js.Throw "arr is not iterable"
  end.

(** the functions that the object literal [processors] inherits from
    [Object.prototype] *)
Definition inheritedFunctions : list string :=
  ["constructor"; "__defineGetter__"; "__defineSetter__"; "hasOwnProperty";
   "__lookupGetter__"; "__lookupSetter__"; "isPrototypeOf";
   "propertyIsEnumerable"; "toString"; "valueOf"; "toLocaleString"].

(** what [processors[name]] reads *)
Inductive Member : Type :=
| OwnDeduplicate
| OwnSort
| OwnFilter
| InheritedFunction (name : string)
| InheritedProto                    (* [__proto__]: Object.prototype, an object *)
| Absent.                           (* undefined *)

Definition readMember (name : string) : Member :=
  if String.eqb name "deduplicate" then OwnDeduplicate
  else if String.eqb name "sort" then OwnSort
  else if String.eqb name "filter" then OwnFilter
  else if existsb (String.eqb name) inheritedFunctions then InheritedFunction name
  else if String.eqb name "__proto__" then InheritedProto
  else Absent.

(** [processors[name](result, ...args)] for a member that is there *)
Definition callMember (pf : Platform) (m : Member) (result : Value) (args : list Value)
  : Js.JsResult Value :=
  match m with
  | OwnDeduplicate => deduplicate result
  | OwnSort => sortByKey pf result args
  | OwnFilter => filterBy pf result args
  | InheritedFunction name =>
      if (String.eqb name "toString" || String.eqb name "toLocaleString")%bool
      then Js.Ok (VStr "[object Object]")
      else objectBuiltin pf name result args
  | InheritedProto => Js.Throw "processors[processor.name] is not a function"
  | Absent => Js.Ok result
  end.

(** the callback of [config.processors.forEach] *)
Definition applyProcessor (pf : Platform) (result : Value) (processor : Processor)
  : Js.JsResult Value :=
  match readMember (name processor) with
  | Absent => Js.Ok result                       (* the [if] is not taken *)
  | m =>
      match args processor with
      | None => Js.Throw "processor.args is not iterable"
      | Some a => callMember pf m result a
      end
  end.

Fixpoint runProcessors (pf : Platform) (result : Value) (l : list Processor)
  : Js.JsResult Value :=
  match l with
  | [] => Js.Ok result
  | processor :: rest =>
      match applyProcessor pf result processor with
      | Js.Ok result' => runProcessors pf result' rest
      | Js.Throw e => Js.Throw e
      end
  end.

Definition processInline (pf : Platform) (data : Value) (config : Config)
  : Js.JsResult Value :=
  match processors config with
  | Some l => runProcessors pf data l
  | None => Js.Ok data
  end.

(** [this.workerPool.find(w => !w.busy)], as a position *)
Fixpoint findFree (i : nat) (pool : list WorkerSlot) : option nat :=
  match pool with
  | [] => None
  | w :: rest => if busy w then findFree (S i) rest else Some i
  end.

Definition setBusy (i : nat) (b : bool) (pool : list WorkerSlot) : list WorkerSlot :=
  <[i := mkWorkerSlot b]> pool.

(** a [throw] inside an [async] method rejects its promise *)
Definition settle {A : Type} (r : Js.JsResult A) : Settled A :=
  match r with
  | Js.Ok a => Resolved a
  | Js.Throw e => Rejected e
  end.

Definition processInWorker (pf : Platform) (pool : list WorkerSlot)
  (data : Value) (config : Config) : Settled Value * list WorkerSlot * list Work :=
  match findFree 0 pool with
  | None =>
      (settle (processInline pf data config), pool, [ProcessedInline data config])
  | Some i =>
      let taken := setBusy i true pool in
      match workerRun pf i data config with
      | Replied processed => (Resolved processed, setBusy i false taken,
                              [PostedToWorker i data config])
      | Failed error => (Rejected error, setBusy i false taken,
                         [PostedToWorker i data config])
      | NotPosted error => (Rejected error, taken, [])
      | Silent => (Pending, taken, [PostedToWorker i data config])
      end
  end.

Definition cacheKey (pf : Platform) (tabId : Z) (config : Config) : string :=
  (pretty tabId ++ ":" ++ stringify pf config)%string.

(** the cache test at the head of [extract] *)
Definition liveEntry (pf : Platform) (engine : Engine) (key : string) : option CacheEntry :=
  match cache engine !! key with
  | Some cached =>
      if (nowAtCheck pf - entryTimestamp cached <? 30000)%Z then Some cached else None
  | None => None
  end.

(** [extract(tabId, config)]: how the returned promise ends, the engine
    afterwards and the work done *)
Definition extract (pf : Platform) (engine : Engine) (tabId : Z) (config : Config)
  : Settled Value * Engine * list Work :=
  let key := cacheKey pf tabId config in
  match liveEntry pf engine key with
  | Some cached => (Resolved (entryData cached), engine, [])
  | None =>
      match sendMessage pf tabId config with
      | Resolved data =>
          let '(outcome, pool, work) := processInWorker pf (workerPool engine) data config in
          match outcome with
          | Resolved processedData =>
              (Resolved processedData,
               {| cache := <[key := {| entryData := processedData;
                                       entryTimestamp := nowAtStore pf |}]> (cache engine);
                  workerPool := pool |},
               SentToPage tabId config :: work)
          | Rejected error =>
              (Rejected error, {| cache := cache engine; workerPool := pool |},
               SentToPage tabId config :: work)
          | Pending =>
              (Pending, {| cache := cache engine; workerPool := pool |},
               SentToPage tabId config :: work)
          end
      | Rejected error => (Rejected error, engine, [SentToPage tabId config])
      | Pending => (Pending, engine, [SentToPage tabId config])
      end
  end.


(** *** Construction *)

(** [ToBoolean] *)
Definition truthy (v : Value) : bool :=
  match v with
  | VUndefined | VNull => false
  | VBool b => b
  | VNum q => negb (Qeq_bool q 0)
  | VStr s => negb (String.eqb s EmptyString)
  | VArr _ | VObj _ => true
  end.

(** the loop test [i < navigator.hardwareConcurrency || 4] of
    [initWorkers], which groups as [(i < hardwareConcurrency) || 4];
    [hardwareConcurrency] is [None] where the navigator does not report it
    and the comparison with [undefined] is false *)
Definition loopTest (hardwareConcurrency : option nat) (i : nat) : Value :=
  let below := match hardwareConcurrency with
               | Some n => (i <? n)%nat
               | None => false
               end in
  if below then VBool true else VNum 4.

(** where the loop of [initWorkers] stands *)
Inductive LoopState : Type :=
| Exited (pool : list WorkerSlot)      (* the test was falsy: the loop is over *)
| Running (i : nat) (pool : list WorkerSlot).   (* about to test for index [i] *)

(** [steps] iterations of the loop of [initWorkers] from index [i], each
    creating a worker and pushing [{ worker, busy: false }] *)
Fixpoint initWorkersFrom (hardwareConcurrency : option nat) (steps : nat) (i : nat)
  (pool : list WorkerSlot) : LoopState :=
  match steps with
  | O => Running i pool
  | S steps' =>
      if truthy (loopTest hardwareConcurrency i)
      then initWorkersFrom hardwareConcurrency steps' (S i) (pool ++ [mkWorkerSlot false])
      else Exited pool
  end.

End ScrapingEngine.

(** ** ElementPicker (content.js) *)

Module ElementPicker.
Import Dom.

(** the methods that [start] and [stop] bind *)
Inductive Handler : Type := HandleMouseOver | HandleClick | HandleKeydown.

(** a function object made by [method.bind(this)]: every call of [bind]
    makes a new object, known by its identity *)
Record Bound : Type := mkBound {
  functionId : nat;
  method : Handler
}.

(** an entry of the listener list of [document] *)
Record Registered : Type := mkRegistered {
  eventType : string;
  callback : Bound
}.

(** [this.infoBox]: null, an element not yet in the page, an element of
    the page *)
Inductive InfoBox : Type := NoBox | Detached | Attached.

(** The fields of the picker and the parts of the page that [start],
    [stop] and the highlighting change: the listeners of [document] in the
    order of their registration, the number of style elements appended to
    the head, and the number of function objects made so far.  The inline
    styles of the highlighted element are kept by the element and are not
    part of this state. *)
Record State : Type := mkState {
  isPicking : bool;
  highlightedElement : option Element;
  infoBox : InfoBox;
  listeners : list Registered;
  styleElements : nat;
  allocated : nat
}.

(** a new picker on a page without listeners *)
Definition initial : State := mkState false None NoBox [] 0 0.

Definition sameListener (type : string) (f : Bound) (r : Registered) : bool :=
  (String.eqb (eventType r) type && Nat.eqb (functionId (callback r)) (functionId f))%bool.

(** [this.method.bind(this)] *)
Definition bind (h : Handler) (st : State) : Bound * State :=
  (mkBound (allocated st) h,
   mkState (isPicking st) (highlightedElement st) (infoBox st) (listeners st)
     (styleElements st) (S (allocated st))).

(** [document.addEventListener(type, f)]: a listener already registered
    for the type is not registered twice *)
Definition addEventListener (type : string) (f : Bound) (st : State) : State :=
  if existsb (sameListener type f) (listeners st) then st
  else mkState (isPicking st) (highlightedElement st) (infoBox st)
         (listeners st ++ [mkRegistered type f]) (styleElements st) (allocated st).

(** [document.removeEventListener(type, f)] *)
Definition removeEventListener (type : string) (f : Bound) (st : State) : State :=
  mkState (isPicking st) (highlightedElement st) (infoBox st)
    (List.filter (fun r => negb (sameListener type f r)) (listeners st))
    (styleElements st) (allocated st).

Definition setPicking (b : bool) (st : State) : State :=
  mkState b (highlightedElement st) (infoBox st) (listeners st) (styleElements st)
    (allocated st).

Definition setHighlighted (el : option Element) (st : State) : State :=
  mkState (isPicking st) el (infoBox st) (listeners st) (styleElements st) (allocated st).

Definition setInfoBox (box : InfoBox) (st : State) : State :=
  mkState (isPicking st) (highlightedElement st) box (listeners st) (styleElements st)
    (allocated st).

(** [addPickerStyles()]: one more style element in the head *)
Definition addPickerStyles (st : State) : State :=
  mkState (isPicking st) (highlightedElement st) (infoBox st) (listeners st)
    (S (styleElements st)) (allocated st).

(** [removeHighlight()] *)
Definition removeHighlight (st : State) : State := setHighlighted None st.

(** [removeInfoBox()]: [if (this.infoBox && this.infoBox.parentNode)] *)
Definition removeInfoBox (st : State) : State :=
  match infoBox st with
  | Attached => setInfoBox NoBox st
  | NoBox | Detached => st
  end.

(** [document.addEventListener(type, this.method.bind(this))] *)
Definition listen (type : string) (h : Handler) (st : State) : State :=
  let (f, st) := bind h st in addEventListener type f st.

(** [document.removeEventListener(type, this.method.bind(this))] *)
Definition unlisten (type : string) (h : Handler) (st : State) : State :=
  let (f, st) := bind h st in removeEventListener type f st.

Definition start (st : State) : State :=
  if isPicking st then st
  else
    let st := setPicking true st in
    let st := addPickerStyles st in
    let st := listen "mouseover" HandleMouseOver st in
    let st := listen "click" HandleClick st in
    listen "keydown" HandleKeydown st.

Definition stop (st : State) : State :=
  if negb (isPicking st) then st
  else
    let st := setPicking false st in
    let st := removeHighlight st in
    let st := removeInfoBox st in
    let st := unlisten "mouseover" HandleMouseOver st in
    let st := unlisten "click" HandleClick st in
    unlisten "keydown" HandleKeydown st.

(** a call of the picker from outside *)
Inductive Call : Type := Start | Stop.

Definition call (st : State) (c : Call) : State :=
  match c with
  | Start => start st
  | Stop => stop st
  end.

(** the picker after a sequence of calls *)
Definition run (calls : list Call) (st : State) : State := fold_left call calls st.

Section Highlighting.
(** [this.generateSelector(element)], which [showInfoBox] calls for the
    text of the box *)
Context (generateSelector : Element -> Js.JsResult string).

(** [showInfoBox(element)]; the second component is the message of what
    it throws *)
Definition showInfoBox (st : State) (el : Element) : State * option string :=
  let st := removeInfoBox st in
  let st := setInfoBox Detached st in               (* this.infoBox = createElement('div') *)
  match generateSelector el with
  | Js.Ok _ => (setInfoBox Attached st, None)       (* document.body.appendChild *)
  | Js.Throw message => (st, Some message)
  end.

(** [highlightElement(element)] *)
Definition highlightElement (st : State) (el : Element) : State * option string :=
  showInfoBox (setHighlighted (Some el) st) el.

(** [highlightBySelector(selector, index)] *)
Definition highlightBySelector (st : State) (doc : Document) (selector : string)
  (index : nat) : State * bool :=
  match selectAll doc selector with
  | Js.Ok elements =>
      match nth_error elements index with           (* elements.length > index *)
      | Some el =>
          match highlightElement st el with
          | (st', None) => (st', true)
          | (st', Some _) => (st', false)           (* caught and logged *)
          end
      | None => (st, false)
      end
  | Js.Throw _ => (st, false)                       (* caught and logged *)
  end.
End Highlighting.

End ElementPicker.

(** ** The message listener of ContentController (content.js) *)

Module Listener.
Import Dom.

(** a message for the content script, with the properties that the
    handlers read; [index] is [None] when the property is absent *)
Record Request : Type := mkRequest {
  action : string;
  requestConfig : Config;
  requestSelector : string;
  requestIndex : option nat
}.

(** what a handler passes to [sendResponse] *)
Inductive Response : Type :=
| ScrapeResponse (result : DOMScanner.ScrapeResult)
| TestResponse (result : ContentController.TestResult)
| Started                           (* { started: true } *)
| Highlighted                       (* { highlighted: true } *)
| Stopped                           (* { stopped: true } *)
| ErrorResponse (message : string). (* { error: message } *)

(** what [actions[request.action]] reads: a handler of the object literal,
    a function that the literal inherits from [Object.prototype], the
    prototype itself, or nothing *)
Inductive Action : Type :=
| Extract
| TestSelector
| StartElementPicker
| HighlightElement
| StopElementPicker
| GetStatus
| Scrape
| InheritedFunction (name : string)
| InheritedProto
| Unknown.

Definition readAction (name : string) : Action :=
  if String.eqb name "extract" then Extract
  else if String.eqb name "testSelector" then TestSelector
  else if String.eqb name "startElementPicker" then StartElementPicker
  else if String.eqb name "highlightElement" then HighlightElement
  else if String.eqb name "stopElementPicker" then StopElementPicker
  else if String.eqb name "getStatus" then GetStatus
  else if String.eqb name "scrape" then Scrape
  else if existsb (String.eqb name) ScrapingEngine.inheritedFunctions
       then InheritedFunction name
  else if String.eqb name "__proto__" then InheritedProto
  else Unknown.

(** The listener of [setupMessageListeners]: the picker afterwards and
    what is passed to [sendResponse], [None] when it is never called.
    [handleGetStatus] builds its answer with [this.domScanner.hasData()],
    a method that class DOMScanner does not define: the call throws before
    [sendResponse].  An inherited function is called without arguments and
    [sendResponse] is not among them; calling the prototype object throws. *)
Definition onMessage (generateSelector : Element -> Js.JsResult string)
  (doc : Document) (env : DOMScanner.Env) (st : ElementPicker.State) (request : Request)
  : ElementPicker.State * option Response :=
  match readAction (action request) with
  | Extract | Scrape =>
      (st, Some (ScrapeResponse (ContentController.handleScrape doc env (requestConfig request))))
  | TestSelector =>
      (st, Some (TestResponse (ContentController.testSelector doc (requestSelector request))))
  | StartElementPicker => (ElementPicker.start st, Some Started)
  | HighlightElement =>
      let index := match requestIndex request with Some i => i | None => 0%nat end in
      (fst (ElementPicker.highlightBySelector generateSelector st doc
              (requestSelector request) index),
       Some Highlighted)
  | StopElementPicker => (ElementPicker.stop st, Some Stopped)
  | GetStatus => (st, None)
  | InheritedFunction _ | InheritedProto => (st, None)
  | Unknown => (st, Some (ErrorResponse ("Unknown action: " ++ action request)%string))
  end.

End Listener.

(** ** Sample documents

    Small documents used to evaluate the definitions.  An element's
    [innerHTML] is the markup of its children and its [textContent] their
    concatenated text, as a browser reports them. *)

Module Sample.
Import Dom.

(** an element holding one text node *)
Definition leaf (nid : nat) (tag : string) (cls : string) (text : string)
  (w h : Z) : Element :=
  mkElement nid tag EmptyString cls [] text text "block" w h (inject_Z w) (inject_Z h) [].

(** serialised markup of an element without attributes *)
Definition markup (tagLower inner : string) : string :=
  ("<" ++ tagLower ++ ">" ++ inner ++ "</" ++ tagLower ++ ">")%string.

Definition cell (nid : nat) (text : string) : Element :=
  mkElement nid "TD" EmptyString EmptyString [] text text "table-cell" 120 20 120 20 [].

(** a table row of three cells with node ids [nid+1 .. nid+3] *)
Definition row3 (nid : nat) (a b c : string) : Element :=
  mkElement nid "TR" EmptyString EmptyString []
    (a ++ b ++ c)%string
    (markup "td" a ++ markup "td" b ++ markup "td" c)%string
    "table-row" 360 20 360 20
    [cell (nid + 1) a; cell (nid + 2) b; cell (nid + 3) c].

Definition stockRows : list Element :=
  [row3 10 "Widget" "$9.99" "in stock";
   row3 20 "Gadget" "$19.99" "in stock";
   row3 30 "Gizmo" "$4.50" "sold out";
   row3 40 "Sprocket" "$7.25" "in stock";
   row3 50 "Flange" "$12.00" "in stock"].

Definition concatMap (f : Element -> string) (l : list Element) : string :=
  fold_right (fun e acc => (f e ++ acc)%string) EmptyString l.

Definition stockBody : Element :=
  mkElement 2 "TBODY" EmptyString EmptyString []
    (concatMap textContent stockRows)
    (concatMap (fun r => markup "tr" (innerHTML r)) stockRows)
    "table-row-group" 360 100 360 100 stockRows.

(** [<table class="data table grid" role="grid" aria-label="price table">]
    with five rows of three cells *)
Definition stockTable : Element :=
  mkElement 1 "TABLE" EmptyString "data table grid"
    [("role", "grid"); ("aria-label", "price table")]
    (textContent stockBody)
    (markup "tbody" (innerHTML stockBody))
    "table" 360 100 360 100 [stockBody].

(** a table row of two cells *)
Definition row2 (nid : nat) (a b : string) : Element :=
  mkElement nid "TR" EmptyString EmptyString []
    (a ++ b)%string
    (markup "td" a ++ markup "td" b)%string
    "table-row" 240 20 240 20
    [cell (nid + 1) a; cell (nid + 2) b].

(** a plain table of eleven rows of two cells each *)
Definition elevenRows : list Element :=
  List.map (fun i => row2 (10 * i) "name" "value") (seq 1 11).

Definition elevenRowTable : Element :=
  mkElement 1 "TABLE" EmptyString EmptyString []
    (concatMap textContent elevenRows)
    (concatMap (fun r => markup "tr" (innerHTML r)) elevenRows)
    "table" 240 220 240 220 elevenRows.

(** [<ul><li class="odd"><a>..</a></li><li class="even"><a>..</a></li></ul>]:
    two items with one child each and different classes *)
Definition stripedList : Element :=
  mkElement 1 "UL" EmptyString EmptyString [] "HomeAbout" EmptyString "block" 200 40 200 40
    [mkElement 2 "LI" EmptyString "odd" [] "Home" EmptyString "list-item" 200 20 200 20
       [leaf 3 "A" EmptyString "Home" 60 20];
     mkElement 4 "LI" EmptyString "even" [] "About" EmptyString "list-item" 200 20 200 20
       [leaf 5 "A" EmptyString "About" 60 20]].

(** a sign-up box: a heading and a button, no price and no image *)
Definition signupBox (nid : nat) : Element :=
  mkElement nid "DIV" EmptyString "box" [] "NewsletterSign up"
    "<h3>Newsletter</h3><button>Sign up</button>" "block" 300 120 300 120
    [leaf (nid + 1) "H3" EmptyString "Newsletter" 280 30;
     leaf (nid + 2) "BUTTON" EmptyString "Sign up" 100 40].

(** a product card: an image, a price and a heading *)
Definition productCard (nid : nat) : Element :=
  mkElement nid "DIV" EmptyString "tile" [] "Widget$9.99"
    "<img src='w.png'><h3>Widget</h3><span>$9.99</span>" "block" 90 40 90 40
    [mkElement (nid + 1) "IMG" EmptyString EmptyString [("src", "w.png")] EmptyString EmptyString "inline" 80 20 80 20 [];
     leaf (nid + 2) "H3" EmptyString "Widget" 80 10;
     leaf (nid + 3) "SPAN" EmptyString "$9.99" 40 10].

(** a flex container of [n] product cards with node ids from 10 on *)
Definition cardGrid (n : nat) : Element :=
  let cards := List.map (fun i => productCard (10 * i)) (seq 1 n) in
  mkElement 1 "DIV" EmptyString "row" []
    (concatMap textContent cards)
    (concatMap (fun c => markup "div" (innerHTML c)) cards)
    "flex" 600 90 600 90 cards.

(** a flex container of [n] sign-up boxes *)
Definition signupGrid (n : nat) : Element :=
  let boxes := List.map (fun i => signupBox (10 * i)) (seq 1 n) in
  mkElement 1 "DIV" EmptyString "row" []
    (concatMap textContent boxes)
    (concatMap (fun c => markup "div" (innerHTML c)) boxes)
    "flex" 900 250 900 250 boxes.

(** all cells of the stock table, in document order *)
Definition stockCells : list Element := flat_map children stockRows.

(** the stock document; [document.querySelectorAll] answers the selectors
    used below and rejects the malformed [table[] *)
Definition stockDocument : Document :=
  mkDocument stockTable
    (fun selector =>
       if String.eqb selector "table" then Js.Ok [stockTable]
       else if String.eqb selector ".grid" then Js.Ok [stockTable]
       else if String.eqb selector "td" then Js.Ok stockCells
       else if String.eqb selector "table["
            then Js.Throw "'table[' is not a valid selector"
       else Js.Ok []).

(** a page holding a grid of three product cards and a sign-up box;
    [document.querySelectorAll] answers the selectors used below and
    rejects the malformed [div[] *)
Definition shopCards : list Element := children (cardGrid 3).

Definition shopDocument : Document :=
  mkDocument (cardGrid 3)
    (fun selector =>
       if String.eqb selector ".tile" then Js.Ok shopCards
       else if String.eqb selector "div" then Js.Ok (cardGrid 3 :: shopCards)
       else if String.eqb selector ".box" then Js.Ok [signupBox 90]
       else if String.eqb selector "div["
            then Js.Throw "'div[' is not a valid selector"
       else Js.Ok []).

(** a page without a table:
    [<ul class="menu list"><li>Home</li> ... <li>Contact</li></ul>] *)
Definition menuItems : list Element :=
  [leaf 2 "LI" EmptyString "Home" 200 20; leaf 3 "LI" EmptyString "Products" 200 20;
   leaf 4 "LI" EmptyString "Prices" 200 20; leaf 5 "LI" EmptyString "About" 200 20;
   leaf 6 "LI" EmptyString "Contact" 200 20].

Definition menuList : Element :=
  mkElement 1 "UL" EmptyString "menu list" []
    (concatMap textContent menuItems)
    (concatMap (fun c => markup "li" (innerHTML c)) menuItems)
    "block" 200 100 200 100 menuItems.

Definition menuDocument : Document :=
  mkDocument menuList
    (fun selector => if String.eqb selector "ul" then Js.Ok [menuList] else Js.Ok []).

Definition samplePage : DOMScanner.Env :=
  DOMScanner.mkEnv 1000 1004 "2024-05-01T10:00:00.000Z" "https://shop.example/stock".

(** the double quote *)
Definition dq : string := String (ascii_of_nat 34) EmptyString.

(** [JSON.stringify] for a configuration that holds its mode only *)
Definition modeJson (config : Config) : string :=
  ("{" ++ dq ++ "mode" ++ dq ++ ":" ++ dq ++ mode config ++ dq ++ "}")%string.

Definition pageData : Value := VArr [VStr "Widget"; VStr "Gadget"; VStr "Widget"].

(** A host: the page answers every request with [pageData]; worker 0
    replies with the data unchanged and every other worker fails; the clock
    reads 100000 at the cache test and 100250 at the store. *)
Definition host : ScrapingEngine.Platform :=
  {| ScrapingEngine.stringify := modeJson;
     ScrapingEngine.nowAtCheck := 100000;
     ScrapingEngine.nowAtStore := 100250;
     ScrapingEngine.sendMessage := fun _ _ => ScrapingEngine.Resolved pageData;
     ScrapingEngine.workerRun :=
       fun i data _ => match i with
                       | O => ScrapingEngine.Replied data
                       | S _ => ScrapingEngine.Failed "worker crashed"
                       end;
     ScrapingEngine.sortByKey := fun _ _ => Js.Throw "outside the sample host";
     ScrapingEngine.filterBy := fun _ _ => Js.Throw "outside the sample host";
     ScrapingEngine.objectBuiltin := fun _ _ _ => Js.Throw "outside the sample host" |}.

Definition autoConfig : Config := mkConfig "auto" None None.

(** an engine with an empty cache and two free workers *)
Definition engine : ScrapingEngine.Engine :=
  {| ScrapingEngine.cache := ∅;
     ScrapingEngine.workerPool :=
       [ScrapingEngine.mkWorkerSlot false; ScrapingEngine.mkWorkerSlot false] |}.

(** an engine with an empty cache whose first worker is busy *)
Definition engineFirstBusy : ScrapingEngine.Engine :=
  {| ScrapingEngine.cache := ∅;
     ScrapingEngine.workerPool :=
       [ScrapingEngine.mkWorkerSlot true; ScrapingEngine.mkWorkerSlot false] |}.

(** an engine with an empty cache whose two workers are busy *)
Definition engineAllBusy : ScrapingEngine.Engine :=
  {| ScrapingEngine.cache := ∅;
     ScrapingEngine.workerPool :=
       [ScrapingEngine.mkWorkerSlot true; ScrapingEngine.mkWorkerSlot true] |}.

(** the host, with workers to which no job can be posted *)
Definition hostNotPosting : ScrapingEngine.Platform :=
  {| ScrapingEngine.stringify := ScrapingEngine.stringify host;
     ScrapingEngine.nowAtCheck := ScrapingEngine.nowAtCheck host;
     ScrapingEngine.nowAtStore := ScrapingEngine.nowAtStore host;
     ScrapingEngine.sendMessage := ScrapingEngine.sendMessage host;
     ScrapingEngine.workerRun := fun _ _ _ => ScrapingEngine.NotPosted "could not be cloned";
     ScrapingEngine.sortByKey := ScrapingEngine.sortByKey host;
     ScrapingEngine.filterBy := ScrapingEngine.filterBy host;
     ScrapingEngine.objectBuiltin := ScrapingEngine.objectBuiltin host |}.

(** the same engine holding an entry for [autoConfig] on tab 7 stored at
    time [t] *)
Definition cachedAt (t : Z) : ScrapingEngine.Engine :=
  {| ScrapingEngine.cache :=
       {[ ScrapingEngine.cacheKey host 7 autoConfig
          := ScrapingEngine.mkCacheEntry (VStr "cached") t ]};
     ScrapingEngine.workerPool := ScrapingEngine.workerPool engine |}.

(** the host with other readings of the clock *)
Definition hostAt (check store : Z) : ScrapingEngine.Platform :=
  {| ScrapingEngine.stringify := ScrapingEngine.stringify host;
     ScrapingEngine.nowAtCheck := check;
     ScrapingEngine.nowAtStore := store;
     ScrapingEngine.sendMessage := ScrapingEngine.sendMessage host;
     ScrapingEngine.workerRun := ScrapingEngine.workerRun host;
     ScrapingEngine.sortByKey := ScrapingEngine.sortByKey host;
     ScrapingEngine.filterBy := ScrapingEngine.filterBy host;
     ScrapingEngine.objectBuiltin := ScrapingEngine.objectBuiltin host |}.

End Sample.

(** ** The notions the statements use *)

Module Spec.

(** the fraction of the siblings of the first item that match it; 0 when
    there is no item *)
Definition siblingFraction {A : Type} (same : A -> A -> bool) (items : list A) : Q :=
  match items with
  | first :: siblings =>
      Js.ratio (length (List.filter (same first) siblings)) (length siblings)
  | [] => 0
  end.

(** every sibling of the first item matches it *)
Definition uniform {A : Type} (same : A -> A -> bool) (items : list A) : bool :=
  match items with
  | first :: siblings => forallb (same first) siblings
  | [] => true
  end.

(** [r.cells.length === first.cells.length] *)
Definition sameCellCount (first r : Dom.Element) : bool :=
  Nat.eqb (length (Dom.cells r)) (length (Dom.cells first)).

(** [r.children.length === first.children.length] *)
Definition sameChildCount (first r : Dom.Element) : bool :=
  Nat.eqb (length (Dom.children r)) (length (Dom.children first)).

(** [best] is what the specification asks of [autoDetect] for the detector
    outcomes [outcomes]: nothing when every detector threw, else a
    detection that some detector returned and that no returned detection
    exceeds in number of records *)
Definition Longest (outcomes : list (Js.JsResult DOMScanner.Detection))
  (best : option DOMScanner.Detection) : Prop :=
  match best with
  | None => forall d, ~ In (Js.Ok d) outcomes
  | Some b =>
      In (Js.Ok b) outcomes
      /\ forall d, In (Js.Ok d) outcomes ->
                   (length (DOMScanner.data d) <= length (DOMScanner.data b))%nat
  end.


(** the comparator [(a, b) => b.key - a.key] *)
Definition byKeyDesc {A : Type} (key : A -> Q) : A -> A -> Q :=
  fun a b => (key b - key a)%Q.

(** [b] may follow [a] in a list that descends by [key] *)
Definition notBelow {A : Type} (key : A -> Q) (a b : A) : Prop := (key b <= key a)%Q.

(** a list of candidates in descending order of score *)
Definition Descending {M : Type} (l : list (Candidate M)) : Prop :=
  StronglySorted (fun a b => (score b <= score a)%Q) l.

(** the numeric fields of a candidate: [score] is [confidence] clamped to
    1, both are non-negative, and [confidence] stays within [top] *)
Definition WithinBounds {M : Type} (top : Q) (c : Candidate M) : Prop :=
  score c = Qmin 1 (confidence c)
  /\ ((0 <= score c)%Q /\ (score c <= 1)%Q)
  /\ ((0 <= confidence c)%Q /\ (confidence c <= top)%Q).

(** the points of one indicator *)
Definition points (b : bool) (w : Z) : Z := if b then w else 0%Z.

(** ranked selectors in descending order of score *)
Definition RankedDescending (l : list Selector.Ranked) : Prop :=
  StronglySorted (fun a b => (Selector.score b <= Selector.score a)%Q) l.

(** what a ranker guarantees, for the [map] callback [rank] it uses *)
Definition RankerContract (doc : Dom.Document)
  (rank : string -> Selector.Ranked) (out : list Selector.Ranked) : Prop :=
  (forall selector message,
      Dom.selectAll doc selector = Js.Throw message ->
      Selector.score (rank selector) = (-1)%Q
      /\ Selector.error (rank selector) = Some message
      /\ ~ In (rank selector) out)
  /\ Forall (fun r => (0 < Selector.score r)%Q) out
  /\ (length out <= 5)%nat
  /\ RankedDescending out.



(** the processors of a list are all unknown to [processors]: no own and no
    inherited member has their name *)
Definition allAbsent (l : list Processor) : bool :=
  forallb (fun p => match ScrapingEngine.readMember (name p) with
                    | ScrapingEngine.Absent => true
                    | _ => false
                    end) l.

(** [processors] holds a member of the name of the processor, own or
    inherited *)
Definition known (p : Processor) : bool :=
  negb match ScrapingEngine.readMember (name p) with
       | ScrapingEngine.Absent => true
       | _ => false
       end.

(** [tidyFrom afterWhite s]: in [s] every white-space character is a
    single space that follows and precedes a character that is not white
    space; [afterWhite] tells that [s] follows a space (or starts the text) *)
Fixpoint tidyFrom (afterWhite : bool) (s : string) : bool :=
  match s with
  | EmptyString => negb afterWhite
  | String c s' =>
      if Js.isWhite c
      then (Ascii.eqb c " " && negb afterWhite && tidyFrom true s')%bool
      else tidyFrom false s'
  end.

(** a text without white space at either end whose words are separated by
    single spaces *)
Definition tidy (s : string) : bool :=
  match s with
  | EmptyString => true
  | _ => tidyFrom true s
  end.

(** the first character is not white space *)
Definition startsClean (s : string) : bool :=
  match s with
  | String c _ => negb (Js.isWhite c)
  | EmptyString => true
  end.

(** the last character is not white space *)
Fixpoint endsClean (s : string) : bool :=
  match s with
  | EmptyString => true
  | String c s' =>
      match s' with
      | EmptyString => negb (Js.isWhite c)
      | String _ _ => endsClean s'
      end
  end.

(** the candidates of score [v], in the order of the list *)
Definition withScore {M : Type} (v : Q) (l : list (Candidate M)) : list (Candidate M) :=
  List.filter (fun c => Qeq_bool (score c) v) l.

(** the candidates that reach the threshold, in the order of nomination *)
Definition reaching {M : Type} (threshold : Q) (l : list (Candidate M)) : list (Candidate M) :=
  List.filter (fun c => Qle_bool threshold (score c)) l.

(** the modes of [scrape] whose method the class does not define *)
Definition missingMode (m : string) : bool :=
  (String.eqb m "table" || String.eqb m "list" || String.eqb m "custom")%bool.

(** the calls of [start] in a sequence of calls that find the picker idle,
    [picking] telling whether it is picking before the sequence *)
Fixpoint effectiveStarts (picking : bool) (calls : list ElementPicker.Call) : nat :=
  match calls with
  | [] => 0
  | ElementPicker.Start :: rest =>
      if picking then effectiveStarts true rest else S (effectiveStarts true rest)
  | ElementPicker.Stop :: rest => effectiveStarts false rest
  end.

(** the number of listeners of [document] for an event type *)
Definition listenersFor (type : string) (st : ElementPicker.State) : nat :=
  length (List.filter (fun r => String.eqb (ElementPicker.eventType r) type)
            (ElementPicker.listeners st)).

(** every registered listener is a function object made before now *)
Definition freshIds (st : ElementPicker.State) : Prop :=
  Forall (fun r => (ElementPicker.functionId (ElementPicker.callback r)
                    < ElementPicker.allocated st)%nat)
    (ElementPicker.listeners st).

(** every character of the text lies in the ASCII range, where the white
    space of JavaScript is the tab, the line feed, the vertical tab, the
    form feed, the carriage return and the space *)
Fixpoint asciiText (s : string) : bool :=
  match s with
  | EmptyString => true
  | String c s' => ((nat_of_ascii c <? 128)%nat && asciiText s')%bool
  end.

(** some character of the text satisfies [p] *)
Fixpoint anyChar (p : ascii -> bool) (s : string) : bool :=
  match s with
  | EmptyString => false
  | String c s' => (p c || anyChar p s')%bool
  end.

(** [out] gathers the nominations of the strategies: it names no node
    twice, every node in it was nominated by a strategy, and every
    nominated node is in it *)
Definition Gathers (strategies : list (list Dom.Element)) (out : list Dom.Element) : Prop :=
  List.NoDup (List.map Dom.nodeId out)
  /\ (forall x, In x out -> exists s, In s strategies /\ In x s)
  /\ (forall s x, In s strategies -> In x s ->
                  exists y, In y out /\ Dom.nodeId y = Dom.nodeId x).

(** the tag of the element, in lower case, is one of [tags] *)
Definition tagAmong (tags : list string) (el : Dom.Element) : bool :=
  existsb (fun t => Dom.tagIs t el) tags.

End Spec.

(** * Properties *)

(** names the innermost [bumpEach] of the goal and keeps that it does not
    lower the score *)
Ltac name_bumpEach bound :=
  match goal with
  | |- context [bumpEach ?h ?w ?l ?s] =>
      lazymatch s with
      | context [bumpEach _ _ _ _] => fail
      | _ => idtac
      end;
      let H := fresh "H" in
      assert (H : (s <= bumpEach h w l s)%Q) by (apply bound; lra);
      generalize dependent (bumpEach h w l s); intros
  end.

(** resolves every [if] of the goal by cases and closes the linear goals *)
Ltac split_ifs :=
  unfold bump;
  repeat match goal with
         | |- context [if ?b then _ else _] => destruct b
         end;
  repeat split; try reflexivity; try lra.

(** ** Sorting and ranking *)

Section SortFacts.
Context {A : Type} (key : A -> Q).

Lemma insertSorted_perm (x : A) (l : list A) :
  Permutation (Js.insertSorted (Spec.byKeyDesc key) x l) (x :: l).
Proof.
  induction l as [|y l IH]; simpl.
  - apply Permutation_refl.
  - destruct (Qle_bool ((Spec.byKeyDesc key) x y) 0).
    + apply Permutation_refl.
    + eapply perm_trans; [apply perm_skip, IH | apply perm_swap].
Qed.

Lemma sort_perm (l : list A) : Permutation (Js.sort (Spec.byKeyDesc key) l) l.
Proof.
  induction l as [|x l IH]; simpl.
  - apply perm_nil.
  - eapply perm_trans; [apply insertSorted_perm | apply perm_skip, IH].
Qed.

Lemma notBelow_trans (a b c : A) : (Spec.notBelow key) a b -> (Spec.notBelow key) b c -> (Spec.notBelow key) a c.
Proof. unfold Spec.notBelow. intros H1 H2. eapply Qle_trans; eauto. Qed.

Lemma insertSorted_sorted (x : A) (l : list A) :
  StronglySorted (Spec.notBelow key) l -> StronglySorted (Spec.notBelow key) (Js.insertSorted (Spec.byKeyDesc key) x l).
Proof.
  induction 1 as [|y l Hs IH Hall]; simpl.
  - constructor; constructor.
  - destruct (Qle_bool ((Spec.byKeyDesc key) x y) 0) eqn:E.
    + apply Qle_bool_iff in E. unfold Spec.byKeyDesc in E.
      assert (Hxy : (Spec.notBelow key) x y) by (unfold Spec.notBelow; lra).
      constructor.
      * constructor; assumption.
      * constructor; [exact Hxy|].
        eapply List.Forall_impl; [|exact Hall].
        intros z Hz. eapply notBelow_trans; eauto.
    + assert (Hyx : (Spec.notBelow key) y x).
      { unfold Spec.notBelow. destruct (Qlt_le_dec (key y) (key x)) as [Hlt|Hle]; [|exact Hle].
        assert (Hc : ((Spec.byKeyDesc key) x y <= 0)%Q) by (unfold Spec.byKeyDesc; lra).
        apply Qle_bool_iff in Hc. congruence. }
      constructor; [exact IH|].
      eapply Permutation_Forall; [apply Permutation_sym, insertSorted_perm|].
      constructor; assumption.
Qed.

Lemma sort_sorted (l : list A) : StronglySorted (Spec.notBelow key) (Js.sort (Spec.byKeyDesc key) l).
Proof.
  induction l as [|x l IH]; simpl.
  - constructor.
  - apply insertSorted_sorted, IH.
Qed.

Lemma sort_Forall (P : A -> Prop) (l : list A) :
  Forall P l -> Forall P (Js.sort (Spec.byKeyDesc key) l).
Proof.
  intros H. eapply Permutation_Forall; [apply Permutation_sym, sort_perm | exact H].
Qed.
End SortFacts.

(** what [keepAndRank] guarantees: every kept candidate reaches the
    threshold, the list is descending, and it is a rearrangement of the
    candidates that reach the threshold *)
Lemma keepAndRank_spec (M : Type) (threshold : Q) (l : list (Candidate M)) :
  Forall (fun c => (threshold <= score c)%Q) (keepAndRank threshold l)
  /\ StronglySorted (Spec.notBelow score) (keepAndRank threshold l)
  /\ Permutation (keepAndRank threshold l)
       (List.filter (fun c => Qle_bool threshold (score c)) l).
Proof.
  unfold keepAndRank. split; [|split].
  - apply (sort_Forall score).
    apply List.Forall_forall. intros c Hc. apply filter_In in Hc.
    destruct Hc as [_ Hc]. apply Qle_bool_iff. exact Hc.
  - apply (sort_sorted score).
  - apply (sort_perm score).
Qed.

Lemma keepAndRank_Forall (M : Type) (P : Candidate M -> Prop) (threshold : Q)
  (l : list (Candidate M)) :
  Forall P l -> Forall P (keepAndRank threshold l).
Proof.
  intros H. unfold keepAndRank. apply (sort_Forall score).
  apply List.Forall_forall. intros c Hc. apply filter_In in Hc.
  destruct Hc as [Hc _]. revert c Hc. apply List.Forall_forall. exact H.
Qed.


(** C1. Every candidate returned by a scoring pass reaches the threshold of
    its kind (Tabular 0.6, List 0.5, Product 0.6), and each returned list is
    in descending order of score. *)
Theorem scoring_pass_threshold_and_order (tables lists containers : list Dom.Element) :
  (Forall (fun c => (0.6 <= score c)%Q) (TableDetector.scoreTables tables)
   /\ Spec.Descending (TableDetector.scoreTables tables))
  /\ (Forall (fun c => (0.5 <= score c)%Q) (ListDetector.scoreLists lists)
      /\ Spec.Descending (ListDetector.scoreLists lists))
  /\ (Forall (fun c => (0.6 <= score c)%Q) (ProductDetector.scoreContainers containers)
      /\ Spec.Descending (ProductDetector.scoreContainers containers)).
Proof.
  unfold TableDetector.scoreTables, ListDetector.scoreLists,
    ProductDetector.scoreContainers.
  repeat split;
    first [ apply (keepAndRank_spec _ _ _) | apply (proj1 (proj2 (keepAndRank_spec _ _ _))) ].
Qed.

(** ** Bounds of the sub-scores *)

Lemma bump_bounds (b : bool) (w s : Q) :
  (0 <= w)%Q -> (s <= bump b w s)%Q /\ (bump b w s <= s + w)%Q.
Proof. intros Hw. unfold bump. destruct b; split; lra. Qed.

Lemma bumpEach_bounds (hit : string -> bool) (w : Q) (words : list string) (s : Q) :
  (0 <= w)%Q ->
  (s <= bumpEach hit w words s)%Q
  /\ (bumpEach hit w words s <= s + w * inject_Z (Z.of_nat (length words)))%Q.
Proof.
  intros Hw. unfold bumpEach. revert s.
  induction words as [|x words IH]; intros s.
  - cbn [fold_left length]. change (inject_Z (Z.of_nat 0)) with 0%Q. split; lra.
  - cbn [fold_left]. destruct (IH (bump (hit x) w s)) as [H1 H2].
    destruct (bump_bounds (hit x) w s Hw) as [H3 H4].
    split; [lra|].
    replace (length (x :: words)) with (S (length words)) by reflexivity.
    rewrite Nat2Z.inj_succ. unfold Z.succ. rewrite inject_Z_plus.
    change (inject_Z 1) with 1%Q. nra.
Qed.

Lemma ratio_bounds (n d : nat) :
  (n <= d)%nat -> (0 < d)%nat -> (0 <= Js.ratio n d)%Q /\ (Js.ratio n d <= 1)%Q.
Proof.
  intros Hnd Hd. unfold Js.ratio.
  assert (Hd' : (0 < inject_Z (Z.of_nat d))%Q).
  { change 0%Q with (inject_Z 0). rewrite <- Zlt_Qlt. lia. }
  assert (Hn : (0 <= inject_Z (Z.of_nat n))%Q).
  { change 0%Q with (inject_Z 0). rewrite <- Zle_Qle. lia. }
  assert (Hle : (inject_Z (Z.of_nat n) <= inject_Z (Z.of_nat d))%Q).
  { rewrite <- Zle_Qle. lia. }
  split.
  - apply Qle_shift_div_l; [exact Hd'|]. lra.
  - apply Qle_shift_div_r; [exact Hd'|]. lra.
Qed.

Lemma filter_length_le {A : Type} (f : A -> bool) (l : list A) :
  (length (List.filter f l) <= length l)%nat.
Proof.
  induction l as [|x l IH]; simpl; [lia|].
  destruct (f x); simpl; lia.
Qed.

Lemma slice_length {A : Type} (lo hi : nat) (l : list A) :
  length (Js.slice lo hi l) = (Nat.min hi (length l) - lo)%nat.
Proof. unfold Js.slice. rewrite List.length_skipn, List.length_firstn. reflexivity. Qed.

Lemma getDivStructureScore_bounds (div : Dom.Element) :
  (0 <= TableDetector.getDivStructureScore div)%Q
  /\ (TableDetector.getDivStructureScore div <= 1)%Q.
Proof.
  unfold TableDetector.getDivStructureScore.
  destruct (Dom.children div) as [|a [|b rest]] eqn:E; try (split; lra).
  apply ratio_bounds.
  - etransitivity; [apply filter_length_le|]. rewrite slice_length. lia.
  - cbn [length]. lia.
Qed.

Lemma getStructureScore_bounds (table : Dom.Element) :
  (0 <= TableDetector.getStructureScore table)%Q
  /\ (TableDetector.getStructureScore table <= 1)%Q.
Proof.
  unfold TableDetector.getStructureScore.
  destruct (negb (Dom.tagIs "table" table)); [apply getDivStructureScore_bounds|].
  destruct (Dom.rows table) as [|a [|b rest]] eqn:E; try (split; lra).
  apply ratio_bounds.
  - etransitivity; [apply filter_length_le|]. rewrite slice_length. lia.
  - cbn [length]. lia.
Qed.

Lemma getConsistencyScore_bounds (list : Dom.Element) :
  (0 <= ListDetector.getConsistencyScore list)%Q
  /\ (ListDetector.getConsistencyScore list <= 1)%Q.
Proof.
  unfold ListDetector.getConsistencyScore.
  destruct (Dom.children list) as [|a [|b rest]] eqn:E; try (split; lra).
  apply ratio_bounds.
  - etransitivity; [apply filter_length_le|]. rewrite slice_length. lia.
  - cbn [length]. lia.
Qed.

Lemma capped_bounds (cap x : Q) :
  (0 <= cap)%Q -> (0 <= x)%Q -> (0 <= Qmin cap x)%Q /\ (Qmin cap x <= cap)%Q.
Proof.
  intros Hc Hx. split.
  - apply Q.min_glb; assumption.
  - apply Q.le_min_l.
Qed.


Lemma table_semantic_bounds (table : Dom.Element) :
  (0 <= TableDetector.getSemanticScore table)%Q
  /\ (TableDetector.getSemanticScore table <= 0.25)%Q.
Proof.
  unfold TableDetector.getSemanticScore. cbv zeta.
  apply capped_bounds; [lra|].
  repeat name_bumpEach bumpEach_bounds. lra.
Qed.

Lemma list_semantic_bounds (list : Dom.Element) :
  (0 <= ListDetector.getSemanticScore list)%Q
  /\ (ListDetector.getSemanticScore list <= 0.25)%Q.
Proof.
  unfold ListDetector.getSemanticScore. cbv zeta.
  apply capped_bounds; [lra|].
  repeat name_bumpEach bumpEach_bounds. lra.
Qed.

Lemma product_semantic_bounds (el : Dom.Element) :
  (0 <= ProductDetector.getSemanticScore el)%Q
  /\ (ProductDetector.getSemanticScore el <= 0.25)%Q.
Proof.
  unfold ProductDetector.getSemanticScore. cbv zeta.
  apply capped_bounds; [lra|].
  repeat name_bumpEach bumpEach_bounds.
  match goal with
  | |- context [bump ?b ?w ?s] =>
      assert (Hb : (s <= bump b w s)%Q) by (apply bump_bounds; lra);
      generalize dependent (bump b w s); intros
  end.
  lra.
Qed.


Lemma clamp_bounds (s : Q) : (0 <= s)%Q -> (0 <= Qmin 1 s)%Q /\ (Qmin 1 s <= 1)%Q.
Proof. intros H. apply capped_bounds; lra. Qed.

Lemma scoreTable_bounds (table : Dom.Element) :
  let c := TableDetector.scoreTable table in
  score c = Qmin 1 (confidence c)
  /\ ((0 <= confidence c)%Q /\ (confidence c <= 1.25)%Q)
  /\ ((0 <= score c)%Q /\ (score c <= 1)%Q).
Proof.
  intros c.
  assert (Hc : (0 <= confidence c)%Q /\ (confidence c <= 1.25)%Q).
  { subst c. unfold TableDetector.scoreTable. cbv zeta. cbn [confidence].
    pose proof (getStructureScore_bounds table) as [Hs0 Hs1].
    pose proof (table_semantic_bounds table) as [Hm0 Hm1].
    generalize dependent (TableDetector.getStructureScore table).
    generalize dependent (TableDetector.getSemanticScore table).
    intros sem Hm0 Hm1 str Hs0 Hs1. split_ifs. }
  split; [reflexivity|]. split; [exact Hc|].
  change (score c) with (Qmin 1 (confidence c)). apply clamp_bounds, Hc.
Qed.

Lemma scoreList_bounds (list : Dom.Element) :
  let c := ListDetector.scoreList list in
  score c = Qmin 1 (confidence c)
  /\ ((0 <= confidence c)%Q /\ (confidence c <= 1.15)%Q)
  /\ ((0 <= score c)%Q /\ (score c <= 1)%Q).
Proof.
  intros c.
  assert (Hc : (0 <= confidence c)%Q /\ (confidence c <= 1.15)%Q).
  { subst c. unfold ListDetector.scoreList. cbv zeta. cbn [confidence].
    pose proof (getConsistencyScore_bounds list) as [Hs0 Hs1].
    pose proof (list_semantic_bounds list) as [Hm0 Hm1].
    generalize dependent (ListDetector.getConsistencyScore list).
    generalize dependent (ListDetector.getSemanticScore list).
    intros sem Hm0 Hm1 str Hs0 Hs1. split_ifs. }
  split; [reflexivity|]. split; [exact Hc|].
  change (score c) with (Qmin 1 (confidence c)). apply clamp_bounds, Hc.
Qed.

Lemma analyzePattern_bounds (kids : list Dom.Element) :
  let p := ProductDetector.analyzePattern kids in
  (0 <= ProductDetector.consistentStructure p + ProductDetector.consistentClasses p
        + ProductDetector.consistentSize p)%Q
  /\ (ProductDetector.consistentStructure p + ProductDetector.consistentClasses p
      + ProductDetector.consistentSize p <= 3)%Q.
Proof.
  unfold ProductDetector.analyzePattern. cbv zeta.
  cbn [ProductDetector.consistentStructure ProductDetector.consistentClasses
       ProductDetector.consistentSize].
  repeat match goal with
         | |- context [if ?b then _ else _] =>
             let q := fresh "q" in
             let H := fresh "H" in
             first
               [ is_var b; fail 1
               | generalize b; intros q; destruct q ]
         end;
  split; lra.
Qed.

Lemma productRatio_bounds (container : Dom.Element) :
  let r := Js.ratio (ProductDetector.countProductChildren container)
             (Nat.max 1 (length (Dom.children container))) in
  (0 <= r)%Q /\ (r <= 1)%Q.
Proof.
  cbv zeta. apply ratio_bounds; [|lia].
  unfold ProductDetector.countProductChildren.
  etransitivity; [apply filter_length_le|]. rewrite List.length_firstn. lia.
Qed.

Lemma scoreContainer_bounds (container : Dom.Element) :
  let c := ProductDetector.scoreContainer container in
  score c = Qmin 1 (confidence c)
  /\ ((0 <= confidence c)%Q /\ (confidence c <= 1.05)%Q)
  /\ ((0 <= score c)%Q /\ (score c <= 1)%Q).
Proof.
  intros c.
  assert (Hc : (0 <= confidence c)%Q /\ (confidence c <= 1.05)%Q).
  { subst c. unfold ProductDetector.scoreContainer. cbv zeta. cbn [confidence].
    pose proof (productRatio_bounds container) as [Hr0 Hr1]. cbv zeta in Hr0, Hr1.
    pose proof (analyzePattern_bounds (Dom.children container)) as [Hp0 Hp1].
    cbv zeta in Hp0, Hp1.
    pose proof (product_semantic_bounds container) as [Hm0 Hm1].
    generalize dependent (ProductDetector.getSemanticScore container).
    generalize dependent (ProductDetector.analyzePattern (Dom.children container)).
    generalize dependent (Js.ratio (ProductDetector.countProductChildren container)
                            (Nat.max 1 (length (Dom.children container)))).
    intros r Hr0 Hr1 p Hp0 Hp1 sem Hm0 Hm1.
    set (sum := (ProductDetector.consistentStructure p + ProductDetector.consistentClasses p
                 + ProductDetector.consistentSize p)%Q) in *.
    assert (Hd : (sum / 3 * 0.2 == sum * (1 # 15))%Q) by (field).
    unfold bump.
    repeat match goal with
           | |- context [if ?b then _ else _] => destruct b
           end; rewrite ?Hd; split; lra. }
  split; [reflexivity|]. split; [exact Hc|].
  change (score c) with (Qmin 1 (confidence c)). apply clamp_bounds, Hc.
Qed.


Lemma map_Forall {A B : Type} (f : A -> B) (P : B -> Prop) (l : list A) :
  (forall a, P (f a)) -> Forall P (List.map f l).
Proof. intros H. induction l; simpl; constructor; auto. Qed.

(** C9, as amended. For every candidate returned by a scoring pass, [score]
    lies in [0, 1] and equals [confidence] clamped to 1; [confidence] is the
    unclamped sum of the sub-scores: it is non-negative and at most 1.25
    (Tabular), 1.15 (List), 1.05 (Product). *)
Theorem candidate_numeric_fields (tables lists containers : list Dom.Element) :
  Forall (Spec.WithinBounds 1.25) (TableDetector.scoreTables tables)
  /\ Forall (Spec.WithinBounds 1.15) (ListDetector.scoreLists lists)
  /\ Forall (Spec.WithinBounds 1.05) (ProductDetector.scoreContainers containers).
Proof.
  unfold TableDetector.scoreTables, ListDetector.scoreLists,
    ProductDetector.scoreContainers, Spec.WithinBounds.
  repeat split; apply keepAndRank_Forall, map_Forall; intros el.
  - pose proof (scoreTable_bounds el) as H. cbv zeta in H. tauto.
  - pose proof (scoreList_bounds el) as H. cbv zeta in H. tauto.
  - pose proof (scoreContainer_bounds el) as H. cbv zeta in H. tauto.
Qed.

(** the table of the sample stock document is returned with score 1 and
    confidence 5/4 *)
Example stockTable_confidence :
  List.map (fun c => (Qred (score c), Qred (confidence c)))
    (TableDetector.scoreTables [Sample.stockTable])
  = [(1, 5 # 4)%Q].
Proof. vm_compute. reflexivity. Qed.

(** C9 fails as stated: the scoring pass returns the sample stock table
    with a confidence above 1. *)
Lemma confidence_above_one :
  exists c, In c (TableDetector.scoreTables [Sample.stockTable])
            /\ ~ (confidence c <= 1)%Q.
Proof.
  exists (TableDetector.scoreTable Sample.stockTable). split.
  - vm_compute. left. reflexivity.
  - intros H. apply Qle_bool_iff in H. vm_compute in H. discriminate.
Qed.

(** ** Structural consistency *)

Lemma slice_tail {A : Type} (cap : nat) (l : list A) :
  (length l <= cap)%nat -> Js.slice 1 (Nat.min cap (length l)) l = tl l.
Proof.
  intros H. rewrite Nat.min_r by exact H. unfold Js.slice.
  rewrite List.firstn_all. destruct l; reflexivity.
Qed.

Lemma filter_all {A : Type} (f : A -> bool) (l : list A) :
  forallb f l = true -> List.filter f l = l.
Proof.
  induction l as [|x l IH]; simpl; [reflexivity|].
  intros H. apply andb_prop in H. destruct H as [Hx Hl].
  rewrite Hx, IH by exact Hl. reflexivity.
Qed.

Lemma ratio_same (n : nat) : (0 < n)%nat -> (Js.ratio n n == 1)%Q.
Proof.
  intros H. unfold Js.ratio. apply Qmult_inv_r.
  intros E. unfold Qeq in E. cbn in E. lia.
Qed.

Lemma siblingFraction_uniform {A : Type} (same : A -> A -> bool) (items : list A) :
  (2 <= length items)%nat -> Spec.uniform same items = true ->
  (Spec.siblingFraction same items == 1)%Q.
Proof.
  destruct items as [|first siblings]; simpl; [lia|].
  intros Hlen Hall. rewrite (filter_all _ _ Hall). apply ratio_same. lia.
Qed.

Lemma table_structure_fraction (table : Dom.Element) :
  Dom.tagIs "table" table = true ->
  (2 <= length (Dom.rows table) <= 10)%nat ->
  TableDetector.getStructureScore table
  = Spec.siblingFraction Spec.sameCellCount (Dom.rows table).
Proof.
  intros Htag Hlen. unfold TableDetector.getStructureScore. rewrite Htag. cbn [negb].
  destruct (Dom.rows table) as [|a [|b rest]] eqn:E; cbn [length] in Hlen; try lia.
  rewrite slice_tail by (cbn [length]; lia).
  unfold Spec.siblingFraction. cbn [tl].
  replace (Nat.min 10 (length (a :: b :: rest) - 1)) with (length (b :: rest))
    by (cbn [length]; lia).
  reflexivity.
Qed.

Lemma div_structure_fraction (div : Dom.Element) :
  Dom.tagIs "table" div = false ->
  (2 <= length (Dom.children div) <= 5)%nat ->
  TableDetector.getStructureScore div
  = Spec.siblingFraction Spec.sameChildCount (Dom.children div).
Proof.
  intros Htag Hlen. unfold TableDetector.getStructureScore. rewrite Htag. cbn [negb].
  unfold TableDetector.getDivStructureScore.
  destruct (Dom.children div) as [|a [|b rest]] eqn:E; cbn [length] in Hlen; try lia.
  rewrite slice_tail by (cbn [length]; lia).
  unfold Spec.siblingFraction. cbn [tl].
  replace (Nat.min 5 (length (a :: b :: rest) - 1)) with (length (b :: rest))
    by (cbn [length]; lia).
  reflexivity.
Qed.

Lemma list_consistency_fraction (list : Dom.Element) :
  (2 <= length (Dom.children list) <= 10)%nat ->
  ListDetector.getConsistencyScore list
  = Spec.siblingFraction ListDetector.sameSignature (Dom.children list).
Proof.
  intros Hlen. unfold ListDetector.getConsistencyScore.
  destruct (Dom.children list) as [|a [|b rest]] eqn:E; cbn [length] in Hlen; try lia.
  rewrite slice_tail by (cbn [length]; lia).
  unfold Spec.siblingFraction. cbn [tl].
  replace (Nat.min 10 (length (a :: b :: rest) - 1)) with (length (b :: rest))
    by (cbn [length]; lia).
  reflexivity.
Qed.

(** C8, as amended. For a native table with n rows, 2 <= n <= 10, the
    structure score is the fraction of the n-1 sibling rows whose cell count
    equals that of the first row; for any other container with n children,
    2 <= n <= 5, it is the fraction of the n-1 sibling children whose child
    count equals that of the first child; for a list container with n
    children, 2 <= n <= 10, the consistency score is the fraction of the n-1
    sibling items whose tag name and class name both equal those of the
    first item.  In each case the score is 1 when every sibling matches. *)
Theorem consistency_is_sibling_fraction (table div list : Dom.Element)
  (Htable : Dom.tagIs "table" table = true)
  (Hrows : (2 <= length (Dom.rows table) <= 10)%nat)
  (Hdiv : Dom.tagIs "table" div = false)
  (Hkids : (2 <= length (Dom.children div) <= 5)%nat)
  (Hitems : (2 <= length (Dom.children list) <= 10)%nat) :
  (TableDetector.getStructureScore table
   = Spec.siblingFraction Spec.sameCellCount (Dom.rows table)
   /\ (Spec.uniform Spec.sameCellCount (Dom.rows table) = true ->
       (TableDetector.getStructureScore table == 1)%Q))
  /\ (TableDetector.getStructureScore div
      = Spec.siblingFraction Spec.sameChildCount (Dom.children div)
      /\ (Spec.uniform Spec.sameChildCount (Dom.children div) = true ->
          (TableDetector.getStructureScore div == 1)%Q))
  /\ (ListDetector.getConsistencyScore list
      = Spec.siblingFraction ListDetector.sameSignature (Dom.children list)
      /\ (Spec.uniform ListDetector.sameSignature (Dom.children list) = true ->
          (ListDetector.getConsistencyScore list == 1)%Q)).
Proof.
  repeat split.
  - apply table_structure_fraction; assumption.
  - intros Hu. rewrite table_structure_fraction by assumption.
    apply siblingFraction_uniform; [lia | exact Hu].
  - apply div_structure_fraction; assumption.
  - intros Hu. rewrite div_structure_fraction by assumption.
    apply siblingFraction_uniform; [lia | exact Hu].
  - apply list_consistency_fraction; assumption.
  - intros Hu. rewrite list_consistency_fraction by assumption.
    apply siblingFraction_uniform; [lia | exact Hu].
Qed.

Lemma consistency_is_sibling_fraction_witness :
  (Dom.tagIs "table" Sample.stockTable = true
   /\ (2 <= length (Dom.rows Sample.stockTable) <= 10)%nat
   /\ Dom.tagIs "table" (Sample.cardGrid 3) = false
   /\ (2 <= length (Dom.children (Sample.cardGrid 3)) <= 5)%nat
   /\ (2 <= length (Dom.children Sample.stripedList) <= 10)%nat)
  /\ (TableDetector.getStructureScore Sample.stockTable
      = Spec.siblingFraction Spec.sameCellCount (Dom.rows Sample.stockTable)
      /\ (Spec.uniform Spec.sameCellCount (Dom.rows Sample.stockTable) = true ->
          (TableDetector.getStructureScore Sample.stockTable == 1)%Q))
  /\ (TableDetector.getStructureScore (Sample.cardGrid 3)
      = Spec.siblingFraction Spec.sameChildCount (Dom.children (Sample.cardGrid 3))
      /\ (Spec.uniform Spec.sameChildCount (Dom.children (Sample.cardGrid 3)) = true ->
          (TableDetector.getStructureScore (Sample.cardGrid 3) == 1)%Q))
  /\ (ListDetector.getConsistencyScore Sample.stripedList
      = Spec.siblingFraction ListDetector.sameSignature (Dom.children Sample.stripedList)
      /\ (Spec.uniform ListDetector.sameSignature (Dom.children Sample.stripedList) = true ->
          (ListDetector.getConsistencyScore Sample.stripedList == 1)%Q)).
Proof.
  split.
  - repeat split; vm_compute; try reflexivity; try lia; intros; discriminate.
  - apply consistency_is_sibling_fraction.
    + reflexivity.
    + vm_compute. split; lia.
    + reflexivity.
    + vm_compute. split; lia.
    + vm_compute. split; lia.
Defined.

Example stockTable_uniform :
  Spec.uniform Spec.sameCellCount (Dom.rows Sample.stockTable) = true
  /\ Qred (TableDetector.getStructureScore Sample.stockTable) = 1%Q.
Proof. split; vm_compute; reflexivity. Qed.

(** C8 fails as stated.  The eleven rows of the sample table all have two
    cells, yet its structure score is 9/10 and not 1; the two items of the
    sample list both have one child, yet its consistency score is 0, the
    items differing in class. *)
Lemma consistency_not_child_count_fraction :
  (Spec.uniform Spec.sameCellCount (Dom.rows Sample.elevenRowTable) = true
   /\ length (Dom.rows Sample.elevenRowTable) = 11%nat
   /\ (TableDetector.getStructureScore Sample.elevenRowTable == 9 # 10)%Q
   /\ ~ (TableDetector.getStructureScore Sample.elevenRowTable == 1)%Q)
  /\ (Spec.uniform Spec.sameChildCount (Dom.children Sample.stripedList) = true
      /\ length (Dom.children Sample.stripedList) = 2%nat
      /\ (ListDetector.getConsistencyScore Sample.stripedList == 0)%Q
      /\ ~ (ListDetector.getConsistencyScore Sample.stripedList == 1)%Q).
Proof.
  repeat split; try (vm_compute; reflexivity);
    intros H; apply Qeq_bool_iff in H; vm_compute in H; discriminate.
Qed.

(** ** The product rubric *)

Lemma test_suffix (r : Re.Pattern) (pre s : string) :
  Re.test r s = true -> Re.test r (pre ++ s)%string = true.
Proof.
  intros H. induction pre as [|c pre IH]; simpl; [exact H|].
  rewrite IH. apply orb_true_r.
Qed.

Lemma cents_some (s : string) : ProductDetector.cents s <> [].
Proof.
  unfold ProductDetector.cents, Re.opt, Re.alt, Re.eps.
  intros E. apply app_eq_nil in E. destruct E as [_ E]. discriminate.
Qed.

Lemma flat_map_last_some {A B : Type} (f : A -> list B) (l : list A) (x : A) :
  f x <> [] -> flat_map f (l ++ [x]) <> [].
Proof.
  intros Hx E. rewrite flat_map_app in E. apply app_eq_nil in E.
  destruct E as [_ E]. simpl in E. rewrite app_nil_r in E. contradiction.
Qed.

(** a text holding [$] and then a digit holds a price *)
Lemma dollar_price_detected (pre rest : string) (d : ascii) :
  Re.digit d = true ->
  ProductDetector.containsPrice (pre ++ "$" ++ String d rest)%string = true.
Proof.
  intros Hd. unfold ProductDetector.containsPrice.
  assert (Hne : exists c t, (pre ++ "$" ++ String d rest)%string = String c t).
  { destruct pre; simpl; eauto. }
  destruct Hne as (c & t & E). rewrite E. rewrite <- E. clear c t E.
  unfold ProductDetector.PRICE_PATTERNS. cbn [existsb].
  rewrite test_suffix; [reflexivity|].
  cbn [String.append]. cbn [Re.test]. apply orb_true_iff. left.
  unfold Re.matchesAt, ProductDetector.symbolPrice, Re.seq at 1.
  cbn [Re.lit Ascii.eqb Bool.eqb]. cbn [flat_map]. rewrite app_nil_r.
  unfold Re.seq. cbn [Re.plusCls].
  unfold ProductDetector.digitOrComma at 1. rewrite Hd. cbn [orb].
  destruct (flat_map ProductDetector.cents
              (Re.plusCls ProductDetector.digitOrComma rest ++ [rest])) eqn:E;
    [|reflexivity].
  exfalso. revert E. apply flat_map_last_some, cents_some.
Qed.


Lemma productLikeScore_sum (el : Dom.Element) :
  ProductDetector.productLikeScore el
  = (Spec.points (ProductDetector.hasPrice el) 3
     + Spec.points (ProductDetector.hasImage el) 2
     + Spec.points (ProductDetector.hasButton el) 1
     + Spec.points (ProductDetector.hasTitle el) 1
     + Spec.points (ProductDetector.reasonablySized el) 1)%Z.
Proof.
  unfold ProductDetector.productLikeScore, ProductDetector.addIf, Spec.points.
  destruct (ProductDetector.hasPrice el), (ProductDetector.hasImage el),
    (ProductDetector.hasButton el), (ProductDetector.hasTitle el),
    (ProductDetector.reasonablySized el); reflexivity.
Qed.

(** C7, as amended. The rubric is the sum of 3 for a price pattern in the
    text, 2 for an image, 1 for a button, 1 for a title-like heading and 1
    for a bounding box wider than 100 and higher than 50; the element is
    product-like exactly when the sum is at least 3.  An element with a
    price is accepted, in particular one with an image, a price written
    with [$] and a heading; an element with neither a price nor an image is
    accepted exactly when it has a button, a title-like heading and the
    large bounding box, all three. *)
Theorem product_rubric (el : Dom.Element) :
  ProductDetector.productLikeScore el
  = (Spec.points (ProductDetector.hasPrice el) 3
     + Spec.points (ProductDetector.hasImage el) 2
     + Spec.points (ProductDetector.hasButton el) 1
     + Spec.points (ProductDetector.hasTitle el) 1
     + Spec.points (ProductDetector.reasonablySized el) 1)%Z
  /\ (ProductDetector.isProductLike el = true
      <-> (3 <= ProductDetector.productLikeScore el)%Z)
  /\ (forall pre d rest,
         Re.digit d = true ->
         Dom.textContent el = (pre ++ "$" ++ String d rest)%string ->
         ProductDetector.isProductLike el = true)
  /\ (ProductDetector.hasPrice el = false ->
      ProductDetector.hasImage el = false ->
      ProductDetector.isProductLike el
      = (ProductDetector.hasButton el && ProductDetector.hasTitle el
         && ProductDetector.reasonablySized el)%bool).
Proof.
  split; [apply productLikeScore_sum|].
  split; [unfold ProductDetector.isProductLike; apply Z.leb_le|].
  split.
  - intros pre d rest Hd Htext.
    unfold ProductDetector.isProductLike. apply Z.leb_le.
    rewrite productLikeScore_sum.
    assert (Hp : ProductDetector.hasPrice el = true).
    { unfold ProductDetector.hasPrice. rewrite Htext.
      apply dollar_price_detected, Hd. }
    rewrite Hp. unfold Spec.points.
    destruct (ProductDetector.hasImage el), (ProductDetector.hasButton el),
      (ProductDetector.hasTitle el), (ProductDetector.reasonablySized el); lia.
  - intros Hp Hi. unfold ProductDetector.isProductLike.
    rewrite productLikeScore_sum, Hp, Hi. unfold Spec.points.
    destruct (ProductDetector.hasButton el), (ProductDetector.hasTitle el),
      (ProductDetector.reasonablySized el); reflexivity.
Qed.

Lemma product_rubric_witness :
  ProductDetector.isProductLike (Sample.productCard 10) = true
  /\ ProductDetector.isProductLike (Sample.leaf 7 "P" EmptyString "Free delivery" 300 60)
     = (ProductDetector.hasButton (Sample.leaf 7 "P" EmptyString "Free delivery" 300 60)
        && ProductDetector.hasTitle (Sample.leaf 7 "P" EmptyString "Free delivery" 300 60)
        && ProductDetector.reasonablySized (Sample.leaf 7 "P" EmptyString "Free delivery" 300 60))%bool.
Proof.
  split.
  - apply (proj1 (proj2 (proj2 (product_rubric (Sample.productCard 10))))
             "Widget" "9"%char ".99"); reflexivity.
  - apply (proj2 (proj2 (proj2 (product_rubric
             (Sample.leaf 7 "P" EmptyString "Free delivery" 300 60))))); reflexivity.
Defined.

(** the sample card has an image, a price and a heading and scores 6 *)
Example productCard_score :
  ProductDetector.hasImage (Sample.productCard 10) = true
  /\ ProductDetector.hasPrice (Sample.productCard 10) = true
  /\ ProductDetector.hasTitle (Sample.productCard 10) = true
  /\ ProductDetector.productLikeScore (Sample.productCard 10) = 6%Z.
Proof. repeat split; vm_compute; reflexivity. Qed.

(** a flex container of six such cards is nominated and kept *)
Example cardGrid_accepted :
  List.map Dom.nodeId (ProductDetector.findGridProducts (Sample.cardGrid 6)) = [1%nat]
  /\ length (ProductDetector.scoreContainers
               (ProductDetector.findGridProducts (Sample.cardGrid 6))) = 1%nat.
Proof. split; vm_compute; reflexivity. Qed.

(** C7 fails as stated: the sample sign-up box holds neither a price nor an
    image, and it is product-like, its button, heading and size giving 3. *)
Lemma priceless_imageless_accepted :
  ProductDetector.hasPrice (Sample.signupBox 1) = false
  /\ ProductDetector.hasImage (Sample.signupBox 1) = false
  /\ ProductDetector.productLikeScore (Sample.signupBox 1) = 3%Z
  /\ ProductDetector.isProductLike (Sample.signupBox 1) = true.
Proof. repeat split; vm_compute; reflexivity. Qed.

(** a flex container of six sign-up boxes, with no price and no image
    anywhere, is nominated by [findGridProducts] and kept by the scoring pass *)
Example signupGrid_accepted :
  ProductDetector.containsPrice (Dom.textContent (Sample.signupGrid 6)) = false
  /\ ProductDetector.hasImage (Sample.signupGrid 6) = false
  /\ List.map Dom.nodeId (ProductDetector.findGridProducts (Sample.signupGrid 6))
     = [1%nat]
  /\ List.map (fun c => Qred (score c))
       (ProductDetector.scoreContainers
          (ProductDetector.findGridProducts (Sample.signupGrid 6)))
     = [(4 # 5)%Q].
Proof. repeat split; vm_compute; reflexivity. Qed.

(** ** Selector ranking *)

Lemma firstn_Forall {A : Type} (P : A -> Prop) (n : nat) (l : list A) :
  Forall P l -> Forall P (firstn n l).
Proof.
  intros H. apply List.Forall_forall. intros x Hx.
  assert (Hin : In x l).
  { rewrite <- (List.firstn_skipn n l). apply in_or_app. left. exact Hx. }
  revert x Hin Hx. rewrite <- List.Forall_forall. eapply List.Forall_impl; [|exact H].
  intros a Ha _. exact Ha.
Qed.

Lemma firstn_StronglySorted {A : Type} (R : A -> A -> Prop) (n : nat) (l : list A) :
  StronglySorted R l -> StronglySorted R (firstn n l).
Proof.
  intros H. revert n. induction H as [|x l Hs IH Hall]; intros n.
  - rewrite List.firstn_nil. constructor.
  - destruct n as [|n]; simpl; constructor.
    + apply IH.
    + apply firstn_Forall, Hall.
Qed.


Lemma topFive_spec (l : list Selector.Ranked) :
  Forall (fun r => (0 < Selector.score r)%Q /\ In r l) (Selector.topFive l)
  /\ (length (Selector.topFive l) <= 5)%nat
  /\ Spec.RankedDescending (Selector.topFive l).
Proof.
  unfold Selector.topFive, Js.slice. rewrite List.skipn_O.
  split; [|split].
  - apply firstn_Forall. apply (sort_Forall Selector.score).
    apply List.Forall_forall. intros r Hr. apply filter_In in Hr.
    destruct Hr as [Hin Hpos]. split; [|exact Hin].
    apply negb_true_iff in Hpos.
    destruct (Qlt_le_dec 0 (Selector.score r)) as [Hlt|Hle]; [exact Hlt|].
    apply Qle_bool_iff in Hle. congruence.
  - rewrite List.length_firstn. lia.
  - apply firstn_StronglySorted. apply (sort_sorted Selector.score).
Qed.


Lemma ranker_contract (doc : Dom.Document) (rank : string -> Selector.Ranked)
  (selectors : list string) :
  (forall selector message,
      Dom.selectAll doc selector = Js.Throw message ->
      Selector.score (rank selector) = (-1)%Q
      /\ Selector.error (rank selector) = Some message) ->
  Spec.RankerContract doc rank (Selector.topFive (List.map rank selectors)).
Proof.
  intros Hthrow. destruct (topFive_spec (List.map rank selectors)) as (Hall & Hlen & Hsort).
  unfold Spec.RankerContract. split; [|split; [|split]].
  - intros selector message E. destruct (Hthrow selector message E) as [Hs He].
    split; [exact Hs|]. split; [exact He|].
    intros Hin. rewrite List.Forall_forall in Hall.
    destruct (Hall _ Hin) as [Hpos _]. rewrite Hs in Hpos.
    apply Qlt_not_le in Hpos. apply Hpos. discriminate.
  - eapply List.Forall_impl; [|exact Hall]. intros r [Hr _]. exact Hr.
  - exact Hlen.
  - exact Hsort.
Qed.

(** C6. For every document, target node and pool of selectors, each ranker
    gives an expression whose evaluation throws the score -1 and leaves it
    out; every expression it returns has a score above 0; it returns at
    most 5 expressions, in descending order of score. *)
Theorem rankers_contract (doc : Dom.Document) (target : Dom.Element)
  (selectors : list string) :
  Spec.RankerContract doc (TableDetector.rankSelector doc target)
    (TableDetector.rankSelectors doc selectors target)
  /\ Spec.RankerContract doc (ListDetector.rankSelector doc target)
       (ListDetector.rankSelectors doc selectors target)
  /\ Spec.RankerContract doc (ProductDetector.rankProductSelector doc target)
       (ProductDetector.rankProductSelectors doc selectors target).
Proof.
  unfold TableDetector.rankSelectors, ListDetector.rankSelectors,
    ProductDetector.rankProductSelectors.
  split; [|split]; apply ranker_contract; intros selector message E.
  - unfold TableDetector.rankSelector. rewrite E. split; reflexivity.
  - unfold ListDetector.rankSelector. rewrite E. split; reflexivity.
  - unfold ProductDetector.rankProductSelector. rewrite E. split; reflexivity.
Qed.

Lemma rankers_contract_witness :
  Selector.score (TableDetector.rankSelector Sample.stockDocument Sample.stockTable "table[")
  = (-1)%Q
  /\ ~ In (TableDetector.rankSelector Sample.stockDocument Sample.stockTable "table[")
          (TableDetector.rankSelectors Sample.stockDocument
             ["table"; "table["; "td"; ".grid"] Sample.stockTable).
Proof.
  destruct (rankers_contract Sample.stockDocument Sample.stockTable
              ["table"; "table["; "td"; ".grid"]) as [[H _] _].
  destruct (H "table[" "'table[' is not a valid selector" eq_refl) as (Hs & _ & Hout).
  split; assumption.
Defined.

(** the ranking of four selectors for the stock table *)
Example stockTable_ranking :
  List.map (fun r => (Selector.selector r, Qred (Selector.score r)))
    (TableDetector.rankSelectors Sample.stockDocument
       ["table"; "table["; "td"; ".grid"] Sample.stockTable)
  = [(".grid", 17 # 4); ("table", 15 # 4); ("td", 49 # 50)]%Q.
Proof. vm_compute. reflexivity. Qed.

(** ** Automatic detection and the scrape dispatch *)

Lemma keepBetter_spec (best current : option DOMScanner.Detection) :
  match DOMScanner.keepBetter best current with
  | None => best = None /\ current = None
  | Some b =>
      (best = Some b \/ current = Some b)
      /\ (forall d, best = Some d \/ current = Some d ->
                    (length (DOMScanner.data d) <= length (DOMScanner.data b))%nat)
  end.
Proof.
  unfold DOMScanner.keepBetter.
  destruct current as [c|], best as [a|].
  - destruct (length (DOMScanner.data a) <? length (DOMScanner.data c))%nat eqn:E.
    + apply Nat.ltb_lt in E. split; [right; reflexivity|].
      intros d [H|H]; injection H as <-; lia.
    + apply Nat.ltb_ge in E. split; [left; reflexivity|].
      intros d [H|H]; injection H as <-; lia.
  - split; [right; reflexivity|]. intros d [H|H]; [discriminate|]. injection H as <-. lia.
  - split; [left; reflexivity|]. intros d [H|H]; [|discriminate]. injection H as <-. lia.
  - split; reflexivity.
Qed.

Lemma tolerate_some (o : Js.JsResult DOMScanner.Detection) (d : DOMScanner.Detection) :
  DOMScanner.tolerate o = Some d <-> o = Js.Ok d.
Proof.
  destruct o as [c|msg]; simpl; split; intros H; try discriminate.
  - injection H as <-. reflexivity.
  - injection H as <-. reflexivity.
Qed.

Lemma pickBest_from (acc : option DOMScanner.Detection)
  (outcomes : list (Js.JsResult DOMScanner.Detection)) :
  match fold_left DOMScanner.keepBetter (List.map DOMScanner.tolerate outcomes) acc with
  | None => acc = None /\ forall d, ~ In (Js.Ok d) outcomes
  | Some b =>
      (acc = Some b \/ In (Js.Ok b) outcomes)
      /\ (forall d, acc = Some d \/ In (Js.Ok d) outcomes ->
                    (length (DOMScanner.data d) <= length (DOMScanner.data b))%nat)
  end.
Proof.
  revert acc. induction outcomes as [|o outcomes IH]; intros acc.
  - simpl. destruct acc as [b|].
    + split; [left; reflexivity|]. intros d [E|[]]. injection E as ->. lia.
    + split; [reflexivity|]. intros d [].
  - cbn [List.map fold_left].
    specialize (IH (DOMScanner.keepBetter acc (DOMScanner.tolerate o))).
    pose proof (keepBetter_spec acc (DOMScanner.tolerate o)) as K.
    destruct (fold_left DOMScanner.keepBetter (List.map DOMScanner.tolerate outcomes)
                (DOMScanner.keepBetter acc (DOMScanner.tolerate o))) as [b|].
    + destruct IH as [Hfrom Hmax].
      destruct (DOMScanner.keepBetter acc (DOMScanner.tolerate o)) as [k|].
      * destruct K as [Kfrom Kmax].
        assert (Hkb : (length (DOMScanner.data k) <= length (DOMScanner.data b))%nat)
          by (apply Hmax; left; reflexivity).
        split.
        -- destruct Hfrom as [Hk|Hin]; [|right; right; exact Hin].
           injection Hk as <-.
           destruct Kfrom as [Ha|Ho]; [left; exact Ha|].
           right. left. apply tolerate_some, Ho.
        -- intros d [Hd|[Hd|Hd]].
           ++ specialize (Kmax d (or_introl Hd)). lia.
           ++ apply tolerate_some in Hd. specialize (Kmax d (or_intror Hd)). lia.
           ++ apply Hmax. right. exact Hd.
      * destruct K as [Ka Ko]. split.
        -- destruct Hfrom as [Hk|Hin]; [discriminate|]. right. right. exact Hin.
        -- intros d [Hd|[Hd|Hd]].
           ++ congruence.
           ++ apply tolerate_some in Hd. congruence.
           ++ apply Hmax. right. exact Hd.
    + destruct IH as [Hk Hnone].
      rewrite Hk in K. destruct K as [Ka Ko]. split; [exact Ka|].
      intros d [Hd|Hd]; [|exact (Hnone d Hd)].
      apply tolerate_some in Hd. congruence.
Qed.

Lemma pickBest_longest (outcomes : list (Js.JsResult DOMScanner.Detection)) :
  Spec.Longest outcomes (DOMScanner.pickBest (List.map DOMScanner.tolerate outcomes)).
Proof.
  unfold DOMScanner.pickBest, Spec.Longest.
  pose proof (pickBest_from None outcomes) as H.
  destruct (fold_left DOMScanner.keepBetter (List.map DOMScanner.tolerate outcomes) None)
    as [b|].
  - destruct H as [[H|H] Hmax]; [discriminate|]. split; [exact H|].
    intros d Hd. apply Hmax. right. exact Hd.
  - apply H.
Qed.

(** the class defines [detectTables] only: the other two detector calls
    throw, and [autoDetect] returns the table detection *)
Lemma autoDetect_is_detectTables (doc : Dom.Document) :
  DOMScanner.callDetector doc "detectLists" = Js.Throw "this.detectLists is not a function"
  /\ DOMScanner.callDetector doc "detectProducts"
     = Js.Throw "this.detectProducts is not a function"
  /\ DOMScanner.autoDetect doc = Some (DOMScanner.detectTables doc).
Proof. repeat split. Qed.

(** C3, on the code.  Class DOMScanner defines [detectTables] and neither
    [detectLists] nor [detectProducts]: in mode 'auto' the calls of the list
    and of the product detector throw a TypeError, which [autoDetect]
    tolerates, so no list and no product finder runs and the request
    returns the table detection for every document, also when the document
    holds no table; the element count of the metadata is 0.  The reduction
    itself keeps the longest of the detections it is given. *)
Theorem auto_runs_table_detector_only (doc : Dom.Document) (env : DOMScanner.Env)
  (selectors : option (list string)) (processors : option (list Processor)) :
  List.map (DOMScanner.callDetector doc) DOMScanner.detectors
  = [Js.Ok (DOMScanner.detectTables doc);
     Js.Throw "this.detectLists is not a function";
     Js.Throw "this.detectProducts is not a function"]
  /\ DOMScanner.autoDetect doc = Some (DOMScanner.detectTables doc)
  /\ DOMScanner.scrape doc env (mkConfig "auto" selectors processors)
     = DOMScanner.Scraped (DOMScanner.RDetection (DOMScanner.detectTables doc))
         {| DOMScanner.metaUrl := DOMScanner.href env;
            DOMScanner.timestamp := DOMScanner.isoNow env;
            DOMScanner.processingTime :=
              (DOMScanner.endTime env - DOMScanner.startTime env)%Q;
            DOMScanner.elementCount := 0 |}
  /\ (forall tables lists products,
         Spec.Longest [tables; lists; products]
           (DOMScanner.pickBest (List.map DOMScanner.tolerate [tables; lists; products]))).
Proof.
  split; [reflexivity|]. split; [reflexivity|]. split; [reflexivity|].
  intros tables lists products. apply pickBest_longest.
Qed.

(** a page with a list of five items and no table: the list finder has a
    candidate for it, and the request in mode 'auto' returns a table
    detection without records *)
Example menu_auto_detection :
  List.map (fun c => Dom.nodeId (element c))
    (ListDetector.scoreLists (ListDetector.findAllLists (Dom.root Sample.menuDocument)))
  = [1%nat]
  /\ DOMScanner.scrape Sample.menuDocument Sample.samplePage (mkConfig "auto" None None)
     = DOMScanner.Scraped
         (DOMScanner.RDetection (DOMScanner.mkDetection "tables" [] 0))
         (DOMScanner.mkScrapeMetadata "https://shop.example/stock"
            "2024-05-01T10:00:00.000Z" (1004 - 1000) 0).
Proof. split; vm_compute; reflexivity. Qed.

(** C4, on the code. The class defines no method [extractWithSelectors], so
    a request with mode 'custom' returns the error value of the [catch], for
    every document and every selector list. *)
Theorem custom_mode_returns_error (doc : Dom.Document) (env : DOMScanner.Env)
  (selectors : list string) (processors : option (list Processor)) :
  DOMScanner.scrape doc env (mkConfig "custom" (Some selectors) processors)
  = DOMScanner.ScrapeError "this.extractWithSelectors is not a function".
Proof. reflexivity. Qed.

Example custom_missing_id :
  DOMScanner.scrape Sample.stockDocument Sample.samplePage
    (mkConfig "custom" (Some ["#does-not-exist"]) None)
  = DOMScanner.ScrapeError "this.extractWithSelectors is not a function".
Proof. reflexivity. Qed.

(** ** The request cache *)







(** a call 20 s after the store is served from the cache; a call 40 s after
    it asks the page again and stores what the worker returns *)
Example extract_fresh_then_stale :
  ScrapingEngine.extract Sample.host (Sample.cachedAt 80000) 7 Sample.autoConfig
  = (ScrapingEngine.Resolved (VStr "cached"), Sample.cachedAt 80000, [])
  /\ (ScrapingEngine.extract Sample.host (Sample.cachedAt 60000) 7 Sample.autoConfig).1.1
     = ScrapingEngine.Resolved Sample.pageData
  /\ (ScrapingEngine.extract Sample.host (Sample.cachedAt 60000) 7 Sample.autoConfig).2
     = [ScrapingEngine.SentToPage 7 Sample.autoConfig;
        ScrapingEngine.PostedToWorker 0 Sample.pageData Sample.autoConfig]
  /\ ScrapingEngine.cache
       (ScrapingEngine.extract Sample.host (Sample.cachedAt 60000) 7 Sample.autoConfig).1.2
     !! ScrapingEngine.cacheKey Sample.host 7 Sample.autoConfig
     = Some (ScrapingEngine.mkCacheEntry Sample.pageData 100250).
Proof. repeat split; vm_compute; reflexivity. Qed.

(** ** Worker failure *)

Lemma findFree_slot (k : nat) (pool : list ScrapingEngine.WorkerSlot) (i : nat) :
  ScrapingEngine.findFree k pool = Some i ->
  exists j, i = (k + j)%nat /\ pool !! j = Some (ScrapingEngine.mkWorkerSlot false).
Proof.
  revert k. induction pool as [|w pool IH]; intros k; simpl; [discriminate|].
  destruct w as [b]. cbn [ScrapingEngine.busy]. destruct b.
  - intros H. destruct (IH (S k) H) as (j & -> & Hj).
    exists (S j). split; [lia | exact Hj].
  - intros H. injection H as <-. exists 0%nat. split; [lia | reflexivity].
Qed.

(** taking a free worker and releasing it leaves the pool as it was *)
Lemma release_restores (pool : list ScrapingEngine.WorkerSlot) (i : nat) :
  ScrapingEngine.findFree 0 pool = Some i ->
  ScrapingEngine.setBusy i false (ScrapingEngine.setBusy i true pool) = pool.
Proof.
  intros H. destruct (findFree_slot 0 pool i H) as (j & -> & Hj).
  unfold ScrapingEngine.setBusy. rewrite list_insert_insert_eq.
  apply list_insert_id. exact Hj.
Qed.




(** with both workers busy the data are processed inline; when posting to
    the free worker throws, the call is rejected and the worker stays busy *)
Example inline_when_all_busy :
  ScrapingEngine.extract Sample.host Sample.engineAllBusy 7 Sample.autoConfig
  = (ScrapingEngine.Resolved Sample.pageData,
     {| ScrapingEngine.cache :=
          {[ ScrapingEngine.cacheKey Sample.host 7 Sample.autoConfig
             := ScrapingEngine.mkCacheEntry Sample.pageData 100250 ]};
        ScrapingEngine.workerPool := ScrapingEngine.workerPool Sample.engineAllBusy |},
     [ScrapingEngine.SentToPage 7 Sample.autoConfig;
      ScrapingEngine.ProcessedInline Sample.pageData Sample.autoConfig])
  /\ ScrapingEngine.extract Sample.hostNotPosting Sample.engineFirstBusy 7 Sample.autoConfig
     = (ScrapingEngine.Rejected "could not be cloned",
        {| ScrapingEngine.cache := ∅;
           ScrapingEngine.workerPool :=
             [ScrapingEngine.mkWorkerSlot true; ScrapingEngine.mkWorkerSlot true] |},
        [ScrapingEngine.SentToPage 7 Sample.autoConfig]).
Proof. split; reflexivity. Qed.


(** ** Inline post-processing *)


Lemma runProcessors_absent (pf : ScrapingEngine.Platform) (data : Value)
  (l : list Processor) :
  Spec.allAbsent l = true -> ScrapingEngine.runProcessors pf data l = Js.Ok data.
Proof.
  induction l as [|p l IH]; simpl; [reflexivity|].
  intros H. apply andb_prop in H. destruct H as [Hp Hl].
  unfold ScrapingEngine.applyProcessor.
  destruct (ScrapingEngine.readMember (name p)); try discriminate.
  apply IH, Hl.
Qed.

(** what holds of [processInline]: without [config.processors], or with
    processors whose names [processors] does not know even by inheritance,
    the data comes back unchanged *)
Lemma processInline_unchanged (pf : ScrapingEngine.Platform) (data : Value)
  (config : Config) :
  match processors config with
  | None => True
  | Some l => Spec.allAbsent l = true
  end ->
  ScrapingEngine.processInline pf data config = Js.Ok data.
Proof.
  unfold ScrapingEngine.processInline. destruct (processors config) as [l|].
  - apply runProcessors_absent.
  - reflexivity.
Qed.

(** C10, on the code. The name [toString] is none of deduplicate, sort and
    filter, yet a processor of that name is not skipped: whatever the data,
    the result is the text that [Object.prototype.toString] gives for the
    object [processors]. *)
Theorem inherited_name_is_applied (pf : ScrapingEngine.Platform) (data : Value)
  (mode : string) (selectors : option (list string)) :
  ScrapingEngine.processInline pf data
    (mkConfig mode selectors (Some [mkProcessor "toString" (Some [])]))
  = Js.Ok (VStr "[object Object]").
Proof. reflexivity. Qed.

(** the name [__proto__] makes [processInline] throw *)
Example proto_name_throws :
  ScrapingEngine.processInline Sample.host Sample.pageData
    (mkConfig "auto" None (Some [mkProcessor "__proto__" (Some [])]))
  = Js.Throw "processors[processor.name] is not a function".
Proof. reflexivity. Qed.

(** processors run in list order, names unknown to [processors] skipped *)
Example processors_in_order :
  ScrapingEngine.processInline Sample.host Sample.pageData
    (mkConfig "auto" None
       (Some [mkProcessor "trim" (Some []); mkProcessor "deduplicate" (Some []);
              mkProcessor "toString" (Some [])]))
  = Js.Ok (VStr "[object Object]")
  /\ ScrapingEngine.processInline Sample.host Sample.pageData
       (mkConfig "auto" None
          (Some [mkProcessor "toString" (Some []); mkProcessor "trim" (Some []);
                 mkProcessor "deduplicate" (Some [])]))
     = Js.Ok (VArr [VStr "["; VStr "o"; VStr "b"; VStr "j"; VStr "e"; VStr "c";
                    VStr "t"; VStr " "; VStr "O"; VStr "]"])
  /\ ScrapingEngine.processInline Sample.host Sample.pageData
       (mkConfig "auto" None
          (Some [mkProcessor "trim" (Some []); mkProcessor "deduplicate" (Some [])]))
     = Js.Ok (VArr [VStr "Widget"; VStr "Gadget"]).
Proof. repeat split; reflexivity. Qed.

(** ** Evaluations of the string and tree primitives *)

Example toLowerCase_table : Js.toLowerCase "TABLE" = "table".
Proof. reflexivity. Qed.

Example trim_cells : Js.trim "  a b
 " = "a b".
Proof. reflexivity. Qed.

Example includes_grid : Js.includes "data-grid" "grid" = true.
Proof. reflexivity. Qed.

Example rows_of_sectioned_table :
  List.map Dom.nodeId
    (Dom.rows (Dom.node 0 "TABLE" EmptyString
       [Dom.node 1 "TBODY" EmptyString [Dom.node 2 "TR" EmptyString []; Dom.node 3 "TR" EmptyString []];
        Dom.node 4 "THEAD" EmptyString [Dom.node 5 "TR" EmptyString []]]))
  = [5; 2; 3]%nat.
Proof. reflexivity. Qed.

Example classList_split :
  Dom.splitWhite EmptyString "  card   product-item " = ["card"; "product-item"].
Proof. reflexivity. Qed.

Example price_dollar : ProductDetector.containsPrice "Widget $9.99" = true.
Proof. reflexivity. Qed.

Example price_code : ProductDetector.containsPrice "1,299.00  usd" = true.
Proof. reflexivity. Qed.

Example price_none : ProductDetector.containsPrice "Call us for a quote" = false.
Proof. reflexivity. Qed.

(** * Further properties of the sources *)

(** ** The engine: construction, workers, cache *)

(** The loop of [initWorkers] never exits: its test is [true] or the number
    4, so whatever the navigator reports and however many iterations have
    run, the loop is still running, with one more free worker per
    iteration. *)
Theorem initWorkers_never_exits (hardwareConcurrency : option nat) (steps i : nat)
  (pool : list ScrapingEngine.WorkerSlot) :
  ScrapingEngine.initWorkersFrom hardwareConcurrency steps i pool
  = ScrapingEngine.Running (i + steps)
      (pool ++ List.repeat (ScrapingEngine.mkWorkerSlot false) steps).
Proof.
  revert i pool. induction steps as [|steps IH]; intros i pool.
  - cbn. rewrite Nat.add_0_r, app_nil_r. reflexivity.
  - cbn [ScrapingEngine.initWorkersFrom].
    assert (Ht : ScrapingEngine.truthy (ScrapingEngine.loopTest hardwareConcurrency i) = true).
    { unfold ScrapingEngine.loopTest.
      destruct hardwareConcurrency as [n|]; [destruct (i <? n)%nat|]; reflexivity. }
    rewrite Ht, IH. cbn [List.repeat]. rewrite <- app_assoc. cbn [app].
    replace (S i + steps)%nat with (i + S steps)%nat by lia. reflexivity.
Qed.

Lemma setBusy_length (i : nat) (b : bool) (pool : list ScrapingEngine.WorkerSlot) :
  length (ScrapingEngine.setBusy i b pool) = length pool.
Proof. unfold ScrapingEngine.setBusy. apply length_insert. Qed.

Lemma findFree_bounds (k : nat) (pool : list ScrapingEngine.WorkerSlot) (i : nat) :
  ScrapingEngine.findFree k pool = Some i -> (k <= i < k + length pool)%nat.
Proof.
  revert k. induction pool as [|w pool IH]; intros k; simpl; [discriminate|].
  destruct (ScrapingEngine.busy w).
  - intros H. apply IH in H. lia.
  - intros H. injection H as <-. lia.
Qed.

Lemma processInWorker_length (pf : ScrapingEngine.Platform)
  (pool : list ScrapingEngine.WorkerSlot) (data : Value) (config : Config) :
  length (ScrapingEngine.processInWorker pf pool data config).1.2 = length pool.
Proof.
  unfold ScrapingEngine.processInWorker.
  destruct (ScrapingEngine.findFree 0 pool) as [i|]; [|reflexivity].
  destruct (ScrapingEngine.workerRun pf i data config); cbn [fst snd];
    rewrite ?setBusy_length; reflexivity.
Qed.

(** [processInWorker] keeps the number of workers and never touches a
    worker other than the one it picks.  With no free worker, and after a
    reply or a failure of the picked worker, the pool is as it was.  When
    [postMessage] throws or the worker stays silent, the picked worker is
    left busy. *)
Theorem processInWorker_pool (pf : ScrapingEngine.Platform)
  (pool : list ScrapingEngine.WorkerSlot) (data : Value) (config : Config) :
  let pool' := (ScrapingEngine.processInWorker pf pool data config).1.2 in
  length pool' = length pool
  /\ match ScrapingEngine.findFree 0 pool with
     | None => pool' = pool
     | Some i =>
         (forall j, j <> i -> pool' !! j = pool !! j)
         /\ match ScrapingEngine.workerRun pf i data config with
            | ScrapingEngine.Replied _ | ScrapingEngine.Failed _ => pool' = pool
            | ScrapingEngine.NotPosted _ | ScrapingEngine.Silent =>
                pool' !! i = Some (ScrapingEngine.mkWorkerSlot true)
                /\ ScrapingEngine.findFree 0 pool' <> Some i
            end
     end.
Proof.
  cbv zeta. unfold ScrapingEngine.processInWorker.
  destruct (ScrapingEngine.findFree 0 pool) as [i|] eqn:Hfree; [|split; reflexivity].
  pose proof (release_restores pool i Hfree) as Hrestore.
  pose proof (findFree_bounds 0 pool i Hfree) as Hi.
  assert (Hbusy : ScrapingEngine.setBusy i true pool !! i
                  = Some (ScrapingEngine.mkWorkerSlot true)).
  { unfold ScrapingEngine.setBusy. apply list_lookup_insert_eq. lia. }
  assert (Hother : forall j, j <> i -> ScrapingEngine.setBusy i true pool !! j = pool !! j).
  { intros j Hj. unfold ScrapingEngine.setBusy. apply list_lookup_insert_ne. congruence. }
  assert (Hnot : ScrapingEngine.findFree 0 (ScrapingEngine.setBusy i true pool) <> Some i).
  { intros Hf. destruct (findFree_slot 0 _ i Hf) as (j & Hij & Hj).
    cbn in Hij. subst j. rewrite Hbusy in Hj. discriminate. }
  destruct (ScrapingEngine.workerRun pf i data config); cbn [fst snd];
    rewrite ?Hrestore, ?setBusy_length.
  - split; [reflexivity|]. split; [reflexivity|reflexivity].
  - split; [reflexivity|]. split; [reflexivity|reflexivity].
  - split; [reflexivity|]. split; [exact Hother|]. split; [exact Hbusy | exact Hnot].
  - split; [reflexivity|]. split; [exact Hother|]. split; [exact Hbusy | exact Hnot].
Qed.

Lemma extract_stores (pf : ScrapingEngine.Platform) (engine engine' : ScrapingEngine.Engine)
  (tabId : Z) (config : Config) (processed : Value) (work : list ScrapingEngine.Work) :
  ScrapingEngine.extract pf engine tabId config
  = (ScrapingEngine.Resolved processed, engine',
     ScrapingEngine.SentToPage tabId config :: work) ->
  ScrapingEngine.cache engine' !! ScrapingEngine.cacheKey pf tabId config
  = Some (ScrapingEngine.mkCacheEntry processed (ScrapingEngine.nowAtStore pf)).
Proof.
  unfold ScrapingEngine.extract.
  destruct (ScrapingEngine.liveEntry pf engine (ScrapingEngine.cacheKey pf tabId config));
    [discriminate|].
  destruct (ScrapingEngine.sendMessage pf tabId config) as [data|e|]; try discriminate.
  destruct (ScrapingEngine.processInWorker pf (ScrapingEngine.workerPool engine) data config)
    as [[outcome pool] w].
  destruct outcome as [v|e|]; try discriminate.
  intros H. injection H as <- <- _. cbn [ScrapingEngine.cache].
  apply lookup_insert_eq.
Qed.

(** Round trip through the cache: when a call of [extract] recomputes and
    resolves, a later call for the same tab and configuration whose clock
    reads less than 30000 ms past the store returns the same value, leaves
    the engine as it is and does no work. *)
Theorem extract_then_hit (pf later : ScrapingEngine.Platform)
  (engine engine' : ScrapingEngine.Engine) (tabId : Z) (config : Config)
  (processed : Value) (work : list ScrapingEngine.Work)
  (Hfirst : ScrapingEngine.extract pf engine tabId config
            = (ScrapingEngine.Resolved processed, engine',
               ScrapingEngine.SentToPage tabId config :: work))
  (Hjson : ScrapingEngine.stringify later config = ScrapingEngine.stringify pf config)
  (Hsoon : (ScrapingEngine.nowAtCheck later - ScrapingEngine.nowAtStore pf < 30000)%Z) :
  ScrapingEngine.extract later engine' tabId config
  = (ScrapingEngine.Resolved processed, engine', []).
Proof.
  pose proof (extract_stores _ _ _ _ _ _ _ Hfirst) as Hstored.
  assert (Hkey : ScrapingEngine.cacheKey later tabId config
                 = ScrapingEngine.cacheKey pf tabId config).
  { unfold ScrapingEngine.cacheKey. rewrite Hjson. reflexivity. }
  unfold ScrapingEngine.extract, ScrapingEngine.liveEntry.
  rewrite Hkey, Hstored. cbn [ScrapingEngine.entryTimestamp ScrapingEngine.entryData].
  apply Z.ltb_lt in Hsoon. rewrite Hsoon. reflexivity.
Qed.

Lemma extract_then_hit_witness :
  ScrapingEngine.extract (Sample.hostAt 120000 120100)
    (ScrapingEngine.extract Sample.host (Sample.cachedAt 60000) 7 Sample.autoConfig).1.2
    7 Sample.autoConfig
  = (ScrapingEngine.Resolved Sample.pageData,
     (ScrapingEngine.extract Sample.host (Sample.cachedAt 60000) 7 Sample.autoConfig).1.2,
     []).
Proof.
  apply (extract_then_hit Sample.host (Sample.hostAt 120000 120100)
           (Sample.cachedAt 60000) _ 7 Sample.autoConfig Sample.pageData
           [ScrapingEngine.PostedToWorker 0 Sample.pageData Sample.autoConfig]).
  - vm_compute. reflexivity.
  - reflexivity.
  - reflexivity.
Defined.

(** [extract] changes the cache under its own key at most, and keeps the
    number of workers. *)
Theorem extract_other_keys (pf : ScrapingEngine.Platform) (engine : ScrapingEngine.Engine)
  (tabId : Z) (config : Config) (key : string)
  (Hother : key <> ScrapingEngine.cacheKey pf tabId config) :
  let engine' := (ScrapingEngine.extract pf engine tabId config).1.2 in
  ScrapingEngine.cache engine' !! key = ScrapingEngine.cache engine !! key
  /\ length (ScrapingEngine.workerPool engine') = length (ScrapingEngine.workerPool engine).
Proof.
  cbv zeta. unfold ScrapingEngine.extract.
  destruct (ScrapingEngine.liveEntry pf engine (ScrapingEngine.cacheKey pf tabId config));
    [split; reflexivity|].
  destruct (ScrapingEngine.sendMessage pf tabId config) as [data|e|];
    try (split; reflexivity).
  pose proof (processInWorker_length pf (ScrapingEngine.workerPool engine) data config)
    as Hlen.
  destruct (ScrapingEngine.processInWorker pf (ScrapingEngine.workerPool engine) data config)
    as [[outcome pool] w].
  cbn [fst snd] in Hlen.
  destruct outcome as [v|e|]; cbn [fst snd ScrapingEngine.cache ScrapingEngine.workerPool];
    (split; [|exact Hlen]); try reflexivity.
  apply lookup_insert_ne. congruence.
Qed.

Lemma extract_other_keys_witness :
  ScrapingEngine.cache
    (ScrapingEngine.extract Sample.host (Sample.cachedAt 60000) 8 Sample.autoConfig).1.2
  !! ScrapingEngine.cacheKey Sample.host 7 Sample.autoConfig
  = ScrapingEngine.cache (Sample.cachedAt 60000)
    !! ScrapingEngine.cacheKey Sample.host 7 Sample.autoConfig.
Proof.
  apply (extract_other_keys Sample.host (Sample.cachedAt 60000) 8 Sample.autoConfig).
  vm_compute. discriminate.
Defined.

(** ** The cache key *)

Lemma pretty_N_go_colons (x : N) (s : string) :
  Js.countChar ":" (pretty_N_go x s) = Js.countChar ":" s.
Proof.
  revert s. induction (N.lt_wf_0 x) as [x _ IH]. intros s.
  destruct (N.eq_dec x 0%N) as [->|Hx].
  - rewrite pretty_N_go_0. reflexivity.
  - rewrite pretty_N_go_step by lia.
    rewrite IH by (apply N.div_lt; lia).
    cbn [Js.countChar].
    assert (Hc : Ascii.eqb (pretty_N_char (x mod 10)) ":" = false).
    { unfold pretty_N_char. repeat case_match; reflexivity. }
    rewrite Hc. reflexivity.
Qed.

Lemma pretty_Z_colons (z : Z) : Js.countChar ":" (pretty z) = 0%nat.
Proof.
  assert (HN : forall n : N, Js.countChar ":" (pretty n) = 0%nat).
  { intros n. unfold pretty, pretty_N. case_decide; [reflexivity|].
    apply pretty_N_go_colons. }
  destruct z as [|p|p]; [reflexivity | apply (HN (Npos p)) |].
  unfold pretty, pretty_Z. cbn [String.append Js.countChar Ascii.eqb Bool.eqb].
  apply (HN (Npos p)).
Qed.

Lemma split_at_colon (u v x y : string) :
  Js.countChar ":" u = 0%nat -> Js.countChar ":" v = 0%nat ->
  (u ++ ":" ++ x = v ++ ":" ++ y)%string -> u = v /\ x = y.
Proof.
  revert v. induction u as [|a u IH]; intros [|b v] Hu Hv E;
    unfold String.append in E; fold String.append in E.
  - injection E as E. subst y. split; reflexivity.
  - injection E as Eb _. subst b. cbn in Hv. discriminate.
  - injection E as Ea _. subst a. cbn in Hu. discriminate.
  - injection E as Eab E. subst b. cbn [Js.countChar] in Hu, Hv.
    destruct (IH v) as [Huv Hxy]; [lia | lia | exact E |].
    subst v y. split; reflexivity.
Qed.

(** Two requests share a cache key only when the tab is the same and the
    serialised configurations are the same text. *)
Theorem cacheKey_injective (pf : ScrapingEngine.Platform) (tab1 tab2 : Z)
  (config1 config2 : Config)
  (Hkey : ScrapingEngine.cacheKey pf tab1 config1 = ScrapingEngine.cacheKey pf tab2 config2) :
  tab1 = tab2
  /\ ScrapingEngine.stringify pf config1 = ScrapingEngine.stringify pf config2.
Proof.
  unfold ScrapingEngine.cacheKey in Hkey.
  apply split_at_colon in Hkey; try apply pretty_Z_colons.
  destruct Hkey as [Ht Hc]. split; [|exact Hc].
  apply (inj pretty). exact Ht.
Qed.

Lemma cacheKey_injective_witness :
  ScrapingEngine.cacheKey Sample.host 7 Sample.autoConfig
  = ScrapingEngine.cacheKey (Sample.hostAt 120000 120100) 7 Sample.autoConfig
  /\ (7 = 7)%Z
  /\ ScrapingEngine.stringify Sample.host Sample.autoConfig
     = ScrapingEngine.stringify Sample.host Sample.autoConfig.
Proof.
  split; [reflexivity|].
  apply (cacheKey_injective Sample.host 7 7 Sample.autoConfig Sample.autoConfig).
  reflexivity.
Defined.

(** ** Inline processors and deduplication *)

Lemma runProcessors_app (pf : ScrapingEngine.Platform) (data : Value)
  (l1 l2 : list Processor) :
  ScrapingEngine.runProcessors pf data (l1 ++ l2)
  = match ScrapingEngine.runProcessors pf data l1 with
    | Js.Ok result => ScrapingEngine.runProcessors pf result l2
    | Js.Throw e => Js.Throw e
    end.
Proof.
  revert data. induction l1 as [|p l1 IH]; intros data; cbn; [reflexivity|].
  destruct (ScrapingEngine.applyProcessor pf data p); [apply IH | reflexivity].
Qed.

Lemma runProcessors_known (pf : ScrapingEngine.Platform) (data : Value)
  (l : list Processor) :
  ScrapingEngine.runProcessors pf data l
  = ScrapingEngine.runProcessors pf data (List.filter Spec.known l).
Proof.
  revert data. induction l as [|p l IH]; intros data; [reflexivity|].
  cbn [List.filter]. unfold Spec.known at 1.
  destruct (ScrapingEngine.readMember (name p)) eqn:E; cbn [negb];
    cbn [ScrapingEngine.runProcessors];
    try (destruct (ScrapingEngine.applyProcessor pf data p); [apply IH | reflexivity]).
  unfold ScrapingEngine.applyProcessor. rewrite E. apply IH.
Qed.

(** Inline processing composes: a processor list in two parts gives what
    the second part gives on the result of the first, a throw in the first
    part ending the run; and the processors whose name [processors] does
    not hold, own or inherited, can be struck from the list wherever they
    stand without changing the outcome. *)
Theorem processInline_composes (pf : ScrapingEngine.Platform) (data : Value)
  (mode : string) (selectors : option (list string)) (l1 l2 : list Processor) :
  ScrapingEngine.processInline pf data (mkConfig mode selectors (Some (l1 ++ l2)))
  = match ScrapingEngine.processInline pf data (mkConfig mode selectors (Some l1)) with
    | Js.Ok result =>
        ScrapingEngine.processInline pf result (mkConfig mode selectors (Some l2))
    | Js.Throw e => Js.Throw e
    end
  /\ ScrapingEngine.processInline pf data (mkConfig mode selectors (Some l1))
     = ScrapingEngine.processInline pf data
         (mkConfig mode selectors (Some (List.filter Spec.known l1))).
Proof.
  unfold ScrapingEngine.processInline. cbn [processors]. split.
  - apply runProcessors_app.
  - apply runProcessors_known.
Qed.

Lemma distinct_idempotent (seen items : list Value) :
  ScrapingEngine.distinct seen (ScrapingEngine.distinct seen items)
  = ScrapingEngine.distinct seen items.
Proof.
  revert seen. induction items as [|v items IH]; intros seen; [reflexivity|].
  cbn [ScrapingEngine.distinct].
  destruct (existsb (ScrapingEngine.sameValueZero v) seen) eqn:E.
  - apply IH.
  - cbn [ScrapingEngine.distinct]. rewrite E, IH. reflexivity.
Qed.

Lemma distinct_unseen (seen items : list Value) :
  Forall (fun x => existsb (ScrapingEngine.sameValueZero x) seen = false)
    (ScrapingEngine.distinct seen items).
Proof.
  revert seen. induction items as [|v items IH]; intros seen; [constructor|].
  cbn [ScrapingEngine.distinct].
  destruct (existsb (ScrapingEngine.sameValueZero v) seen) eqn:E; [apply IH|].
  constructor; [exact E|].
  eapply List.Forall_impl; [|apply (IH (v :: seen))].
  intros x Hx. cbn [existsb] in Hx. apply orb_false_elim in Hx. apply Hx.
Qed.

Lemma distinct_pairwise (seen items : list Value) :
  ForallOrdPairs (fun earlier later => ScrapingEngine.sameValueZero later earlier = false)
    (ScrapingEngine.distinct seen items).
Proof.
  revert seen. induction items as [|v items IH]; intros seen; [constructor|].
  cbn [ScrapingEngine.distinct].
  destruct (existsb (ScrapingEngine.sameValueZero v) seen); [apply IH|].
  constructor; [|apply IH].
  eapply List.Forall_impl; [|apply (distinct_unseen (v :: seen) items)].
  intros x Hx. cbn [existsb] in Hx. apply orb_false_elim in Hx. apply Hx.
Qed.

Lemma distinct_sublist (seen items : list Value) (x : Value) :
  In x (ScrapingEngine.distinct seen items) -> In x items.
Proof.
  revert seen. induction items as [|v items IH]; intros seen; [intros []|].
  cbn [ScrapingEngine.distinct].
  destruct (existsb (ScrapingEngine.sameValueZero v) seen).
  - intros H. right. exact (IH _ H).
  - intros [H|H]; [left; exact H | right; exact (IH _ H)].
Qed.

(** When [deduplicate] returns, it returns an array whose entries are
    pairwise different under SameValueZero; for an array argument every
    entry is an entry of the argument; and deduplicating the result again
    gives the same array. *)
Theorem deduplicate_result (arr result : Value)
  (Hok : ScrapingEngine.deduplicate arr = Js.Ok result) :
  exists entries,
    result = VArr entries
    /\ ForallOrdPairs
         (fun earlier later => ScrapingEngine.sameValueZero later earlier = false) entries
    /\ (forall items, arr = VArr items -> forall x, In x entries -> In x items)
    /\ ScrapingEngine.deduplicate result = Js.Ok result.
Proof.
  destruct arr as [| |b|q|s|items|props]; cbn in Hok; try discriminate;
    injection Hok as <-.
  - exists []. repeat split; try constructor. intros items H; discriminate.
  - exists []. repeat split; try constructor. intros items H; discriminate.
  - eexists. split; [reflexivity|]. split; [apply distinct_pairwise|].
    split; [intros items H; discriminate|].
    cbn [ScrapingEngine.deduplicate]. rewrite distinct_idempotent. reflexivity.
  - eexists. split; [reflexivity|]. split; [apply distinct_pairwise|].
    split.
    + intros items' H x Hx. injection H as <-. exact (distinct_sublist _ _ _ Hx).
    + cbn [ScrapingEngine.deduplicate]. rewrite distinct_idempotent. reflexivity.
Qed.

Lemma deduplicate_result_witness :
  ScrapingEngine.deduplicate Sample.pageData = Js.Ok (VArr [VStr "Widget"; VStr "Gadget"])
  /\ ScrapingEngine.deduplicate (VArr [VStr "Widget"; VStr "Gadget"])
     = Js.Ok (VArr [VStr "Widget"; VStr "Gadget"]).
Proof.
  split; [reflexivity|].
  destruct (deduplicate_result Sample.pageData (VArr [VStr "Widget"; VStr "Gadget"]) eq_refl)
    as (entries & _ & _ & _ & H).
  exact H.
Defined.

(** ** Text cleaning *)

Lemma trimStart_startsClean (s : string) : Spec.startsClean (Js.trimStart s) = true.
Proof.
  induction s as [|c s IH]; [reflexivity|]. cbn [Js.trimStart].
  destruct (Js.isWhite c) eqn:E; [exact IH|]. cbn. rewrite E. reflexivity.
Qed.

Lemma trimEnd_endsClean (s : string) : Spec.endsClean (Js.trimEnd s) = true.
Proof.
  induction s as [|c s IH]; [reflexivity|]. cbn [Js.trimEnd].
  destruct (Js.trimEnd s) as [|d t] eqn:E.
  - destruct (Js.isWhite c) eqn:Ec; [reflexivity|]. cbn. rewrite Ec. reflexivity.
  - exact IH.
Qed.

Lemma trimEnd_startsClean (s : string) :
  Spec.startsClean s = true -> Spec.startsClean (Js.trimEnd s) = true.
Proof.
  destruct s as [|c s]; [reflexivity|]. cbn [Spec.startsClean Js.trimEnd]. intros Hc.
  destruct (Js.trimEnd s); [|exact Hc].
  apply negb_true_iff in Hc. rewrite Hc. cbn. rewrite Hc. reflexivity.
Qed.

Lemma trim_edges (s : string) :
  Spec.startsClean (Js.trim s) = true /\ Spec.endsClean (Js.trim s) = true.
Proof.
  unfold Js.trim. split.
  - apply trimEnd_startsClean, trimStart_startsClean.
  - apply trimEnd_endsClean.
Qed.

Lemma collapse_tidyFrom (s : string) :
  Spec.endsClean s = true ->
  Spec.tidyFrom false (Js.replaceRuns Js.isWhite " " false s) = true
  /\ (s <> EmptyString ->
      Spec.tidyFrom true (Js.replaceRuns Js.isWhite " " true s) = true).
Proof.
  induction s as [|c s IH]; intros He.
  - split; [reflexivity|]. intros H. contradiction.
  - assert (Hs : Spec.endsClean s = true).
    { cbn [Spec.endsClean] in He. destruct s; [reflexivity | exact He]. }
    destruct (IH Hs) as [IHf IHt].
    cbn [Js.replaceRuns]. destruct (Js.isWhite c) eqn:Ec.
    + assert (Hne : s <> EmptyString).
      { intros ->. cbn in He. rewrite Ec in He. discriminate. }
      split.
      * unfold String.append; fold String.append. cbn [Spec.tidyFrom]. apply IHt, Hne.
      * intros _. apply IHt, Hne.
    + cbn [Spec.tidyFrom]. rewrite Ec. split; [exact IHf | intros _; exact IHf].
Qed.

Lemma collapse_tidy (s : string) :
  Spec.startsClean s = true -> Spec.endsClean s = true ->
  Spec.tidy (Js.replaceRuns Js.isWhite " " false s) = true.
Proof.
  intros Hs He. destruct s as [|c s]; [reflexivity|].
  cbn [Spec.startsClean] in Hs. apply negb_true_iff in Hs.
  pose proof (collapse_tidyFrom (String c s) He) as [Hf _].
  cbn [Js.replaceRuns] in *. rewrite Hs in *.
  cbn [Spec.tidy Spec.tidyFrom] in *. rewrite Hs in *. exact Hf.
Qed.

(** a replacement of runs of a class of white space other than the space
    leaves a tidy text as it is *)
Lemma replaceRuns_tidy (p : ascii -> bool) (b : bool) (s : string) :
  (forall c, p c = true -> Js.isWhite c = true /\ Ascii.eqb c " " = false) ->
  Spec.tidyFrom b s = true -> Js.replaceRuns p " " false s = s.
Proof.
  intros Hp. revert b. induction s as [|c s IH]; intros b Ht; [reflexivity|].
  cbn [Spec.tidyFrom] in Ht. cbn [Js.replaceRuns].
  destruct (p c) eqn:Epc.
  - destruct (Hp c Epc) as [Hw Hsp]. rewrite Hw, Hsp in Ht. discriminate.
  - destruct (Js.isWhite c).
    + apply andb_prop in Ht. destruct Ht as [_ Ht]. rewrite (IH true Ht). reflexivity.
    + rewrite (IH false Ht). reflexivity.
Qed.

Lemma tidy_tidyFrom (s : string) :
  Spec.tidy s = true -> s = EmptyString \/ Spec.tidyFrom true s = true.
Proof. destruct s; [left; reflexivity | right; assumption]. Qed.

Lemma tidyFrom_collapse (s : string) (b : bool) :
  Spec.tidyFrom b s = true ->
  Js.replaceRuns Js.isWhite " " false s = s
  /\ (b = true -> Js.replaceRuns Js.isWhite " " true s = s).
Proof.
  revert b. induction s as [|c s IH]; intros b Ht; [split; reflexivity|].
  cbn [Spec.tidyFrom] in Ht. cbn [Js.replaceRuns].
  destruct (Js.isWhite c) eqn:Ec.
  - apply andb_prop in Ht. destruct Ht as [Ht Hs]. apply andb_prop in Ht.
    destruct Ht as [Hsp Hb]. apply negb_true_iff in Hb. subst b.
    apply Ascii.eqb_eq in Hsp. subst c.
    destruct (IH true Hs) as [_ IHt]. split.
    + rewrite (IHt eq_refl). reflexivity.
    + discriminate.
  - destruct (IH false Ht) as [IHf _]. rewrite IHf. split; reflexivity.
Qed.

Lemma tidyFrom_endsClean (s : string) (b : bool) :
  Spec.tidyFrom b s = true -> Spec.endsClean s = true.
Proof.
  revert b. induction s as [|c s IH]; intros b Ht; [reflexivity|].
  cbn [Spec.tidyFrom] in Ht. cbn [Spec.endsClean].
  destruct (Js.isWhite c) eqn:Ec.
  - apply andb_prop in Ht. destruct Ht as [_ Hs].
    destruct s; [discriminate | exact (IH true Hs)].
  - destruct s; [reflexivity | exact (IH false Ht)].
Qed.

Lemma trimStart_clean (s : string) : Spec.startsClean s = true -> Js.trimStart s = s.
Proof.
  destruct s as [|c s]; [reflexivity|]. cbn. intros H.
  apply negb_true_iff in H. rewrite H. reflexivity.
Qed.

Lemma trimEnd_clean (s : string) : Spec.endsClean s = true -> Js.trimEnd s = s.
Proof.
  induction s as [|c s IH]; [reflexivity|]. cbn [Spec.endsClean Js.trimEnd].
  destruct s as [|d s].
  - intros H. apply negb_true_iff in H. cbn. rewrite H. reflexivity.
  - intros H. rewrite (IH H). reflexivity.
Qed.

Lemma tidyText_facts (text : string) :
  TableDetector.tidyText text = Js.replaceRuns Js.isWhite " " false (Js.trim text)
  /\ ListDetector.tidyText text = TableDetector.tidyText text
  /\ Spec.tidy (TableDetector.tidyText text) = true
  /\ (Spec.tidy text = true -> TableDetector.tidyText text = text)
  /\ TableDetector.tidyText (TableDetector.tidyText text) = TableDetector.tidyText text.
Proof.
  assert (Hshape : forall t, Spec.tidy t = true ->
            Js.replaceRuns (fun c => Ascii.eqb c (ascii_of_nat 9)) " " false
              (Js.replaceRuns (fun c => Ascii.eqb c (ascii_of_nat 10)) " " false t) = t).
  { intros t Ht. destruct (tidy_tidyFrom t Ht) as [->|Hf]; [reflexivity|].
    rewrite (replaceRuns_tidy _ true t), (replaceRuns_tidy _ true t); auto.
    - intros c Hc. apply Ascii.eqb_eq in Hc. subst c. split; reflexivity.
    - intros c Hc. apply Ascii.eqb_eq in Hc. subst c. split; reflexivity. }
  assert (Hcollapsed : Spec.tidy (Js.replaceRuns Js.isWhite " " false (Js.trim text)) = true).
  { apply collapse_tidy; apply trim_edges. }
  assert (H1 : TableDetector.tidyText text
               = Js.replaceRuns Js.isWhite " " false (Js.trim text)).
  { unfold TableDetector.tidyText. apply Hshape, Hcollapsed. }
  assert (Hfix : forall t, Spec.tidy t = true -> TableDetector.tidyText t = t).
  { intros t Ht. unfold TableDetector.tidyText.
    destruct (tidy_tidyFrom t Ht) as [->|Hf]; [reflexivity|].
    assert (Htrim : Js.trim t = t).
    { unfold Js.trim. rewrite trimStart_clean.
      - apply trimEnd_clean. exact (tidyFrom_endsClean _ _ Hf).
      - destruct t as [|c t]; [reflexivity|]. cbn in Hf |- *.
        destruct (Js.isWhite c); [|reflexivity].
        rewrite andb_false_r in Hf. discriminate. }
    rewrite Htrim. rewrite (proj1 (tidyFrom_collapse t true Hf)). apply Hshape, Ht. }
  split; [exact H1|]. split; [reflexivity|]. split; [rewrite H1; exact Hcollapsed|].
  split; [apply Hfix|]. apply Hfix. rewrite H1. exact Hcollapsed.
Qed.

(** For an element whose text and markup lie in the ASCII range,
    [cleanText] without [includeHtml] returns a normal form of the text: the
    two last replacements of the chain never change anything, the result
    has no white space at either end and none but single spaces inside, a
    text of that shape is returned as it is, and cleaning a cleaned text
    changes nothing; ListDetector cleans in the same way.  With
    [includeHtml] the markup is trimmed only: the result has no white space
    at either end, white space inside is kept, and a markup without white
    space at its ends is returned as it is. *)
Theorem cleanText_normal_form (el : Dom.Element)
  (Htext : Spec.asciiText (Dom.textContent el) = true)
  (Hhtml : Spec.asciiText (Dom.innerHTML el) = true) :
  (TableDetector.cleanText el false
   = Js.replaceRuns Js.isWhite " " false (Js.trim (Dom.textContent el))
   /\ ListDetector.cleanText el = TableDetector.cleanText el false
   /\ Spec.tidy (TableDetector.cleanText el false) = true
   /\ (Spec.tidy (Dom.textContent el) = true ->
       TableDetector.cleanText el false = Dom.textContent el)
   /\ TableDetector.tidyText (TableDetector.cleanText el false)
      = TableDetector.cleanText el false)
  /\ (TableDetector.cleanText el true = Js.trim (Dom.innerHTML el)
      /\ Spec.startsClean (TableDetector.cleanText el true) = true
      /\ Spec.endsClean (TableDetector.cleanText el true) = true
      /\ (Spec.startsClean (Dom.innerHTML el) = true ->
          Spec.endsClean (Dom.innerHTML el) = true ->
          TableDetector.cleanText el true = Dom.innerHTML el)).
Proof.
  destruct (tidyText_facts (Dom.textContent el)) as (H1 & H2 & H3 & H4 & H5).
  split.
  - unfold TableDetector.cleanText, ListDetector.cleanText.
    split; [exact H1|]. split; [exact H2|]. split; [exact H3|]. split; [exact H4 | exact H5].
  - unfold TableDetector.cleanText.
    destruct (trim_edges (Dom.innerHTML el)) as [Hs He].
    split; [reflexivity|]. split; [exact Hs|]. split; [exact He|].
    intros Hstart Hend. unfold Js.trim. rewrite (trimStart_clean _ Hstart).
    apply trimEnd_clean, Hend.
Qed.

Lemma cleanText_normal_form_witness :
  TableDetector.cleanText (Sample.cell 11 "Widget in stock") false = "Widget in stock"
  /\ TableDetector.cleanText (Sample.cell 11 "Widget in stock") true = "Widget in stock".
Proof.
  destruct (cleanText_normal_form (Sample.cell 11 "Widget in stock") eq_refl eq_refl)
    as [(_ & _ & _ & Htext & _) (_ & _ & _ & Hhtml)].
  split; [apply Htext | apply Hhtml]; reflexivity.
Defined.

Example cleanText_html_keeps_inner_space :
  TableDetector.cleanText (Sample.cell 11 "  Widget   in stock ") true = "Widget   in stock"
  /\ TableDetector.cleanText (Sample.cell 11 "  Widget   in stock ") false
     = "Widget in stock".
Proof. split; reflexivity. Qed.

Example tidyText_sample :
  TableDetector.tidyText "  Widget
	 in   stock " = "Widget in stock".
Proof. reflexivity. Qed.

(** ** Table extraction *)

Lemma slice_from_one {A : Type} (m : nat) (first : A) (rest : list A) :
  Js.slice 1 m (first :: rest) = firstn (m - 1) rest.
Proof.
  unfold Js.slice. destruct m as [|m]; [reflexivity|].
  cbn [firstn skipn]. replace (S m - 1)%nat with m by lia. reflexivity.
Qed.

Lemma slice_from_zero {A : Type} (m : nat) (l : list A) : Js.slice 0 m l = firstn m l.
Proof. unfold Js.slice. apply List.skipn_O. Qed.

Lemma generatedHeaders_nonempty (cs : list Dom.Element) :
  cs <> [] -> TableDetector.generatedHeaders cs <> [].
Proof. destruct cs; [contradiction|]. intros _. discriminate. Qed.

Lemma nativeHeaders_nonempty (table : Dom.Element) (config : TableDetector.ExtractConfig)
  (first : Dom.Element) (rest : list Dom.Element) :
  Dom.rows table = first :: rest -> Dom.cells first <> [] ->
  TableDetector.nativeHeaders table config <> [].
Proof.
  intros Hrows Hcells. unfold TableDetector.nativeHeaders. rewrite Hrows.
  match goal with
  | |- context [match ?h with [] => _ | _ :: _ => _ end] => destruct h eqn:E
  end.
  - apply generatedHeaders_nonempty, Hcells.
  - discriminate.
Qed.

Lemma headRows_first (kids : list Dom.Element) (head headerRow : Dom.Element)
  (more : list Dom.Element) :
  List.find (Dom.tagIs "thead") kids = Some head ->
  Dom.trChildren head = headerRow :: more ->
  exists rest,
    flat_map (fun c => if Dom.tagIs "thead" c then Dom.trChildren c else []) kids
    = headerRow :: rest.
Proof.
  induction kids as [|k kids IH]; [discriminate|].
  cbn [List.find flat_map]. destruct (Dom.tagIs "thead" k).
  - intros E Hrows. injection E as ->. rewrite Hrows. cbn. eexists. reflexivity.
  - intros E Hrows. exact (IH E Hrows).
Qed.

Lemma nativeHeaders_empty (table : Dom.Element) (config : TableDetector.ExtractConfig)
  (first : Dom.Element) (rest : list Dom.Element) :
  Dom.rows table = first :: rest -> Dom.cells first = [] ->
  TableDetector.nativeHeaders table config = [].
Proof.
  intros Hrows Hcells. unfold TableDetector.nativeHeaders. rewrite Hrows.
  assert (Hgen : TableDetector.generatedHeaders (Dom.cells first) = [])
    by (rewrite Hcells; reflexivity).
  destruct (TableDetector.includeHeaders config); [|exact Hgen].
  unfold Dom.tHead. destruct (List.find (Dom.tagIs "thead") (Dom.children table))
    as [head|] eqn:Ehead; [|exact Hgen].
  destruct (Dom.trChildren head) as [|headerRow more] eqn:Etr; [exact Hgen|].
  destruct (headRows_first _ _ _ _ Ehead Etr) as (rest' & Hfirst).
  unfold Dom.rows in Hrows. rewrite Hfirst in Hrows. cbn in Hrows.
  injection Hrows as -> _. rewrite Hcells. reflexivity.
Qed.

Lemma native_after_first (table : Dom.Element) (config : TableDetector.ExtractConfig)
  (firstRow : Dom.Element) (rest : list Dom.Element) :
  Dom.rows table = firstRow :: rest -> Dom.cells firstRow <> [] ->
  TableDetector.extractNativeTable table config
  = List.map (fun row => TableDetector.fillRow (TableDetector.nativeHeaders table config)
                           (TableDetector.includeHtml config) 0 (Dom.cells row) ∅)
      (firstn (TableDetector.maxRows config - 1) rest).
Proof.
  intros Hrows Hcells. unfold TableDetector.extractNativeTable. cbv zeta.
  pose proof (nativeHeaders_nonempty table config firstRow rest Hrows Hcells) as Hne.
  destruct (TableDetector.nativeHeaders table config) as [|h hs]; [contradiction|].
  rewrite Hrows, slice_from_one. reflexivity.
Qed.

Lemma native_from_first (table : Dom.Element) (config : TableDetector.ExtractConfig)
  (firstRow : Dom.Element) (rest : list Dom.Element) :
  Dom.rows table = firstRow :: rest -> Dom.cells firstRow = [] ->
  TableDetector.extractNativeTable table config
  = List.map (fun row => TableDetector.fillRow [] (TableDetector.includeHtml config) 0
                           (Dom.cells row) ∅)
      (firstn (TableDetector.maxRows config) (firstRow :: rest)).
Proof.
  intros Hrows Hcells. unfold TableDetector.extractNativeTable. cbv zeta.
  rewrite (nativeHeaders_empty table config firstRow rest Hrows Hcells).
  rewrite Hrows, slice_from_zero. reflexivity.
Qed.

Lemma div_after_first (div : Dom.Element) (config : TableDetector.ExtractConfig)
  (firstChild : Dom.Element) (siblings : list Dom.Element) :
  Dom.children div = firstChild :: siblings -> Dom.children firstChild <> [] ->
  TableDetector.extractDivTable div config
  = List.map (fun row =>
                TableDetector.fillRow
                  (TableDetector.divHeaders
                     (Js.slice 0 (TableDetector.maxRows config) (Dom.children div)) config)
                  (TableDetector.includeHtml config) 0 (Dom.children row) ∅)
      (firstn (TableDetector.maxRows config - 1) siblings).
Proof.
  intros Hkids Hgrand. unfold TableDetector.extractDivTable. cbv zeta. rewrite Hkids.
  rewrite !slice_from_zero.
  destruct (TableDetector.maxRows config) as [|m].
  - cbn [firstn]. unfold TableDetector.divHeaders, Js.slice.
    destruct (TableDetector.includeHeaders config); reflexivity.
  - cbn [firstn]. replace (S m - 1)%nat with m by lia.
    assert (Hne : TableDetector.divHeaders (firstChild :: firstn m siblings) config <> []).
    { unfold TableDetector.divHeaders.
      destruct (TableDetector.includeHeaders config).
      - destruct (Dom.children firstChild) as [|g gs]; [contradiction|]. discriminate.
      - apply generatedHeaders_nonempty, Hgrand. }
    destruct (TableDetector.divHeaders (firstChild :: firstn m siblings) config) as [|h hs];
      [contradiction|].
    rewrite slice_from_one. cbn [length].
    replace (S (length (firstn m siblings)) - 1)%nat with (length (firstn m siblings))
      by lia.
    rewrite List.firstn_all. reflexivity.
Qed.

Lemma div_from_first (div : Dom.Element) (config : TableDetector.ExtractConfig)
  (firstChild : Dom.Element) (siblings : list Dom.Element) :
  Dom.children div = firstChild :: siblings -> Dom.children firstChild = [] ->
  TableDetector.extractDivTable div config
  = List.map (fun row => TableDetector.fillRow [] (TableDetector.includeHtml config) 0
                           (Dom.children row) ∅)
      (firstn (TableDetector.maxRows config) (firstChild :: siblings)).
Proof.
  intros Hkids Hleaf. unfold TableDetector.extractDivTable. cbv zeta. rewrite Hkids.
  rewrite slice_from_zero.
  assert (Hnone : TableDetector.divHeaders
                    (firstn (TableDetector.maxRows config) (firstChild :: siblings)) config
                  = []).
  { unfold TableDetector.divHeaders.
    destruct (TableDetector.maxRows config) as [|m]; cbn [firstn].
    - destruct (TableDetector.includeHeaders config); reflexivity.
    - rewrite Hleaf. destruct (TableDetector.includeHeaders config); reflexivity. }
  rewrite Hnone, slice_from_zero, List.firstn_all. reflexivity.
Qed.

(** Whether the extraction of a table returns a record for the first row
    rests on the cells of that row alone.  When the first row of a table
    has a cell, [extractNativeTable] returns no record for it, whether the
    headers come from a table head, are generated, or were not asked for:
    the records are those of the rows after the first, [maxRows - 1] of them
    at most.  When the first row has no cell, the first [maxRows] rows all
    give a record, the first included.  [extractDivTable] does the same for
    any other container with its first child: skipped when it has a child of
    its own, extracted with the others when it has none. *)
Theorem extraction_skips_first_row (table div : Dom.Element)
  (config : TableDetector.ExtractConfig)
  (firstRow firstChild : Dom.Element) (rest siblings : list Dom.Element)
  (Hrows : Dom.rows table = firstRow :: rest)
  (Hkids : Dom.children div = firstChild :: siblings) :
  (Dom.cells firstRow <> [] ->
   TableDetector.extractNativeTable table config
   = List.map (fun row => TableDetector.fillRow (TableDetector.nativeHeaders table config)
                            (TableDetector.includeHtml config) 0 (Dom.cells row) ∅)
       (firstn (TableDetector.maxRows config - 1) rest)
   /\ length (TableDetector.extractNativeTable table config)
      = Nat.min (TableDetector.maxRows config - 1) (length rest))
  /\ (Dom.cells firstRow = [] ->
      TableDetector.extractNativeTable table config
      = List.map (fun row => TableDetector.fillRow [] (TableDetector.includeHtml config) 0
                               (Dom.cells row) ∅)
          (firstn (TableDetector.maxRows config) (firstRow :: rest))
      /\ length (TableDetector.extractNativeTable table config)
         = Nat.min (TableDetector.maxRows config) (S (length rest)))
  /\ (Dom.children firstChild <> [] ->
      TableDetector.extractDivTable div config
      = List.map (fun row =>
                    TableDetector.fillRow
                      (TableDetector.divHeaders
                         (Js.slice 0 (TableDetector.maxRows config) (Dom.children div)) config)
                      (TableDetector.includeHtml config) 0 (Dom.children row) ∅)
          (firstn (TableDetector.maxRows config - 1) siblings)
      /\ length (TableDetector.extractDivTable div config)
         = Nat.min (TableDetector.maxRows config - 1) (length siblings))
  /\ (Dom.children firstChild = [] ->
      TableDetector.extractDivTable div config
      = List.map (fun row => TableDetector.fillRow [] (TableDetector.includeHtml config) 0
                               (Dom.children row) ∅)
          (firstn (TableDetector.maxRows config) (firstChild :: siblings))
      /\ length (TableDetector.extractDivTable div config)
         = Nat.min (TableDetector.maxRows config) (S (length siblings))).
Proof.
  split; [|split; [|split]].
  - intros Hcells. pose proof (native_after_first table config firstRow rest Hrows Hcells) as E.
    split; [exact E|]. rewrite E, List.length_map, List.length_firstn. reflexivity.
  - intros Hcells. pose proof (native_from_first table config firstRow rest Hrows Hcells) as E.
    split; [exact E|]. rewrite E, List.length_map, List.length_firstn. reflexivity.
  - intros Hgrand.
    pose proof (div_after_first div config firstChild siblings Hkids Hgrand) as E.
    split; [exact E|]. rewrite E, List.length_map, List.length_firstn. reflexivity.
  - intros Hleaf.
    pose proof (div_from_first div config firstChild siblings Hkids Hleaf) as E.
    split; [exact E|]. rewrite E, List.length_map, List.length_firstn. reflexivity.
Qed.

Lemma extraction_skips_first_row_witness :
  length (TableDetector.extractNativeTable Sample.stockTable
            (TableDetector.configOf (TableDetector.mkOptions None None None)))
  = 4%nat
  /\ length (TableDetector.extractDivTable (Sample.cardGrid 3)
               (TableDetector.configOf (TableDetector.mkOptions None None None)))
     = 2%nat
  /\ length (TableDetector.extractDivTable Sample.menuList
               (TableDetector.configOf (TableDetector.mkOptions None None None)))
     = 5%nat.
Proof.
  destruct (extraction_skips_first_row Sample.stockTable (Sample.cardGrid 3)
              (TableDetector.configOf (TableDetector.mkOptions None None None))
              (Sample.row3 10 "Widget" "$9.99" "in stock")
              (Sample.productCard 10)
              (List.tl Sample.stockRows)
              [Sample.productCard 20; Sample.productCard 30] eq_refl eq_refl)
    as (H1 & _ & H2 & _).
  destruct (extraction_skips_first_row Sample.stockTable Sample.menuList
              (TableDetector.configOf (TableDetector.mkOptions None None None))
              (Sample.row3 10 "Widget" "$9.99" "in stock")
              (Sample.leaf 2 "LI" EmptyString "Home" 200 20)
              (List.tl Sample.stockRows)
              (List.tl Sample.menuItems) eq_refl eq_refl)
    as (_ & _ & _ & H3).
  destruct H1 as [_ H1]; [discriminate|].
  destruct H2 as [_ H2]; [discriminate|].
  destruct H3 as [_ H3]; [reflexivity|].
  rewrite H1, H2, H3. repeat split.
Defined.

(** a container of five leaves gives five records, all of them empty *)
Example menuList_records :
  TableDetector.extractDivTable Sample.menuList
    (TableDetector.configOf (TableDetector.mkOptions None None None))
  = [∅; ∅; ∅; ∅; ∅].
Proof. reflexivity. Qed.

(** the stock table has no table head: its first row, the widget, is
    taken for the header row and is missing from the records, also when no
    headers are asked for *)
Example stockTable_records :
  List.map (fun record => record !! "Column 1")
    (TableDetector.extractNativeTable Sample.stockTable
       (TableDetector.configOf (TableDetector.mkOptions (Some false) None None)))
  = [Some "Gadget"; Some "Gizmo"; Some "Sprocket"; Some "Flange"].
Proof. vm_compute. reflexivity. Qed.

(** ** The finders *)

Lemma uniqueById_seen (seen : list nat) (l : list Dom.Element) :
  Forall (fun e => ~ In (Dom.nodeId e) seen) (Dom.uniqueById seen l).
Proof.
  revert seen. induction l as [|e l IH]; intros seen; [constructor|].
  cbn [Dom.uniqueById].
  destruct (existsb (Nat.eqb (Dom.nodeId e)) seen) eqn:E; [apply IH|].
  constructor.
  - intros Hin. assert (existsb (Nat.eqb (Dom.nodeId e)) seen = true); [|congruence].
    apply existsb_exists. exists (Dom.nodeId e). split; [exact Hin | apply Nat.eqb_refl].
  - eapply List.Forall_impl; [|apply IH]. intros x Hx Hin. apply Hx. right. exact Hin.
Qed.

Lemma uniqueById_NoDup (seen : list nat) (l : list Dom.Element) :
  List.NoDup (List.map Dom.nodeId (Dom.uniqueById seen l)).
Proof.
  revert seen. induction l as [|e l IH]; intros seen; [apply List.NoDup_nil|].
  cbn [Dom.uniqueById].
  destruct (existsb (Nat.eqb (Dom.nodeId e)) seen); [apply IH|].
  cbn [List.map]. apply List.NoDup_cons; [|apply IH].
  intros Hin. apply in_map_iff in Hin. destruct Hin as (x & Hid & Hx).
  pose proof (uniqueById_seen (Dom.nodeId e :: seen) l) as Hall.
  rewrite List.Forall_forall in Hall. apply (Hall x Hx). left. symmetry. exact Hid.
Qed.

Lemma uniqueById_incl (seen : list nat) (l : list Dom.Element) (x : Dom.Element) :
  In x (Dom.uniqueById seen l) -> In x l.
Proof.
  revert seen. induction l as [|e l IH]; intros seen; [intros []|].
  cbn [Dom.uniqueById]. destruct (existsb (Nat.eqb (Dom.nodeId e)) seen).
  - intros H. right. exact (IH _ H).
  - intros [H|H]; [left; exact H | right; exact (IH _ H)].
Qed.

Lemma uniqueById_covers (seen : list nat) (l : list Dom.Element) (x : Dom.Element) :
  In x l -> ~ In (Dom.nodeId x) seen ->
  exists y, In y (Dom.uniqueById seen l) /\ Dom.nodeId y = Dom.nodeId x.
Proof.
  revert seen. induction l as [|e l IH]; intros seen; [intros []|].
  intros Hin Hseen. cbn [Dom.uniqueById].
  destruct (existsb (Nat.eqb (Dom.nodeId e)) seen) eqn:E.
  - destruct Hin as [->|Hin].
    + exfalso. apply existsb_exists in E. destruct E as (n & Hn & Heq).
      apply Nat.eqb_eq in Heq. subst n. contradiction.
    + apply IH; assumption.
  - destruct (Nat.eq_dec (Dom.nodeId e) (Dom.nodeId x)) as [Heq|Hne].
    + exists e. split; [left; reflexivity | exact Heq].
    + destruct Hin as [->|Hin]; [contradiction|].
      destruct (IH (Dom.nodeId e :: seen) Hin) as (y & Hy & Hid).
      * intros [H|H]; [contradiction | contradiction].
      * exists y. split; [right; exact Hy | exact Hid].
Qed.

Lemma uniqueById_gathers (strategies : list (list Dom.Element)) :
  Spec.Gathers strategies (Dom.uniqueById [] (List.concat strategies)).
Proof.
  unfold Spec.Gathers. split; [apply uniqueById_NoDup|]. split.
  - intros x Hx. apply uniqueById_incl in Hx. apply in_concat in Hx.
    destruct Hx as (s & Hs & Hxs). exists s. split; assumption.
  - intros s x Hs Hx. apply uniqueById_covers; [|intros []].
    apply in_concat. exists s. split; assumption.
Qed.

Lemma documentQuery_matches (root : Dom.Element) (sel : list Dom.Simple) (el : Dom.Element) :
  In el (Dom.documentQuery root sel) -> Dom.matchesAny sel el = true.
Proof. unfold Dom.documentQuery. intros H. apply filter_In in H. apply H. Qed.

(** closes a goal [tagAmong more el = true] for an element found by a query
    on tags, filtered or not *)
Ltac tags_of_query :=
  repeat match goal with
         | H : In _ (List.filter _ _) |- _ => apply filter_In in H; destruct H as [H _]
         end;
  match goal with
  | H : In _ (Dom.documentQuery _ _) |- _ =>
      apply documentQuery_matches in H;
      unfold Dom.matchesAny in H; unfold Spec.tagAmong;
      cbn [existsb Dom.matchesSimple] in H |- *;
      repeat match goal with
             | |- context [Dom.tagIs ?t ?e] => destruct (Dom.tagIs t e)
             end;
      cbn in H |- *; congruence
  end.

(** [findAllTables], [findAllLists] and [findProductContainers] return every
    node that one of their strategies nominates, each node once and none
    besides; the nodes are tables, divs, lists and sections for the first
    two, and those, list items and articles for the third. *)
Theorem finders_gather (root : Dom.Element) :
  (Spec.Gathers
     [Dom.documentQuery root [Dom.Tag "table"]; TableDetector.findDivTables root;
      TableDetector.findListTables root; TableDetector.findGridTables root]
     (TableDetector.findAllTables root)
   /\ Forall (fun el => Spec.tagAmong ["table"; "div"; "ul"; "ol"; "section"] el = true)
        (TableDetector.findAllTables root))
  /\ (Spec.Gathers
        [Dom.documentQuery root [Dom.Tag "ul"; Dom.Tag "ol"]; ListDetector.findDivLists root;
         ListDetector.findTableLists root; ListDetector.findGridLists root]
        (ListDetector.findAllLists root)
      /\ Forall (fun el => Spec.tagAmong ["table"; "div"; "ul"; "ol"; "section"] el = true)
           (ListDetector.findAllLists root))
  /\ (Spec.Gathers
        [ProductDetector.findGridProducts root; ProductDetector.findListProducts root;
         ProductDetector.findTableProducts root; ProductDetector.findCardProducts root;
         ProductDetector.findContainerProducts root]
        (ProductDetector.findProductContainers root)
      /\ Forall (fun el => Spec.tagAmong
                             ["table"; "div"; "ul"; "ol"; "li"; "section"; "article"] el = true)
           (ProductDetector.findProductContainers root)).
Proof.
  split; [|split].
  - pose proof (uniqueById_gathers
                  [Dom.documentQuery root [Dom.Tag "table"]; TableDetector.findDivTables root;
                   TableDetector.findListTables root; TableDetector.findGridTables root]) as G.
    cbn [List.concat] in G. rewrite app_nil_r in G. split; [exact G|].
    apply List.Forall_forall. intros el Hel.
    destruct G as (_ & Hfrom & _). destruct (Hfrom el Hel) as (s & Hs & Hin).
    unfold TableDetector.findDivTables, TableDetector.findListTables,
      TableDetector.findGridTables in Hs.
    cbn [In] in Hs. destruct Hs as [<-|[<-|[<-|[<-|[]]]]]; tags_of_query.
  - pose proof (uniqueById_gathers
                  [Dom.documentQuery root [Dom.Tag "ul"; Dom.Tag "ol"];
                   ListDetector.findDivLists root; ListDetector.findTableLists root;
                   ListDetector.findGridLists root]) as G.
    cbn [List.concat] in G. rewrite app_nil_r in G. split; [exact G|].
    apply List.Forall_forall. intros el Hel.
    destruct G as (_ & Hfrom & _). destruct (Hfrom el Hel) as (s & Hs & Hin).
    unfold ListDetector.findDivLists, ListDetector.findTableLists,
      ListDetector.findGridLists in Hs.
    cbn [In] in Hs. destruct Hs as [<-|[<-|[<-|[<-|[]]]]]; tags_of_query.
  - pose proof (uniqueById_gathers
                  [ProductDetector.findGridProducts root; ProductDetector.findListProducts root;
                   ProductDetector.findTableProducts root; ProductDetector.findCardProducts root;
                   ProductDetector.findContainerProducts root]) as G.
    cbn [List.concat] in G. rewrite app_nil_r in G. split; [exact G|].
    apply List.Forall_forall. intros el Hel.
    destruct G as (_ & Hfrom & _). destruct (Hfrom el Hel) as (s & Hs & Hin).
    unfold ProductDetector.findGridProducts, ProductDetector.findListProducts,
      ProductDetector.findTableProducts, ProductDetector.findCardProducts,
      ProductDetector.findContainerProducts in Hs.
    cbn [In] in Hs. destruct Hs as [<-|[<-|[<-|[<-|[<-|[]]]]]]; tags_of_query.
Qed.

(** ** What a nomination tells the scorer *)

Lemma tagIs_exclusive (t u : string) (el : Dom.Element) :
  Dom.tagIs t el = true -> String.eqb t u = false -> Dom.tagIs u el = false.
Proof.
  unfold Dom.tagIs. intros Ht Hne. apply String.eqb_eq in Ht. rewrite Ht. exact Hne.
Qed.

Lemma fold_max_ge (f : Dom.Element -> nat) (l : list Dom.Element) (a : nat) :
  (a <= fold_left (fun m r => Nat.max m (f r)) l a)%nat
  /\ Forall (fun x => (f x <= fold_left (fun m r => Nat.max m (f r)) l a)%nat) l.
Proof.
  revert a. induction l as [|x l IH]; intros a; cbn [fold_left].
  - split; [lia | constructor].
  - destruct (IH (Nat.max a (f x))) as [Ha Hall]. split; [lia|].
    constructor; [lia | exact Hall].
Qed.

(** A div that [findDivTables] nominates has at least two children, is
    counted with at least two columns by [getColumnCount], and, with three
    children or fewer, gets the full structure score 1. *)
Theorem divTable_nominee (root el : Dom.Element)
  (Hin : In el (TableDetector.findDivTables root)) :
  (2 <= length (Dom.children el))%nat
  /\ (2 <= TableDetector.getColumnCount el)%nat
  /\ ((length (Dom.children el) <= 3)%nat ->
      (TableDetector.getStructureScore el == 1)%Q).
Proof.
  unfold TableDetector.findDivTables in Hin. apply filter_In in Hin.
  destruct Hin as [Hq Hdiv]. apply documentQuery_matches in Hq.
  unfold Dom.matchesAny in Hq. cbn [existsb Dom.matchesSimple] in Hq.
  rewrite orb_false_r in Hq.
  assert (Htable : Dom.tagIs "table" el = false)
    by (apply (tagIs_exclusive "div"); [exact Hq | reflexivity]).
  unfold TableDetector.isDivTable in Hdiv. cbv zeta in Hdiv.
  unfold TableDetector.MIN_ROWS, TableDetector.MIN_COLS in Hdiv.
  destruct (length (Dom.children el) <? 2)%nat eqn:Hn; [discriminate|].
  apply Nat.ltb_ge in Hn.
  destruct (Dom.children el) as [|first siblings] eqn:Hkids; [discriminate|].
  destruct (length (Dom.children first) <? 2)%nat eqn:Hc; [discriminate|].
  apply Nat.ltb_ge in Hc.
  split; [exact Hn|]. split.
  - unfold TableDetector.getColumnCount. rewrite Htable, Hkids. cbn [firstn fold_left].
    pose proof (fold_max_ge (fun row => length (Dom.children row)) (firstn 4 siblings)
                  (Nat.max 0 (length (Dom.children first)))) as [Hge _].
    cbv beta in Hge. lia.
  - intros Hsmall.
    assert (Hfrac : TableDetector.getStructureScore el
                    = Spec.siblingFraction Spec.sameChildCount (Dom.children el)).
    { apply div_structure_fraction; [exact Htable|]. rewrite Hkids. lia. }
    rewrite Hfrac, Hkids. apply siblingFraction_uniform; [exact Hn|].
    cbn [Spec.uniform].
    rewrite slice_tail in Hdiv by exact Hsmall. exact Hdiv.
Qed.

Lemma divTable_nominee_witness :
  (2 <= TableDetector.getColumnCount (Sample.cardGrid 3))%nat
  /\ (TableDetector.getStructureScore (Sample.cardGrid 3) == 1)%Q.
Proof.
  destruct (divTable_nominee (Sample.cardGrid 3) (Sample.cardGrid 3)) as (_ & Hc & Hs).
  - vm_compute. left. reflexivity.
  - split; [exact Hc|]. apply Hs. vm_compute. lia.
Defined.

Lemma ratio_mono (a b d : nat) :
  (a <= b)%nat -> (0 < d)%nat -> (Js.ratio a d <= Js.ratio b d)%Q.
Proof.
  intros Hab Hd. unfold Js.ratio, Qdiv.
  apply Qmult_le_compat_r.
  - rewrite <- Zle_Qle. lia.
  - apply Qinv_le_0_compat. change 0%Q with (inject_Z 0). rewrite <- Zle_Qle. lia.
Qed.

Lemma sameSignature_refl (el : Dom.Element) : ListDetector.sameSignature el el = true.
Proof. unfold ListDetector.sameSignature. rewrite !String.eqb_refl. reflexivity. Qed.

(** A container that [findDivLists] nominates has at least three children,
    two of which besides the first carry the signature of the first; with
    ten children or fewer its consistency score is therefore at least
    2/(n-1), and with exactly three children it is 1. *)
Theorem divList_nominee (root el : Dom.Element)
  (Hin : In el (ListDetector.findDivLists root)) :
  (3 <= length (Dom.children el))%nat
  /\ ((length (Dom.children el) <= 10)%nat ->
      (Js.ratio 2 (length (Dom.children el) - 1)
       <= ListDetector.getConsistencyScore el)%Q)
  /\ (length (Dom.children el) = 3%nat ->
      (ListDetector.getConsistencyScore el == 1)%Q).
Proof.
  unfold ListDetector.findDivLists in Hin. apply filter_In in Hin.
  destruct Hin as [_ Hdiv].
  unfold ListDetector.isDivList in Hdiv. cbv zeta in Hdiv.
  unfold ListDetector.MIN_ITEMS in Hdiv.
  destruct (length (Dom.children el) <? 3)%nat eqn:Hn; [discriminate|].
  apply Nat.ltb_ge in Hn.
  destruct (Dom.children el) as [|first siblings] eqn:Hkids; [discriminate|].
  cbn [List.filter] in Hdiv. rewrite sameSignature_refl in Hdiv.
  cbn [length] in Hdiv. apply Nat.leb_le in Hdiv.
  assert (Hfrac : (length (first :: siblings) <= 10)%nat ->
            ListDetector.getConsistencyScore el
            = Js.ratio (length (List.filter (ListDetector.sameSignature first) siblings))
                (length siblings)).
  { intros Hten. rewrite list_consistency_fraction by (rewrite Hkids; lia).
    rewrite Hkids. reflexivity. }
  split; [exact Hn|]. split.
  - intros Hten. rewrite (Hfrac Hten). cbn [length].
    replace (S (length siblings) - 1)%nat with (length siblings) by lia.
    apply ratio_mono; [lia|]. cbn [length] in Hn. lia.
  - intros Hthree. rewrite Hfrac by lia. cbn [length] in Hthree.
    pose proof (filter_length_le (ListDetector.sameSignature first) siblings) as Hle.
    replace (length (List.filter (ListDetector.sameSignature first) siblings))
      with (length siblings) by lia.
    apply ratio_same. lia.
Qed.

Lemma divList_nominee_witness :
  (3 <= length (Dom.children (Sample.cardGrid 3)))%nat
  /\ (ListDetector.getConsistencyScore (Sample.cardGrid 3) == 1)%Q.
Proof.
  destruct (divList_nominee (Sample.cardGrid 3) (Sample.cardGrid 3)) as (Hn & _ & Hs).
  - vm_compute. left. reflexivity.
  - split; [exact Hn|]. apply Hs. reflexivity.
Defined.

Lemma filter_firstn_le {A : Type} (p : A -> bool) (k m : nat) (l : list A) :
  (k <= m)%nat ->
  (length (List.filter p (firstn k l)) <= length (List.filter p (firstn m l)))%nat.
Proof.
  intros Hkm.
  rewrite <- (List.firstn_skipn k (firstn m l)).
  rewrite List.firstn_firstn, Nat.min_l by exact Hkm.
  rewrite List.filter_app, List.length_app. lia.
Qed.

(** A container nominated by the grid, the list or the generic container
    strategy has at least two children that the scorer counts as
    product-like, so the scoring pass reports at least two product items
    for it. *)
Theorem product_nominee (root el : Dom.Element)
  (Hin : In el (ProductDetector.findGridProducts root)
         \/ In el (ProductDetector.findListProducts root)
         \/ In el (ProductDetector.findContainerProducts root)) :
  (2 <= length (Dom.children el))%nat
  /\ (2 <= ProductDetector.countProductChildren el)%nat
  /\ (2 <= ProductDetector.md_productItems
             (metadata (ProductDetector.scoreContainer el)))%nat.
Proof.
  assert (H : (2 <= length (Dom.children el))%nat
              /\ exists k, (k <= 10)%nat
                   /\ (2 <= length (List.filter ProductDetector.isProductLike
                                      (firstn k (Dom.children el))))%nat).
  { destruct Hin as [Hin|[Hin|Hin]].
    - unfold ProductDetector.findGridProducts in Hin. apply filter_In in Hin.
      destruct Hin as [_ Hp]. unfold ProductDetector.gridProductContainer in Hp.
      destruct (negb (ProductDetector.isGridOrFlex el)); [discriminate|].
      destruct (length (Dom.children el) <? 2)%nat eqn:Hn; [discriminate|].
      apply Nat.ltb_ge in Hn. cbv zeta in Hp. apply Nat.leb_le in Hp.
      split; [exact Hn|]. exists 5%nat. split; [lia | exact Hp].
    - unfold ProductDetector.findListProducts in Hin. apply filter_In in Hin.
      destruct Hin as [_ Hp]. unfold ProductDetector.isListProducts in Hp.
      destruct (length (Dom.children el) <? 2)%nat eqn:Hn; [discriminate|].
      apply Nat.ltb_ge in Hn. apply Nat.leb_le in Hp.
      split; [exact Hn|]. exists 5%nat. split; [lia | exact Hp].
    - unfold ProductDetector.findContainerProducts in Hin. apply filter_In in Hin.
      destruct Hin as [_ Hp]. unfold ProductDetector.isContainerProducts in Hp.
      cbv zeta in Hp.
      destruct (length (Dom.children el) <? 3)%nat eqn:Hn; [discriminate|].
      apply Nat.ltb_ge in Hn.
      destruct (negb (Qle_bool 0.7 (ProductDetector.consistentStructure
                                      (ProductDetector.analyzePattern (Dom.children el)))));
        [discriminate|].
      apply Nat.leb_le in Hp.
      split; [lia|]. exists 3%nat. split; [lia | exact Hp]. }
  destruct H as (Hn & k & Hk & Hcount).
  assert (Hc : (2 <= ProductDetector.countProductChildren el)%nat).
  { unfold ProductDetector.countProductChildren.
    pose proof (filter_firstn_le ProductDetector.isProductLike k 10 (Dom.children el) Hk).
    lia. }
  split; [exact Hn|]. split; exact Hc.
Qed.

Lemma product_nominee_witness :
  (2 <= ProductDetector.countProductChildren (Sample.cardGrid 6))%nat.
Proof.
  apply (product_nominee (Sample.cardGrid 6) (Sample.cardGrid 6)).
  left. vm_compute. left. reflexivity.
Defined.

(** ** Product extraction *)

Lemma collectProducts_throws {Product : Type}
  (laterFields : Dom.Element -> string -> Js.JsResult Product)
  (index : nat) (kids : list Dom.Element) (products : list (Product * nat)) :
  ProductDetector.collectProducts laterFields index kids products
  = if existsb ProductDetector.isProductLike kids
    then Js.Throw "Cannot access 'element' before initialization"
    else Js.Ok products.
Proof.
  revert index products. induction kids as [|child kids IH]; intros index products.
  - reflexivity.
  - cbn [ProductDetector.collectProducts existsb].
    destruct (ProductDetector.isProductLike child); [reflexivity|]. apply IH.
Qed.

(** [ProductDetector.extractData] never returns a product.  When one of the
    first [2 * maxProducts] children of the container is product-like, the
    call throws the ReferenceError of [extractTitle]; otherwise it returns
    the empty list.  This holds whatever the initialisers after the title
    would compute. *)
Theorem product_extractData_never_yields {Product : Type}
  (laterFields : Dom.Element -> string -> Js.JsResult Product)
  (container : Dom.Element) (optMaxProducts : option nat) :
  ProductDetector.extractData laterFields container optMaxProducts
  = if existsb ProductDetector.isProductLike
         (firstn (ProductDetector.maxProductsOf optMaxProducts * 2) (Dom.children container))
    then Js.Throw "Cannot access 'element' before initialization"
    else Js.Ok [].
Proof.
  unfold ProductDetector.extractData, ProductDetector.extractProductsFromContainer.
  rewrite collectProducts_throws, slice_from_zero.
  destruct (existsb ProductDetector.isProductLike _); [reflexivity|].
  unfold Js.slice. rewrite List.firstn_nil. reflexivity.
Qed.

Example cardGrid_extraction_throws :
  ProductDetector.extractData (fun _ title => Js.Ok title) (Sample.cardGrid 6) None
  = Js.Throw "Cannot access 'element' before initialization"
  /\ ProductDetector.extractData (fun _ title => Js.Ok title) Sample.stripedList None
     = Js.Ok [].
Proof. split; vm_compute; reflexivity. Qed.

(** ** List extraction *)

Lemma mapIndexed_length {A B : Type} (f : A -> nat -> B) (i : nat) (l : list A) :
  length (ListDetector.mapIndexed f i l) = length l.
Proof.
  revert i. induction l as [|x l IH]; intros i; [reflexivity|].
  cbn [ListDetector.mapIndexed length]. rewrite IH. reflexivity.
Qed.

Lemma mapIndexed_fields {A B C : Type} (f : A -> nat -> B) (g : B -> C) (h : A -> nat -> C)
  (i : nat) (l : list A) :
  (forall x k, g (f x k) = h x k) ->
  List.map g (ListDetector.mapIndexed f i l) = ListDetector.mapIndexed h i l.
Proof.
  intros Hg. revert i. induction l as [|x l IH]; intros i; [reflexivity|].
  cbn [ListDetector.mapIndexed List.map]. rewrite Hg, IH. reflexivity.
Qed.

Lemma mapIndexed_numbers {A : Type} (d i : nat) (l : list A) :
  ListDetector.mapIndexed (fun _ k => (k + d)%nat) i l = seq (i + d) (length l).
Proof.
  revert i. induction l as [|x l IH]; intros i; [reflexivity|].
  cbn [ListDetector.mapIndexed length seq]. rewrite IH. reflexivity.
Qed.

Lemma mapIndexed_values {A C : Type} (h : A -> C) (i : nat) (l : list A) :
  ListDetector.mapIndexed (fun x _ => h x) i l = List.map h l.
Proof.
  revert i. induction l as [|x l IH]; intros i; [reflexivity|].
  cbn [ListDetector.mapIndexed List.map]. rewrite IH. reflexivity.
Qed.

(** Both list extractions keep the first [maxItems] children of the
    container, the first child included, number them 1, 2, ... in document
    order, and give each the cleaned text of the child, which has no white
    space at either end and single spaces inside. *)
Theorem list_items_numbered (resolve : string -> string) (listElement : Dom.Element)
  (config : ListDetector.ExtractConfig) :
  let kept := firstn (ListDetector.maxItems config) (Dom.children listElement) in
  let native := ListDetector.extractNativeList resolve listElement config in
  let other := ListDetector.extractDivList resolve listElement config in
  length kept = Nat.min (ListDetector.maxItems config) (length (Dom.children listElement))
  /\ List.map ListDetector.itemIndex native = seq 1 (length kept)
  /\ List.map ListDetector.divIndex other = seq 1 (length kept)
  /\ List.map ListDetector.itemText native = List.map ListDetector.cleanText kept
  /\ List.map ListDetector.divText other = List.map ListDetector.cleanText kept
  /\ Forall (fun text => Spec.tidy text = true) (List.map ListDetector.itemText native).
Proof.
  cbv zeta. unfold ListDetector.extractNativeList, ListDetector.extractDivList.
  rewrite slice_from_zero.
  set (kept := firstn (ListDetector.maxItems config) (Dom.children listElement)).
  assert (Htext : List.map ListDetector.itemText
                    (ListDetector.mapIndexed (ListDetector.nativeItem resolve config) 0 kept)
                  = List.map ListDetector.cleanText kept).
  { rewrite (mapIndexed_fields _ _ (fun x _ => ListDetector.cleanText x)) by reflexivity.
    apply mapIndexed_values. }
  split; [apply List.length_firstn|]. split; [|split; [|split; [|split]]].
  - rewrite (mapIndexed_fields _ _ (fun _ k => (k + 1)%nat)) by reflexivity.
    apply (mapIndexed_numbers 1 0).
  - rewrite (mapIndexed_fields _ _ (fun _ k => (k + 1)%nat)) by reflexivity.
    apply (mapIndexed_numbers 1 0).
  - exact Htext.
  - rewrite (mapIndexed_fields _ _ (fun x _ => ListDetector.cleanText x)) by reflexivity.
    apply mapIndexed_values.
  - rewrite Htext. apply List.Forall_forall. intros text Hin.
    apply in_map_iff in Hin. destruct Hin as (el & <- & _).
    unfold ListDetector.cleanText.
    destruct (tidyText_facts (Dom.textContent el)) as (_ & -> & Ht & _).
    exact Ht.
Qed.

Example stripedList_items :
  List.map (fun item => (ListDetector.itemIndex item, ListDetector.itemText item))
    (ListDetector.extractNativeList (fun v => v) Sample.stripedList
       (ListDetector.configOf (ListDetector.mkOptions None None None)))
  = [(1%nat, "Home"); (2%nat, "About")].
Proof. reflexivity. Qed.

(** ** Testing a selector *)

Lemma takeChars_length (n : nat) (s : string) : (String.length (Js.takeChars n s) <= n)%nat.
Proof.
  revert s. induction n as [|n IH]; intros s; [cbn; lia|].
  destruct s as [|c s]; cbn; [lia|]. specialize (IH s). lia.
Qed.

(** [testSelector] reports a failure exactly when the document rejects the
    selector, with the message of the rejection.  Otherwise [count] is the
    number of matched elements, the matches are numbered from 0 in document
    order, each [text] is the first 100 characters of the trimmed text of
    the element, and no [html] exceeds 200 characters. *)
Theorem testSelector_report (doc : Dom.Document) (selector : string) :
  match ContentController.testSelector doc selector with
  | ContentController.TestOk matches count reported =>
      exists elements,
        Dom.selectAll doc selector = Js.Ok elements
        /\ reported = selector
        /\ count = length elements
        /\ length matches = count
        /\ List.map ContentController.matchIndex matches = seq 0 count
        /\ Forall (fun m => (String.length (ContentController.matchText m) <= 100)%nat
                            /\ (String.length (ContentController.matchHtml m) <= 200)%nat)
             matches
        /\ List.map ContentController.matchText matches
           = List.map (fun el => Js.takeChars 100 (Js.trim (Dom.textContent el))) elements
  | ContentController.TestFailed error reported =>
      Dom.selectAll doc selector = Js.Throw error /\ reported = selector
  end.
Proof.
  unfold ContentController.testSelector.
  destruct (Dom.selectAll doc selector) as [elements|message]; [|split; reflexivity].
  cbv zeta. exists elements. rewrite mapIndexed_length.
  split; [reflexivity|]. split; [reflexivity|]. split; [reflexivity|].
  split; [reflexivity|]. split; [|split].
  - rewrite (mapIndexed_fields _ _ (fun _ k => (k + 0)%nat)).
    + apply (mapIndexed_numbers 0 0).
    + intros x k. cbn. lia.
  - apply List.Forall_forall. intros m Hm.
    assert (Hd : exists el k, m = ContentController.describe el k).
    { clear - Hm. generalize dependent 0%nat. induction elements as [|e l IH]; intros i Hm.
      - destruct Hm.
      - destruct Hm as [<-|Hm]; [exists e, i; reflexivity | exact (IH _ Hm)]. }
    destruct Hd as (el & k & ->). split; apply takeChars_length.
  - rewrite (mapIndexed_fields _ _
               (fun el _ => Js.takeChars 100 (Js.trim (Dom.textContent el)))) by reflexivity.
    apply mapIndexed_values.
Qed.

Example testSelector_samples :
  ContentController.testSelector Sample.stockDocument "table["
  = ContentController.TestFailed "'table[' is not a valid selector" "table["
  /\ (exists matches, ContentController.testSelector Sample.stockDocument "td"
                      = ContentController.TestOk matches 15 "td").
Proof. split; [reflexivity|]. eexists. reflexivity. Qed.

(** ** Product extraction of the scanner *)

Lemma uniqueNodes_uniqueById (seen : list nat) (l : list Dom.Element) :
  DOMScanner.uniqueNodes seen l = Dom.uniqueById seen l.
Proof.
  revert seen. induction l as [|e l IH]; intros seen; [reflexivity|].
  cbn [DOMScanner.uniqueNodes Dom.uniqueById]. rewrite !IH. reflexivity.
Qed.

Lemma filter_NoDup_ids (p : Dom.Element -> bool) (l : list Dom.Element) :
  List.NoDup (List.map Dom.nodeId l) ->
  List.NoDup (List.map Dom.nodeId (List.filter p l)).
Proof.
  induction l as [|e l IH]; intros H; [exact H|].
  cbn [List.map] in H. apply List.NoDup_cons_iff in H. destruct H as [Hnot Hl].
  cbn [List.filter]. destruct (p e); [|exact (IH Hl)].
  cbn [List.map]. apply List.NoDup_cons; [|exact (IH Hl)].
  intros Hin. apply Hnot. apply in_map_iff in Hin. destruct Hin as (x & Hid & Hx).
  apply filter_In in Hx. apply in_map_iff. exists x. split; [exact Hid | apply Hx].
Qed.

(** [gathered doc selectors]: the nodes that the selectors of the request
    select, without those of a selector that the document rejects *)
Lemma gathered_spec (doc : Dom.Document) (selectors : list string) (el : Dom.Element) :
  In el (flat_map (fun selector =>
                     match Dom.selectAll doc selector with
                     | Js.Ok elements => elements
                     | Js.Throw _ => []
                     end) selectors)
  <-> exists selector elements,
        In selector selectors
        /\ Dom.selectAll doc selector = Js.Ok elements
        /\ In el elements.
Proof.
  rewrite in_flat_map. split.
  - intros (selector & Hs & Hel).
    destruct (Dom.selectAll doc selector) as [elements|message] eqn:E; [|destruct Hel].
    exists selector, elements. split; [exact Hs|]. split; [exact E | exact Hel].
  - intros (selector & elements & Hs & E & Hel). exists selector.
    split; [exact Hs|]. rewrite E. exact Hel.
Qed.

(** On a page whose nodes are told apart by their identity,
    [extractProducts] returns no node twice; every product it returns
    passes [isLikelyProduct] and was selected by a selector of the request
    that the document accepts; and every such node that passes the test is
    among the products.  A selector that the document rejects contributes
    nothing and stops nothing. *)
Theorem extractProducts_result (doc : Dom.Document) (config : Config)
  (Hids : forall a b selector1 selector2 elements1 elements2,
      Dom.selectAll doc selector1 = Js.Ok elements1 -> In a elements1 ->
      Dom.selectAll doc selector2 = Js.Ok elements2 -> In b elements2 ->
      Dom.nodeId a = Dom.nodeId b -> a = b) :
  let selectors := match selectors config with
                   | Some l => l
                   | None => DOMScanner.productPatterns
                   end in
  let out := DOMScanner.extractProducts doc config in
  let Selected el := exists selector elements,
                       In selector selectors
                       /\ Dom.selectAll doc selector = Js.Ok elements
                       /\ In el elements in
  List.NoDup (List.map (fun p => Dom.nodeId (DOMScanner.productElement p)) out)
  /\ Forall (fun p => DOMScanner.isLikelyProduct (DOMScanner.productElement p) = true
                      /\ Selected (DOMScanner.productElement p)
                      /\ p = DOMScanner.extractProductData (DOMScanner.productElement p)) out
  /\ (forall el, Selected el -> DOMScanner.isLikelyProduct el = true ->
                 In (DOMScanner.extractProductData el) out).
Proof.
  cbv zeta. unfold DOMScanner.extractProducts.
  set (selectors := match selectors config with
                    | Some l => l
                    | None => DOMScanner.productPatterns
                    end).
  set (all := flat_map _ selectors). rewrite uniqueNodes_uniqueById.
  split; [|split].
  - rewrite List.map_map. cbn [DOMScanner.productElement DOMScanner.extractProductData].
    apply filter_NoDup_ids, uniqueById_NoDup.
  - apply List.Forall_forall. intros p Hp. apply in_map_iff in Hp.
    destruct Hp as (el & <- & Hel). apply filter_In in Hel. destruct Hel as [Hel Hlikely].
    cbn [DOMScanner.productElement DOMScanner.extractProductData].
    split; [exact Hlikely|]. split; [|reflexivity].
    apply uniqueById_incl in Hel. apply (gathered_spec doc selectors el). exact Hel.
  - intros el Hsel Hlikely. pose proof Hsel as (s1 & els1 & _ & E1 & Hin1).
    apply (gathered_spec doc selectors el) in Hsel.
    destruct (uniqueById_covers [] all el Hsel) as (y & Hy & Hid); [intros []|].
    assert (Hsame : y = el).
    { pose proof (uniqueById_incl [] all y Hy) as Hyall.
      apply (gathered_spec doc selectors y) in Hyall.
      destruct Hyall as (s2 & els2 & _ & E2 & Hin2).
      exact (Hids y el s2 s1 els2 els1 E2 Hin2 E1 Hin1 Hid). }
    subst y. apply in_map. apply filter_In. split; [exact Hy | exact Hlikely].
Qed.

Lemma extractProducts_result_witness :
  In (DOMScanner.extractProductData (Sample.productCard 20))
     (DOMScanner.extractProducts Sample.shopDocument
        (mkConfig "products" (Some [".tile"; "div["; ".box"]) None)).
Proof.
  assert (Hids : forall a b selector1 selector2 elements1 elements2,
             Dom.selectAll Sample.shopDocument selector1 = Js.Ok elements1 -> In a elements1 ->
             Dom.selectAll Sample.shopDocument selector2 = Js.Ok elements2 -> In b elements2 ->
             Dom.nodeId a = Dom.nodeId b -> a = b).
  { intros a b s1 s2 els1 els2 E1 Ha E2 Hb Hid.
    assert (Hall : forall s els x, Dom.selectAll Sample.shopDocument s = Js.Ok els -> In x els ->
                     In x [Sample.cardGrid 3; Sample.productCard 10; Sample.productCard 20;
                           Sample.productCard 30; Sample.signupBox 90]).
    { intros s els x E Hx. cbn [Dom.selectAll Sample.shopDocument] in E.
      destruct (String.eqb s ".tile");
        [injection E as <-; vm_compute in Hx |- *; tauto|].
      destruct (String.eqb s "div");
        [injection E as <-; vm_compute in Hx |- *; tauto|].
      destruct (String.eqb s ".box");
        [injection E as <-; vm_compute in Hx |- *; tauto|].
      destruct (String.eqb s "div["); [discriminate|].
      injection E as <-. destruct Hx. }
    pose proof (Hall _ _ _ E1 Ha) as Ha'. pose proof (Hall _ _ _ E2 Hb) as Hb'.
    cbn [In] in Ha', Hb'.
    destruct Ha' as [<-|[<-|[<-|[<-|[<-|[]]]]]];
      destruct Hb' as [<-|[<-|[<-|[<-|[<-|[]]]]]];
      first [reflexivity | vm_compute in Hid; discriminate]. }
  pose proof (extractProducts_result Sample.shopDocument
                (mkConfig "products" (Some [".tile"; "div["; ".box"]) None) Hids) as H.
  cbv zeta in H. destruct H as (_ & _ & H). apply (H (Sample.productCard 20)).
  - exists ".tile", Sample.shopCards. split; [left; reflexivity|].
    split; [reflexivity|]. vm_compute. tauto.
  - vm_compute. reflexivity.
Defined.

Example shop_products :
  List.map (fun p => (DOMScanner.title p, DOMScanner.price p))
    (DOMScanner.extractProducts Sample.shopDocument
       (mkConfig "products" (Some [".tile"; "div["; ".box"; "div"]) None))
  = [("Widget", EmptyString); ("Widget", EmptyString); ("Widget", EmptyString);
     ("Widget", EmptyString)].
Proof. vm_compute. reflexivity. Qed.

(** ** The price test *)

Lemma anyChar_app (p : ascii -> bool) (a b : string) :
  Spec.anyChar p (a ++ b)%string = (Spec.anyChar p a || Spec.anyChar p b)%bool.
Proof.
  induction a as [|c a IH]; [reflexivity|].
  change (String c a ++ b)%string with (String c (a ++ b)%string).
  cbn [Spec.anyChar]. rewrite IH. apply orb_assoc.
Qed.

Lemma lit_spec (w s s' : string) : In s' (Re.lit w s) -> s = (w ++ s')%string.
Proof.
  revert s. induction w as [|a w IH]; intros s H.
  - destruct s; cbn in H; destruct H as [<-|[]]; reflexivity.
  - destruct s as [|b s]; [destruct H|]. cbn [Re.lit] in H.
    destruct (Ascii.eqb a b) eqn:E; [|destruct H].
    apply Ascii.eqb_eq in E. subst b.
    change (String a w ++ s')%string with (String a (w ++ s')%string).
    rewrite <- (IH s H). reflexivity.
Qed.

Lemma lit_self (w s : string) : Re.lit w (w ++ s)%string = [s].
Proof.
  induction w as [|a w IH]; [destruct s; reflexivity|].
  change (String a w ++ s)%string with (String a (w ++ s)%string).
  cbn [Re.lit]. rewrite Ascii.eqb_refl. exact IH.
Qed.

Lemma seq_nonempty (r1 r2 : Re.Pattern) (s : string) :
  Re.seq r1 r2 s <> [] -> exists s', In s' (r1 s) /\ r2 s' <> [].
Proof.
  unfold Re.seq. induction (r1 s) as [|x l IH]; cbn [flat_map]; [congruence|].
  intros H. destruct (r2 x) eqn:E.
  - destruct (IH H) as (s' & Hin & Hs'). exists s'. split; [right; exact Hin | exact Hs'].
  - exists x. split; [left; reflexivity | congruence].
Qed.

Lemma plusCls_head (p : ascii -> bool) (s : string) :
  Re.plusCls p s <> [] -> exists c t, s = String c t /\ p c = true.
Proof.
  destruct s as [|c t]; cbn [Re.plusCls]; [congruence|].
  destruct (p c) eqn:E; [|congruence]. intros _. exists c, t. split; reflexivity || exact E.
Qed.

Lemma matchesAt_nonempty (r : Re.Pattern) (s : string) :
  Re.matchesAt r s = true -> r s <> [].
Proof. unfold Re.matchesAt. destruct (r s); [discriminate | congruence]. Qed.

Lemma test_needs (r : Re.Pattern) (p : ascii -> bool) :
  (forall s, Re.matchesAt r s = true -> Spec.anyChar p s = true) ->
  forall s, Re.test r s = true -> Spec.anyChar p s = true.
Proof.
  intros Hr s. induction s as [|c s IH]; cbn [Re.test]; intros H.
  - rewrite orb_false_r in H. exact (Hr _ H).
  - apply orb_true_iff in H. destruct H as [H|H]; [exact (Hr _ H)|].
    cbn [Spec.anyChar]. rewrite (IH H). apply orb_true_r.
Qed.

Lemma symbolPrice_needs (symbol s : string) :
  Re.matchesAt (ProductDetector.symbolPrice symbol) s = true ->
  Spec.anyChar ProductDetector.digitOrComma s = true.
Proof.
  intros H. apply matchesAt_nonempty in H. unfold ProductDetector.symbolPrice in H.
  apply seq_nonempty in H. destruct H as (s1 & Hlit & H).
  apply seq_nonempty in H. destruct H as (s2 & Hplus & _).
  assert (Hne : Re.plusCls ProductDetector.digitOrComma s1 <> []).
  { intros E. rewrite E in Hplus. destruct Hplus. }
  destruct (plusCls_head _ _ Hne) as (c & t & -> & Hc).
  rewrite (lit_spec _ _ _ Hlit), anyChar_app. cbn [Spec.anyChar]. rewrite Hc.
  apply orb_true_r.
Qed.

Lemma codePrice_needs (s : string) :
  Re.matchesAt ProductDetector.codePrice s = true ->
  Spec.anyChar ProductDetector.digitOrComma s = true.
Proof.
  intros H. apply matchesAt_nonempty in H. unfold ProductDetector.codePrice in H.
  apply seq_nonempty in H. destruct H as (s1 & Hplus & _).
  assert (Hne : Re.plusCls ProductDetector.digitOrComma s <> []).
  { intros E. rewrite E in Hplus. destruct Hplus. }
  destruct (plusCls_head _ _ Hne) as (c & t & -> & Hc).
  cbn [Spec.anyChar]. rewrite Hc. reflexivity.
Qed.

(** The price test looks at one character after a currency sign.  A text
    in which one of the signs [$], euro, pound, yen is followed by a digit
    or by a comma holds a price, whatever follows; and a text without any
    digit and without any comma holds none. *)
Theorem containsPrice_digit_or_comma (text : string) :
  (ProductDetector.containsPrice text = true ->
   Spec.anyChar ProductDetector.digitOrComma text = true)
  /\ (forall pre symbol c rest,
        In symbol ["$"; ProductDetector.euro; ProductDetector.pound; ProductDetector.yen] ->
        ProductDetector.digitOrComma c = true ->
        text = (pre ++ symbol ++ String c rest)%string ->
        ProductDetector.containsPrice text = true).
Proof.
  split.
  - unfold ProductDetector.containsPrice. destruct text as [|c0 t0]; [discriminate|].
    intros H. apply existsb_exists in H. destruct H as (pattern & Hin & Htest).
    revert Htest. apply test_needs. intros s.
    unfold ProductDetector.PRICE_PATTERNS in Hin. cbn [In] in Hin.
    destruct Hin as [<-|[<-|[<-|[<-|[<-|[]]]]]];
      first [apply symbolPrice_needs | apply codePrice_needs].
  - intros pre symbol c rest Hsym Hc ->. unfold ProductDetector.containsPrice.
    assert (Hlen : exists a t, (pre ++ symbol ++ String c rest)%string = String a t).
    { destruct pre as [|a pre]; [|cbn; eauto].
      cbn [In] in Hsym. destruct Hsym as [<-|[<-|[<-|[<-|[]]]]]; cbn; eauto. }
    destruct Hlen as (a & t & E). rewrite E. rewrite <- E. clear a t E.
    apply existsb_exists. exists (ProductDetector.symbolPrice symbol). split.
    + unfold ProductDetector.PRICE_PATTERNS. cbn [In] in Hsym |- *.
      destruct Hsym as [<-|[<-|[<-|[<-|[]]]]]; tauto.
    + apply test_suffix.
      assert (Hm : Re.matchesAt (ProductDetector.symbolPrice symbol)
                     (symbol ++ String c rest)%string = true).
      { unfold Re.matchesAt, ProductDetector.symbolPrice, Re.seq at 1.
        rewrite lit_self. cbn [flat_map]. rewrite app_nil_r.
        unfold Re.seq. cbn [Re.plusCls]. rewrite Hc.
        destruct (flat_map ProductDetector.cents
                    (Re.plusCls ProductDetector.digitOrComma rest ++ [rest])) eqn:E;
          [|reflexivity].
        exfalso. revert E. apply flat_map_last_some, cents_some. }
      destruct (symbol ++ String c rest)%string; cbn [Re.test]; rewrite Hm; reflexivity.
Qed.

Lemma containsPrice_digit_or_comma_witness :
  ProductDetector.containsPrice "Save $, today" = true
  /\ Spec.anyChar ProductDetector.digitOrComma "Save $, today" = true.
Proof.
  destruct (containsPrice_digit_or_comma "Save $, today") as [Hneeds Hholds].
  assert (H : ProductDetector.containsPrice "Save $, today" = true).
  { apply (Hholds "Save " "$" ","%char " today"); [left; reflexivity | reflexivity..]. }
  split; [exact H | exact (Hneeds H)].
Defined.

(** ** Ties in a scoring pass *)

Lemma insertSorted_ties {A : Type} (key : A -> Q) (v : Q) (x : A) (l : list A) :
  List.filter (fun c => Qeq_bool (key c) v) (Js.insertSorted (Spec.byKeyDesc key) x l)
  = List.filter (fun c => Qeq_bool (key c) v) (x :: l).
Proof.
  induction l as [|y l IH]; [reflexivity|].
  cbn [Js.insertSorted]. destruct (Qle_bool (Spec.byKeyDesc key x y) 0) eqn:E; [reflexivity|].
  cbn [List.filter] in IH |- *. rewrite IH.
  destruct (Qeq_bool (key x) v) eqn:Ex; destruct (Qeq_bool (key y) v) eqn:Ey; try reflexivity.
  exfalso. apply Qeq_bool_iff in Ex. apply Qeq_bool_iff in Ey.
  assert (Hle : Qle_bool (Spec.byKeyDesc key x y) 0 = true); [|congruence].
  apply Qle_bool_iff. unfold Spec.byKeyDesc. lra.
Qed.

Lemma sort_ties {A : Type} (key : A -> Q) (v : Q) (l : list A) :
  List.filter (fun c => Qeq_bool (key c) v) (Js.sort (Spec.byKeyDesc key) l)
  = List.filter (fun c => Qeq_bool (key c) v) l.
Proof.
  induction l as [|x l IH]; [reflexivity|].
  cbn [Js.sort]. rewrite insertSorted_ties. cbn [List.filter]. rewrite IH. reflexivity.
Qed.

Lemma keepAndRank_ties {M : Type} (threshold v : Q) (l : list (Candidate M)) :
  Permutation (keepAndRank threshold l) (Spec.reaching threshold l)
  /\ Spec.withScore v (keepAndRank threshold l)
     = Spec.withScore v (Spec.reaching threshold l).
Proof.
  split; [apply (keepAndRank_spec M threshold l)|].
  unfold Spec.withScore, keepAndRank. apply (sort_ties score).
Qed.

(** A scoring pass loses and invents nothing: what it returns is a
    rearrangement of the candidates that reach the threshold.  Candidates
    of equal score stay in the order in which they were nominated, the
    sort being stable. *)
Theorem scoring_pass_keeps_ties_in_order (tables lists containers : list Dom.Element) (v : Q) :
  (Permutation (TableDetector.scoreTables tables)
     (Spec.reaching 0.6 (List.map TableDetector.scoreTable tables))
   /\ Spec.withScore v (TableDetector.scoreTables tables)
      = Spec.withScore v (Spec.reaching 0.6 (List.map TableDetector.scoreTable tables)))
  /\ (Permutation (ListDetector.scoreLists lists)
        (Spec.reaching 0.5 (List.map ListDetector.scoreList lists))
      /\ Spec.withScore v (ListDetector.scoreLists lists)
         = Spec.withScore v (Spec.reaching 0.5 (List.map ListDetector.scoreList lists)))
  /\ (Permutation (ProductDetector.scoreContainers containers)
        (Spec.reaching 0.6 (List.map ProductDetector.scoreContainer containers))
      /\ Spec.withScore v (ProductDetector.scoreContainers containers)
         = Spec.withScore v
             (Spec.reaching 0.6 (List.map ProductDetector.scoreContainer containers))).
Proof.
  split; [|split]; apply keepAndRank_ties.
Qed.

(** ** The modes of a scrape *)

(** [scrape] answers with an error value exactly for the modes 'table',
    'list' and 'custom', whose methods the class does not define.  In every
    other case it answers with data: the table detection for 'auto', the
    products for 'products', null for any other mode; and the element count
    of the metadata is the number of products for 'products' and 0
    otherwise, also when the detection holds tables. *)
Theorem scrape_outcome_by_mode (doc : Dom.Document) (env : DOMScanner.Env) (config : Config) :
  match DOMScanner.scrape doc env config with
  | DOMScanner.ScrapeError message =>
      Spec.missingMode (mode config) = true
      /\ exists method, message = DOMScanner.notAFunction method
  | DOMScanner.Scraped results metadata =>
      Spec.missingMode (mode config) = false
      /\ DOMScanner.processingTime metadata
         = (DOMScanner.endTime env - DOMScanner.startTime env)%Q
      /\ match results with
         | DOMScanner.RDetection d =>
             mode config = "auto" /\ d = DOMScanner.detectTables doc
             /\ DOMScanner.elementCount metadata = 0%nat
         | DOMScanner.RProducts l =>
             mode config = "products" /\ l = DOMScanner.extractProducts doc config
             /\ DOMScanner.elementCount metadata = length l
         | DOMScanner.RNull =>
             mode config <> "auto" /\ mode config <> "products"
             /\ DOMScanner.elementCount metadata = 0%nat
         end
  end.
Proof.
  unfold DOMScanner.scrape, DOMScanner.dispatch, Spec.missingMode. cbv zeta.
  destruct (String.eqb (mode config) "auto") eqn:Ea.
  { apply String.eqb_eq in Ea. rewrite Ea. cbn. repeat split; reflexivity. }
  destruct (String.eqb (mode config) "table") eqn:Et.
  { cbn. split; [reflexivity|]. eexists. reflexivity. }
  destruct (String.eqb (mode config) "list") eqn:El.
  { cbn. split; [reflexivity|]. eexists. reflexivity. }
  destruct (String.eqb (mode config) "products") eqn:Ep.
  { apply String.eqb_eq in Ep. rewrite Ep. cbn. repeat split; reflexivity. }
  destruct (String.eqb (mode config) "custom") eqn:Ec.
  { cbn. split; [reflexivity|]. eexists. reflexivity. }
  apply String.eqb_neq in Ea. apply String.eqb_neq in Ep.
  cbn. repeat split; assumption.
Qed.

Example scrape_samples :
  DOMScanner.scrape Sample.stockDocument Sample.samplePage (mkConfig "table" None None)
  = DOMScanner.ScrapeError "this.extractTables is not a function"
  /\ DOMScanner.scrape Sample.stockDocument Sample.samplePage (mkConfig "lists" None None)
     = DOMScanner.Scraped DOMScanner.RNull
         (DOMScanner.mkScrapeMetadata "https://shop.example/stock"
            "2024-05-01T10:00:00.000Z" (1004 - 1000) 0)
  /\ (exists d metadata,
        DOMScanner.scrape Sample.stockDocument Sample.samplePage (mkConfig "auto" None None)
        = DOMScanner.Scraped (DOMScanner.RDetection d) metadata
        /\ length (DOMScanner.data d) = 1%nat
        /\ DOMScanner.elementCount metadata = 0%nat).
Proof.
  split; [reflexivity|]. split; [reflexivity|].
  eexists. eexists. split; [reflexivity|]. split; reflexivity.
Qed.

(** ** Selectors that the rankers keep *)

Lemma topFive_all_positive (l : list Selector.Ranked) :
  Forall (fun r => (0 < Selector.score r)%Q) l ->
  length (Selector.topFive l) = Nat.min 5 (length l)
  /\ ((length l <= 5)%nat -> Permutation (Selector.topFive l) l).
Proof.
  intros Hpos.
  assert (Hkeep : List.filter (fun s => negb (Qle_bool (Selector.score s) 0)) l = l).
  { induction Hpos as [|r l Hr _ IH]; [reflexivity|].
    cbn [List.filter]. rewrite IH.
    destruct (Qle_bool (Selector.score r) 0) eqn:E; [|reflexivity].
    apply Qle_bool_iff in E. lra. }
  unfold Selector.topFive. rewrite Hkeep, slice_from_zero.
  pose proof (sort_perm Selector.score l) as Hperm.
  change (Spec.byKeyDesc Selector.score)
    with (fun a b : Selector.Ranked => (Selector.score b - Selector.score a)%Q) in Hperm.
  split.
  - rewrite List.length_firstn, (Permutation_length Hperm). reflexivity.
  - intros Hfew. rewrite List.firstn_all2; [exact Hperm|].
    rewrite (Permutation_length Hperm). exact Hfew.
Qed.

Lemma len_short (selector : string) (n : nat) :
  (String.length selector < n)%nat ->
  (inject_Z (Js.len selector) < inject_Z (Z.of_nat n))%Q.
Proof. intros H. unfold Js.len. rewrite <- Zlt_Qlt. lia. Qed.

Lemma table_rank_positive (doc : Dom.Document) (target : Dom.Element) (selector : string)
  (elements : list Dom.Element) :
  Dom.selectAll doc selector = Js.Ok elements -> (String.length selector < 100)%nat ->
  (0 < Selector.score (TableDetector.rankSelector doc target selector))%Q.
Proof.
  intros E Hshort. apply (len_short selector 100) in Hshort.
  change (inject_Z (Z.of_nat 100)) with 100%Q in Hshort.
  unfold TableDetector.rankSelector. rewrite E. cbv zeta. cbn [Selector.score].
  set (L := inject_Z (Js.len selector)) in *.
  set (m := Qmax 0 (5 - inject_Z (Z.of_nat (length elements)))).
  assert (Hm : (0 <= m)%Q) by apply Q.le_max_l.
  unfold bump, Qdiv. change (/ 100)%Q with (1 # 100)%Q. change (/ 5)%Q with (1 # 5)%Q.
  destruct (Selector.firstIs elements target), (Js.startsWith selector "#"),
    (Selector.classOnly selector);
    try destruct ((1 <=? Selector.classCount selector)%nat
                  && (Selector.classCount selector <=? 3)%nat)%bool;
    lra.
Qed.

Lemma list_rank_positive (doc : Dom.Document) (target : Dom.Element) (selector : string)
  (elements : list Dom.Element) :
  Dom.selectAll doc selector = Js.Ok elements -> (String.length selector < 100)%nat ->
  (0 < Selector.score (ListDetector.rankSelector doc target selector))%Q.
Proof.
  intros E Hshort. apply (len_short selector 100) in Hshort.
  change (inject_Z (Z.of_nat 100)) with 100%Q in Hshort.
  unfold ListDetector.rankSelector. rewrite E. cbv zeta. cbn [Selector.score].
  set (L := inject_Z (Js.len selector)) in *.
  set (m := Qmax 0 (10 - inject_Z (Z.of_nat (length elements)))).
  assert (Hm : (0 <= m)%Q) by apply Q.le_max_l.
  unfold bump, Qdiv. change (/ 100)%Q with (1 # 100)%Q. change (/ 10)%Q with (1 # 10)%Q.
  destruct (Selector.firstIs elements target), (Js.startsWith selector "#"),
    (Selector.classOnly selector);
    try (destruct (Nat.eqb (Selector.classCount selector) 1);
         [|destruct (Nat.eqb (Selector.classCount selector) 2);
           [|destruct (Nat.eqb (Selector.classCount selector) 3)]]);
    lra.
Qed.

Lemma product_rank_positive (doc : Dom.Document) (target : Dom.Element) (selector : string)
  (elements : list Dom.Element) :
  Dom.selectAll doc selector = Js.Ok elements -> (String.length selector < 150)%nat ->
  (0 < Selector.score (ProductDetector.rankProductSelector doc target selector))%Q.
Proof.
  intros E Hshort. apply (len_short selector 150) in Hshort.
  change (inject_Z (Z.of_nat 150)) with 150%Q in Hshort.
  unfold ProductDetector.rankProductSelector. rewrite E. cbv zeta. cbn [Selector.score].
  set (L := inject_Z (Js.len selector)) in *.
  set (m := Qmax 0 ((20 - inject_Z (Z.of_nat (length elements))) / 20)).
  assert (Hm : (0 <= m)%Q) by apply Q.le_max_l.
  match goal with |- (0 < Qmax 0 ?s)%Q => assert (Hs : (0 < s)%Q) end.
  { unfold bump, Qdiv. change (/ 150)%Q with (1 # 150)%Q.
    destruct (Selector.firstIs elements target), (Js.startsWith selector "#"),
      (Js.includes selector " > "), (Js.includes selector "["),
      (Nat.eqb (length elements) 1), (length elements <=? 3)%nat,
      (length elements <=? 10)%nat, (Selector.classOnly selector);
      try (destruct (Nat.eqb (Selector.classCount selector) 1);
           [|destruct (Nat.eqb (Selector.classCount selector) 2);
             [|destruct (Nat.eqb (Selector.classCount selector) 3)]]);
      lra. }
  eapply Qlt_le_trans; [exact Hs | apply Q.le_max_r].
Qed.

Lemma ranker_keeps (doc : Dom.Document) (rank : string -> Selector.Ranked)
  (selectors : list string) :
  Forall (fun selector => (0 < Selector.score (rank selector))%Q) selectors ->
  length (Selector.topFive (List.map rank selectors)) = Nat.min 5 (length selectors)
  /\ ((length selectors <= 5)%nat ->
      Permutation (Selector.topFive (List.map rank selectors)) (List.map rank selectors)).
Proof.
  intros Hpos.
  destruct (topFive_all_positive (List.map rank selectors)) as [Hlen Hperm].
  - apply List.Forall_forall. intros r Hr. apply in_map_iff in Hr.
    destruct Hr as (selector & <- & Hin).
    rewrite List.Forall_forall in Hpos. exact (Hpos _ Hin).
  - rewrite List.length_map in Hlen, Hperm. split; assumption.
Qed.

(** A selector that the document accepts and that is shorter than 100
    characters gets a score above 0 from each ranker, whatever it selects.
    So from a pool of such selectors each ranker returns five, or all of
    them when the pool holds five at most: none is dropped. *)
Theorem short_valid_selectors_kept (doc : Dom.Document) (target : Dom.Element)
  (selectors : list string)
  (Hvalid : Forall (fun selector => exists elements,
                      Dom.selectAll doc selector = Js.Ok elements) selectors)
  (Hshort : Forall (fun selector => (String.length selector < 100)%nat) selectors) :
  let kept out ranked :=
    length out = Nat.min 5 (length selectors)
    /\ ((length selectors <= 5)%nat -> Permutation out ranked) in
  kept (TableDetector.rankSelectors doc selectors target)
    (List.map (TableDetector.rankSelector doc target) selectors)
  /\ kept (ListDetector.rankSelectors doc selectors target)
       (List.map (ListDetector.rankSelector doc target) selectors)
  /\ kept (ProductDetector.rankProductSelectors doc selectors target)
       (List.map (ProductDetector.rankProductSelector doc target) selectors).
Proof.
  cbv zeta.
  assert (Hboth : Forall (fun selector =>
                    (exists elements, Dom.selectAll doc selector = Js.Ok elements)
                    /\ (String.length selector < 100)%nat) selectors).
  { apply List.Forall_forall. intros selector Hin.
    rewrite List.Forall_forall in Hvalid, Hshort. split; [apply Hvalid | apply Hshort]; exact Hin. }
  unfold TableDetector.rankSelectors, ListDetector.rankSelectors,
    ProductDetector.rankProductSelectors.
  split; [|split]; apply (ranker_keeps doc);
    (eapply List.Forall_impl; [|exact Hboth]); intros selector [[elements E] Hlen].
  - exact (table_rank_positive doc target selector elements E Hlen).
  - exact (list_rank_positive doc target selector elements E Hlen).
  - apply (product_rank_positive doc target selector elements E). lia.
Qed.

Lemma short_valid_selectors_kept_witness :
  length (TableDetector.rankSelectors Sample.stockDocument ["table"; "td"; ".grid"; "tr"]
            Sample.stockTable) = 4%nat.
Proof.
  refine (proj1 (proj1 (short_valid_selectors_kept Sample.stockDocument Sample.stockTable
                          ["table"; "td"; ".grid"; "tr"] _ _))).
  - repeat constructor; eexists; reflexivity.
  - repeat constructor; cbn; lia.
Defined.

(** ** The element picker *)

Lemma unregistered (type : string) (f : ElementPicker.Bound)
  (l : list ElementPicker.Registered) :
  Forall (fun r => (ElementPicker.functionId (ElementPicker.callback r)
                    < ElementPicker.functionId f)%nat) l ->
  existsb (ElementPicker.sameListener type f) l = false
  /\ List.filter (fun r => negb (ElementPicker.sameListener type f r)) l = l.
Proof.
  induction 1 as [|r l Hr _ [IH1 IH2]]; [split; reflexivity|].
  assert (E : ElementPicker.sameListener type f r = false).
  { unfold ElementPicker.sameListener. apply andb_false_iff. right.
    apply Nat.eqb_neq. lia. }
  cbn [existsb List.filter]. rewrite E, IH1, IH2. split; reflexivity.
Qed.

Lemma listen_fresh (type : string) (h : ElementPicker.Handler) (st : ElementPicker.State) :
  Spec.freshIds st ->
  ElementPicker.listen type h st
  = ElementPicker.mkState (ElementPicker.isPicking st) (ElementPicker.highlightedElement st)
      (ElementPicker.infoBox st)
      (ElementPicker.listeners st
       ++ [ElementPicker.mkRegistered type (ElementPicker.mkBound (ElementPicker.allocated st) h)])
      (ElementPicker.styleElements st) (S (ElementPicker.allocated st))
  /\ Spec.freshIds (ElementPicker.listen type h st).
Proof.
  intros Hfresh. unfold ElementPicker.listen, ElementPicker.bind, ElementPicker.addEventListener.
  cbn [ElementPicker.listeners ElementPicker.isPicking ElementPicker.highlightedElement
       ElementPicker.infoBox ElementPicker.styleElements ElementPicker.allocated].
  rewrite (proj1 (unregistered type (ElementPicker.mkBound (ElementPicker.allocated st) h)
                    (ElementPicker.listeners st) Hfresh)).
  split; [reflexivity|].
  unfold Spec.freshIds. cbn [ElementPicker.listeners ElementPicker.allocated].
  apply Forall_app. split.
  - eapply List.Forall_impl; [|exact Hfresh]. cbn. intros r Hr. lia.
  - constructor; [cbn; lia | constructor].
Qed.

Lemma unlisten_fresh (type : string) (h : ElementPicker.Handler) (st : ElementPicker.State) :
  Spec.freshIds st ->
  ElementPicker.unlisten type h st
  = ElementPicker.mkState (ElementPicker.isPicking st) (ElementPicker.highlightedElement st)
      (ElementPicker.infoBox st) (ElementPicker.listeners st)
      (ElementPicker.styleElements st) (S (ElementPicker.allocated st))
  /\ Spec.freshIds (ElementPicker.unlisten type h st).
Proof.
  intros Hfresh.
  unfold ElementPicker.unlisten, ElementPicker.bind, ElementPicker.removeEventListener.
  cbn [ElementPicker.listeners ElementPicker.isPicking ElementPicker.highlightedElement
       ElementPicker.infoBox ElementPicker.styleElements ElementPicker.allocated].
  rewrite (proj2 (unregistered type (ElementPicker.mkBound (ElementPicker.allocated st) h)
                    (ElementPicker.listeners st) Hfresh)).
  split; [reflexivity|].
  unfold Spec.freshIds. cbn [ElementPicker.listeners ElementPicker.allocated].
  eapply List.Forall_impl; [|exact Hfresh]. cbn. intros r Hr. lia.
Qed.

Lemma start_idle (st : ElementPicker.State) :
  Spec.freshIds st -> ElementPicker.isPicking st = false ->
  ElementPicker.listeners (ElementPicker.start st)
  = ElementPicker.listeners st
    ++ [ElementPicker.mkRegistered "mouseover"
          (ElementPicker.mkBound (ElementPicker.allocated st) ElementPicker.HandleMouseOver);
        ElementPicker.mkRegistered "click"
          (ElementPicker.mkBound (S (ElementPicker.allocated st)) ElementPicker.HandleClick);
        ElementPicker.mkRegistered "keydown"
          (ElementPicker.mkBound (S (S (ElementPicker.allocated st)))
             ElementPicker.HandleKeydown)]
  /\ ElementPicker.styleElements (ElementPicker.start st) = S (ElementPicker.styleElements st)
  /\ ElementPicker.isPicking (ElementPicker.start st) = true
  /\ Spec.freshIds (ElementPicker.start st).
Proof.
  intros Hfresh Hidle. unfold ElementPicker.start. rewrite Hidle. cbv zeta.
  set (st0 := ElementPicker.addPickerStyles (ElementPicker.setPicking true st)).
  assert (H0 : Spec.freshIds st0) by exact Hfresh.
  destruct (listen_fresh "mouseover" ElementPicker.HandleMouseOver st0 H0) as [E1 H1].
  destruct (listen_fresh "click" ElementPicker.HandleClick _ H1) as [E2 H2].
  destruct (listen_fresh "keydown" ElementPicker.HandleKeydown _ H2) as [E3 H3].
  split; [|split; [|split]]; [| | |exact H3].
  - rewrite E3, E2, E1. cbn. rewrite <- !app_assoc. reflexivity.
  - rewrite E3, E2, E1. reflexivity.
  - rewrite E3, E2, E1. reflexivity.
Qed.

Lemma stop_picking (st : ElementPicker.State) :
  Spec.freshIds st ->
  ElementPicker.listeners (ElementPicker.stop st) = ElementPicker.listeners st
  /\ ElementPicker.styleElements (ElementPicker.stop st) = ElementPicker.styleElements st
  /\ ElementPicker.isPicking (ElementPicker.stop st) = false
  /\ Spec.freshIds (ElementPicker.stop st).
Proof.
  intros Hfresh. unfold ElementPicker.stop.
  destruct (ElementPicker.isPicking st) eqn:Hp; cbn [negb]; [|repeat split; assumption].
  cbv zeta.
  set (st0 := ElementPicker.removeInfoBox
                (ElementPicker.removeHighlight (ElementPicker.setPicking false st))).
  assert (Hsame : ElementPicker.listeners st0 = ElementPicker.listeners st
                  /\ ElementPicker.styleElements st0 = ElementPicker.styleElements st
                  /\ ElementPicker.allocated st0 = ElementPicker.allocated st
                  /\ ElementPicker.isPicking st0 = false).
  { unfold st0, ElementPicker.removeInfoBox. cbn.
    destruct (ElementPicker.infoBox st); repeat split; reflexivity. }
  destruct Hsame as (Hl & Hs & Ha & Hi).
  assert (H0 : Spec.freshIds st0).
  { unfold Spec.freshIds. rewrite Hl, Ha. exact Hfresh. }
  destruct (unlisten_fresh "mouseover" ElementPicker.HandleMouseOver st0 H0) as [E1 H1].
  destruct (unlisten_fresh "click" ElementPicker.HandleClick _ H1) as [E2 H2].
  destruct (unlisten_fresh "keydown" ElementPicker.HandleKeydown _ H2) as [E3 H3].
  split; [|split; [|split]]; [| | |exact H3].
  - rewrite E3, E2, E1. cbn. exact Hl.
  - rewrite E3, E2, E1. cbn. exact Hs.
  - rewrite E3, E2, E1. cbn. exact Hi.
Qed.

Lemma run_counts (calls : list ElementPicker.Call) (st : ElementPicker.State) :
  Spec.freshIds st ->
  Spec.freshIds (ElementPicker.run calls st)
  /\ (forall type, In type ["mouseover"; "click"; "keydown"] ->
        Spec.listenersFor type (ElementPicker.run calls st)
        = (Spec.listenersFor type st
           + Spec.effectiveStarts (ElementPicker.isPicking st) calls)%nat)
  /\ ElementPicker.styleElements (ElementPicker.run calls st)
     = (ElementPicker.styleElements st
        + Spec.effectiveStarts (ElementPicker.isPicking st) calls)%nat.
Proof.
  revert st. induction calls as [|c calls IH]; intros st Hfresh.
  - cbn. split; [exact Hfresh|]. split; [intros; lia | lia].
  - change (ElementPicker.run (c :: calls) st)
      with (ElementPicker.run calls (ElementPicker.call st c)).
    destruct c; cbn [ElementPicker.call Spec.effectiveStarts].
    + destruct (ElementPicker.isPicking st) eqn:Hp.
      * assert (E : ElementPicker.start st = st).
        { unfold ElementPicker.start. rewrite Hp. reflexivity. }
        rewrite E. destruct (IH st Hfresh) as (H1 & H2 & H3). rewrite Hp in H2, H3.
        split; [exact H1|]. split; assumption.
      * destruct (start_idle st Hfresh Hp) as (El & Es & Ei & Hf).
        destruct (IH _ Hf) as (H1 & H2 & H3). rewrite Ei in H2, H3.
        split; [exact H1|]. split.
        -- intros type Htype. rewrite (H2 type Htype).
           unfold Spec.listenersFor at 1. rewrite El, List.filter_app, List.length_app.
           fold (Spec.listenersFor type st).
           cbn [In] in Htype. destruct Htype as [<-|[<-|[<-|[]]]]; cbn; lia.
        -- rewrite H3, Es. lia.
    + destruct (stop_picking st Hfresh) as (El & Es & Ei & Hf).
      destruct (IH _ Hf) as (H1 & H2 & H3). rewrite Ei in H2, H3.
      split; [exact H1|]. split.
      * intros type Htype. rewrite (H2 type Htype). unfold Spec.listenersFor.
        rewrite El. reflexivity.
      * rewrite H3, Es. reflexivity.
Qed.

(** [stop] removes no listener: it hands [removeEventListener] functions
    made anew by [bind], which are not the registered ones.  So after any
    sequence of [start] and [stop] calls on a new picker a further [stop]
    leaves the listeners of the document as they are, and the document
    holds one listener per event type, and the head one style element, for
    every [start] that found the picker idle, whether or not the picker is
    still picking. *)
Theorem stop_removes_no_listener (calls : list ElementPicker.Call) :
  let st := ElementPicker.run calls ElementPicker.initial in
  ElementPicker.listeners (ElementPicker.stop st) = ElementPicker.listeners st
  /\ ElementPicker.isPicking (ElementPicker.stop st) = false
  /\ Spec.listenersFor "mouseover" st = Spec.effectiveStarts false calls
  /\ Spec.listenersFor "click" st = Spec.effectiveStarts false calls
  /\ Spec.listenersFor "keydown" st = Spec.effectiveStarts false calls
  /\ ElementPicker.styleElements st = Spec.effectiveStarts false calls.
Proof.
  cbv zeta.
  assert (H0 : Spec.freshIds ElementPicker.initial) by constructor.
  destruct (run_counts calls ElementPicker.initial H0) as (Hf & Hn & Hs).
  destruct (stop_picking _ Hf) as (El & _ & Ei & _).
  split; [exact El|]. split; [exact Ei|].
  split; [apply (Hn "mouseover"); cbn; tauto|].
  split; [apply (Hn "click"); cbn; tauto|].
  split; [apply (Hn "keydown"); cbn; tauto|].
  exact Hs.
Qed.

Example start_stop_start :
  let st := ElementPicker.run [ElementPicker.Start; ElementPicker.Stop; ElementPicker.Start;
                               ElementPicker.Stop] ElementPicker.initial in
  ElementPicker.isPicking st = false
  /\ List.map (fun r => (ElementPicker.eventType r,
                         ElementPicker.functionId (ElementPicker.callback r)))
       (ElementPicker.listeners st)
     = [("mouseover", 0%nat); ("click", 1%nat); ("keydown", 2%nat);
        ("mouseover", 6%nat); ("click", 7%nat); ("keydown", 8%nat)].
Proof. split; reflexivity. Qed.

(** ** The message listener *)

(** The listener answers every message but three kinds: [getStatus], whose
    handler throws before it answers, a name of a function that the
    handler table inherits, and [__proto__].  A name that the table does
    not know at all is answered with the error [Unknown action]; and
    [highlightElement] is answered with [highlighted: true] also when the
    selector is rejected or selects nothing. *)
Theorem message_answers (generateSelector : Dom.Element -> Js.JsResult string)
  (doc : Dom.Document) (env : DOMScanner.Env) (st : ElementPicker.State)
  (request : Listener.Request) :
  let answer := snd (Listener.onMessage generateSelector doc env st request) in
  (answer = None
   <-> Listener.action request = "getStatus"
       \/ In (Listener.action request) ScrapingEngine.inheritedFunctions
       \/ Listener.action request = "__proto__")
  /\ (Listener.action request = "highlightElement" -> answer = Some Listener.Highlighted)
  /\ (Listener.readAction (Listener.action request) = Listener.Unknown ->
      answer = Some (Listener.ErrorResponse
                       ("Unknown action: " ++ Listener.action request)%string))
  /\ (Listener.action request = "extract" \/ Listener.action request = "scrape" ->
      answer = Some (Listener.ScrapeResponse
                       (DOMScanner.scrape doc env (Listener.requestConfig request)))).
Proof.
  cbv zeta. unfold Listener.onMessage.
  split; [|split; [|split]].
  - unfold Listener.readAction.
    destruct (String.eqb (Listener.action request) "extract") eqn:E1.
    { apply String.eqb_eq in E1. rewrite E1. cbn. split; [discriminate|].
      intros [H|[H|H]]; [discriminate H | | discriminate H].
      cbn in H. intuition discriminate. }
    destruct (String.eqb (Listener.action request) "testSelector") eqn:E2.
    { apply String.eqb_eq in E2. rewrite E2. cbn. split; [discriminate|].
      intros [H|[H|H]]; [discriminate H | | discriminate H].
      cbn in H. intuition discriminate. }
    destruct (String.eqb (Listener.action request) "startElementPicker") eqn:E3.
    { apply String.eqb_eq in E3. rewrite E3. cbn. split; [discriminate|].
      intros [H|[H|H]]; [discriminate H | | discriminate H].
      cbn in H. intuition discriminate. }
    destruct (String.eqb (Listener.action request) "highlightElement") eqn:E4.
    { apply String.eqb_eq in E4. rewrite E4. cbn. split; [discriminate|].
      intros [H|[H|H]]; [discriminate H | | discriminate H].
      cbn in H. intuition discriminate. }
    destruct (String.eqb (Listener.action request) "stopElementPicker") eqn:E5.
    { apply String.eqb_eq in E5. rewrite E5. cbn. split; [discriminate|].
      intros [H|[H|H]]; [discriminate H | | discriminate H].
      cbn in H. intuition discriminate. }
    destruct (String.eqb (Listener.action request) "getStatus") eqn:E6.
    { apply String.eqb_eq in E6. cbn. split; [intros _; left; exact E6 | reflexivity]. }
    destruct (String.eqb (Listener.action request) "scrape") eqn:E7.
    { apply String.eqb_eq in E7. rewrite E7. cbn. split; [discriminate|].
      intros [H|[H|H]]; [discriminate H | | discriminate H].
      cbn in H. intuition discriminate. }
    destruct (existsb (String.eqb (Listener.action request))
                ScrapingEngine.inheritedFunctions) eqn:E8.
    { cbn. split; [|reflexivity]. intros _. right. left.
      apply existsb_exists in E8. destruct E8 as (name & Hin & Heq).
      apply String.eqb_eq in Heq. rewrite Heq. exact Hin. }
    destruct (String.eqb (Listener.action request) "__proto__") eqn:E9.
    { apply String.eqb_eq in E9. cbn. split; [intros _; right; right; exact E9 | reflexivity]. }
    cbn. split; [discriminate|].
    apply String.eqb_neq in E6. apply String.eqb_neq in E9.
    intros [H|[H|H]]; [contradiction | | contradiction].
    assert (existsb (String.eqb (Listener.action request))
              ScrapingEngine.inheritedFunctions = true); [|congruence].
    apply existsb_exists. exists (Listener.action request).
    split; [exact H | apply String.eqb_refl].
  - intros ->. reflexivity.
  - intros ->. reflexivity.
  - intros [->| ->]; reflexivity.
Qed.

Lemma message_answers_witness :
  snd (Listener.onMessage (fun _ => Js.Ok "div") Sample.stockDocument Sample.samplePage
         ElementPicker.initial
         (Listener.mkRequest "highlightElement" Sample.autoConfig "table[" None))
  = Some Listener.Highlighted.
Proof.
  apply (message_answers (fun _ => Js.Ok "div") Sample.stockDocument Sample.samplePage
           ElementPicker.initial
           (Listener.mkRequest "highlightElement" Sample.autoConfig "table[" None)).
  reflexivity.
Defined.

Example messages_sample :
  List.map (fun name =>
              snd (Listener.onMessage (fun _ => Js.Ok "div") Sample.stockDocument
                     Sample.samplePage ElementPicker.initial
                     (Listener.mkRequest name Sample.autoConfig "td" None)))
    ["getStatus"; "valueOf"; "stopElementPicker"; "status"]
  = [None; None; Some Listener.Stopped;
     Some (Listener.ErrorResponse "Unknown action: status")].
Proof. reflexivity. Qed.

(** ** The table detection of the scanner *)

Lemma rowData_keys (j : nat) (cs : list Dom.Element) :
  List.map fst (DOMScanner.rowData j cs)
  = List.map (fun k => ("col" ++ pretty k)%string) (seq j (length cs))
  /\ List.map snd (DOMScanner.rowData j cs)
     = List.map (fun c => Js.trim (Dom.textContent c)) cs.
Proof.
  revert j. induction cs as [|c cs IH]; intros j; [split; reflexivity|].
  cbn [DOMScanner.rowData List.map length seq fst snd].
  destruct (IH (S j)) as [-> ->]. split; reflexivity.
Qed.

Lemma colKeys_NoDup (j n : nat) :
  List.NoDup (List.map (fun k => ("col" ++ pretty k)%string) (seq j n)).
Proof.
  revert j. induction n as [|n IH]; intros j; [apply List.NoDup_nil|].
  cbn [seq List.map]. apply List.NoDup_cons; [|apply IH].
  intros Hin.
  apply (proj1 (List.in_map_iff (fun k => ("col" ++ pretty k)%string) (seq (S j) n) _)) in Hin.
  destruct Hin as (k & Heq & Hk). apply List.in_seq in Hk.
  assert (E : pretty k = pretty j).
  { unfold String.append in Heq. fold String.append in Heq.
    injection Heq as Heq. exact Heq. }
  apply pretty_nat_inj in E. lia.
Qed.

(** The table detection of the scanner takes the first 20 tables of the
    document in document order and reports confidence 0.9 when there is
    one, 0 otherwise.  For each table it gives one record per row, the
    first row and header rows included, and the record of a row has one
    property per cell, named col0, col1, ..., holding the trimmed text of
    the cell. *)
Theorem detectTables_shape (doc : Dom.Document) :
  let found := Dom.documentQuery (Dom.root doc) [Dom.Tag "table"] in
  let d := DOMScanner.detectTables doc in
  DOMScanner.type d = "tables"
  /\ List.map DOMScanner.tableElement (DOMScanner.data d) = firstn 20 found
  /\ length (DOMScanner.data d) = Nat.min 20 (length found)
  /\ DOMScanner.detectionConfidence d
     = match found with [] => 0%Q | _ :: _ => 0.9%Q end
  /\ Forall (fun t =>
        Forall2 (fun record r =>
                   List.NoDup (List.map fst record)
                   /\ List.map fst record
                      = List.map (fun k => ("col" ++ pretty k)%string)
                          (seq 0 (length (Dom.cells r)))
                   /\ List.map snd record
                      = List.map (fun c => Js.trim (Dom.textContent c)) (Dom.cells r))
          (DOMScanner.tableRows t) (Dom.rows (DOMScanner.tableElement t)))
       (DOMScanner.data d).
Proof.
  cbv zeta. unfold DOMScanner.detectTables. cbv zeta.
  cbn [DOMScanner.type DOMScanner.data DOMScanner.detectionConfidence].
  rewrite slice_from_zero.
  set (found := Dom.documentQuery (Dom.root doc) [Dom.Tag "table"]).
  split; [reflexivity|]. split; [|split; [|split]].
  - rewrite List.map_map. cbn [DOMScanner.tableElement DOMScanner.extractTableData].
    apply List.map_id.
  - rewrite List.length_map. apply List.length_firstn.
  - destruct found as [|t found]; [rewrite List.firstn_nil; reflexivity|]. reflexivity.
  - apply List.Forall_forall. intros t Ht. apply in_map_iff in Ht.
    destruct Ht as (table & <- & _).
    cbn [DOMScanner.tableRows DOMScanner.tableElement DOMScanner.extractTableData].
    induction (Dom.rows table) as [|r rs IH]; [constructor|].
    cbn [List.map]. constructor; [|exact IH].
    destruct (rowData_keys 0 (Dom.cells r)) as [Hk Hv].
    split; [rewrite Hk; apply colKeys_NoDup|]. split; assumption.
Qed.

Example stockDocument_detection :
  let d := DOMScanner.detectTables Sample.stockDocument in
  List.map (fun t => length (DOMScanner.tableRows t)) (DOMScanner.data d) = [5%nat]
  /\ List.map (fun t => List.map fst (hd [] (DOMScanner.tableRows t))) (DOMScanner.data d)
     = [["col0"; "col1"; "col2"]].
Proof. split; vm_compute; reflexivity. Qed.
